(** * AFK guard (src/utils/afk-guard.js): activity tracking, session
      locking and blanking of sensitive DOM content.

    The three classes of the module, [ActivityTracker], [SessionManager]
    and [AFKGuard], are embedded as records with explicit state passing.
    Every method takes the receiver (and the readings of [Date.now()] and
    of the host it performs) and returns the new receiver together with
    the list of events it emitted, in emission order. *)

From stdpp Require Import base list strings pretty.
From Stdlib Require Import ZArith Lia Ascii.

Local Open Scope Z_scope.

(** ** Host environment *)

(** What the module reads from its host: which globals exist
    ([typeof window], [ipcMain], the optional [window.api] hooks) and the
    [process.env] variables.  The two numeric variables are given as the
    result of [parseInt]: [None] stands for [NaN] (unset or unparsable). *)
Record Env := {
  hasWindow : bool;
  hasIpcMain : bool;
  hasReportActivity : bool;
  hasNotifySessionLock : bool;
  hasNotifySessionUnlock : bool;
  AFK_TIMEOUT_MINUTES : option Z;
  AFK_WARNING_MINUTES : option Z;
  AFK_ENABLED : option string;
  AFK_UNLOCK_METHOD : option string;
  AFK_UNLOCK_PASSWORD : option string
}.

(** Events emitted on the three emitters, and the calls made to the
    optional [window.api] hooks (the last three constructors). *)
Inductive Event :=
| tracking_started
| tracking_stopped
| activity_detected (type : string) (timestamp : Z)
| inactivity_warning (timeRemaining warningTime : Z)
| inactivity_timeout
| visibility_hidden
| visibility_visible
| focus_change (focused : bool)
| session_locked (lockTime : Z)
| session_unlocked (unlockTime lockDuration : Z) (method : string)
| unlock_failed (method : string)
| memory_cleared
| afk_guard_started
| afk_guard_stopped
| api_reportActivity
| api_notifySessionLock
| api_notifySessionUnlock.

(** A handle returned by [setTimeout(cb, delay)] called at [armedAt];
    [delay] is the argument of the call.  [pending] is cleared when the
    callback has run.  The tracker clears the handle in a slot before it
    overwrites the slot, so the host's queue holds at most the two
    handles the tracker references. *)
Record Timeout := { armedAt : Z; delay : Z; pending : bool }.

Definition setTimeout (now d : Z) : Timeout :=
  {| armedAt := now; delay := d; pending := true |}.

(** The largest delay a host waits for, [2^31 - 1] ms. *)
Definition TIMEOUT_MAX : Z := 2147483647.

(** How long the host waits at least before it runs the callback.  A
    delay from 1 to [TIMEOUT_MAX] is waited for as given.  Any other
    delay is not: Node replaces it by 1 ms, a browser converts it to a
    32-bit integer and takes a negative result as 0, so the callback
    can run straight away. *)
Definition hostDelay (d : Z) : Z :=
  if (1 <=? d) && (d <=? TIMEOUT_MAX) then d else 0.

(** The time before which the host does not run the callback. *)
Definition dueAt (t : Timeout) : Z := armedAt t + hostDelay (delay t).

(** JavaScript [a || b] on numbers: [0] and [NaN] are falsy. *)
Definition truthyZ (v : option Z) : option Z :=
  match v with
  | Some z => if z =? 0 then None else Some z
  | None => None
  end.

(** [a || b] on strings: the empty string and [undefined] are falsy. *)
Definition truthyS (v : option string) : option string :=
  match v with
  | Some s => if String.eqb s "" then None else Some s
  | None => None
  end.

(** [parseInt(process.env.X) * 60 * 1000] *)
Definition minutesToMs (v : option Z) : option Z :=
  match v with Some m => Some (m * 60 * 1000) | None => None end.

(** [x !== 'false'] on an environment variable. *)
Definition notFalseString (v : option string) : bool :=
  match v with Some s => negb (String.eqb s "false") | None => true end.

(** [x !== false] on an optional boolean option. *)
Definition notFalse (v : option bool) : bool :=
  match v with Some false => false | _ => true end.

(** ** ActivityTracker *)

(** The fields of the object, followed by what the host holds for it:
    the [document] events bound to [handleActivity], the
    visibility/focus listeners, and the [ipcMain] listeners.
    [audioCheckInterval] is [true] while the interval handle is set. *)
Record ActivityTracker := {
  timeout : Z;
  warningTime : Z;
  sensitivity : string;
  enabled : bool;
  timer : option Timeout;
  warningTimer : option Timeout;
  isTracking : bool;
  lastActivity : Z;
  activityEvents : list string;
  audioCheckInterval : bool;
  documentListeners : list string;
  focusListeners : bool;
  ipcListeners : bool
}.

(** The options object of the constructor, of [startTracking] and of
    [configure], with the four keys the module documents and
    [getDefaultConfig] sets; an absent key is [None].  An object that
    holds keys of the tracker's state as well is a [TrackerState]
    below. *)
Record TrackerOptions := {
  o_timeout : option Z;
  o_warningTime : option Z;
  o_sensitivity : option string;
  o_enabled : option bool
}.

Definition noOptions : TrackerOptions :=
  {| o_timeout := None; o_warningTime := None;
     o_sensitivity := None; o_enabled := None |}.

Definition newActivityTracker (env : Env) (options : TrackerOptions) (now : Z)
  : ActivityTracker :=
  {| timeout :=
       match truthyZ (o_timeout options) with
       | Some v => v
       | None =>
           match truthyZ (minutesToMs (AFK_TIMEOUT_MINUTES env)) with
           | Some v => v
           | None => 10 * 60 * 1000
           end
       end;
     warningTime :=
       match truthyZ (o_warningTime options) with
       | Some v => v
       | None =>
           match truthyZ (minutesToMs (AFK_WARNING_MINUTES env)) with
           | Some v => v
           | None => 2 * 60 * 1000
           end
       end;
     sensitivity :=
       match truthyS (o_sensitivity options) with
       | Some s => s
       | None => "normal"
       end;
     enabled := notFalse (o_enabled options) && notFalseString (AFK_ENABLED env);
     timer := None;
     warningTimer := None;
     isTracking := false;
     lastActivity := now;
     activityEvents := [];
     audioCheckInterval := false;
     documentListeners := [];
     focusListeners := false;
     ipcListeners := false |}.

(** [Object.assign(this, options)] for an options object: every key
    present overwrites. *)
Definition assignOptions (tr : ActivityTracker) (o : TrackerOptions)
  : ActivityTracker :=
  {| timeout := default (timeout tr) (o_timeout o);
     warningTime := default (warningTime tr) (o_warningTime o);
     sensitivity := default (sensitivity tr) (o_sensitivity o);
     enabled := default (enabled tr) (o_enabled o);
     timer := timer tr;
     warningTimer := warningTimer tr;
     isTracking := isTracking tr;
     lastActivity := lastActivity tr;
     activityEvents := activityEvents tr;
     audioCheckInterval := audioCheckInterval tr;
     documentListeners := documentListeners tr;
     focusListeners := focusListeners tr;
     ipcListeners := ipcListeners tr |}.

Definition baseEvents : list string :=
  ["mousedown"; "mousemove"; "keydown"; "scroll"; "touchstart"]%string.

Definition getActivityEvents (tr : ActivityTracker) : list string :=
  if String.eqb (sensitivity tr) "low" then
    ["mousedown"; "keydown"; "touchstart"]%string
  else if String.eqb (sensitivity tr) "high" then
    baseEvents ++ ["mouseup"; "keyup"; "wheel"; "touchend"; "touchmove"]%string
  else baseEvents.

(** [setupRendererListeners], with [setupAudioMonitoring] inlined:
    [addEventListener] with the same bound function is idempotent, so
    binding the events replaces nothing and adds the missing ones. *)
Definition setupRendererListeners (tr : ActivityTracker) : ActivityTracker :=
  let events := getActivityEvents tr in
  {| timeout := timeout tr;
     warningTime := warningTime tr;
     sensitivity := sensitivity tr;
     enabled := enabled tr;
     timer := timer tr;
     warningTimer := warningTimer tr;
     isTracking := isTracking tr;
     lastActivity := lastActivity tr;
     activityEvents := events;
     audioCheckInterval := true;
     documentListeners :=
       documentListeners tr ++
       filter (fun e => e ∉ documentListeners tr) events;
     focusListeners := true;
     ipcListeners := ipcListeners tr |}.

Definition setupMainProcessListeners (env : Env) (tr : ActivityTracker)
  : ActivityTracker :=
  if hasIpcMain env then
    {| timeout := timeout tr;
       warningTime := warningTime tr;
       sensitivity := sensitivity tr;
       enabled := enabled tr;
       timer := timer tr;
       warningTimer := warningTimer tr;
       isTracking := isTracking tr;
       lastActivity := lastActivity tr;
       activityEvents := activityEvents tr;
       audioCheckInterval := audioCheckInterval tr;
       documentListeners := documentListeners tr;
       focusListeners := focusListeners tr;
       ipcListeners := true |}
  else tr.

(** [resetTimer]: clears both handles and arms two new ones. *)
Definition resetTimer (now : Z) (tr : ActivityTracker) : ActivityTracker :=
  if negb (isTracking tr) then tr
  else
    {| timeout := timeout tr;
       warningTime := warningTime tr;
       sensitivity := sensitivity tr;
       enabled := enabled tr;
       timer := Some (setTimeout now (timeout tr));
       warningTimer := Some (setTimeout now (timeout tr - warningTime tr));
       isTracking := isTracking tr;
       lastActivity := lastActivity tr;
       activityEvents := activityEvents tr;
       audioCheckInterval := audioCheckInterval tr;
       documentListeners := documentListeners tr;
       focusListeners := focusListeners tr;
       ipcListeners := ipcListeners tr |}.

(** The two assignments [this.isTracking = b] and
    [this.lastActivity = now]. *)
Definition setTracking (b : bool) (now : Z) (tr : ActivityTracker)
  : ActivityTracker :=
  {| timeout := timeout tr;
     warningTime := warningTime tr;
     sensitivity := sensitivity tr;
     enabled := enabled tr;
     timer := timer tr;
     warningTimer := warningTimer tr;
     isTracking := b;
     lastActivity := now;
     activityEvents := activityEvents tr;
     audioCheckInterval := audioCheckInterval tr;
     documentListeners := documentListeners tr;
     focusListeners := focusListeners tr;
     ipcListeners := ipcListeners tr |}.

Definition startTracking (env : Env) (now : Z) (options : TrackerOptions)
    (tr : ActivityTracker) : ActivityTracker * list Event :=
  if negb (enabled tr) || isTracking tr then (tr, [])
  else
    let tr1 := assignOptions tr options in
    let tr2 := setTracking true now tr1 in
    let tr3 := if hasWindow env then setupRendererListeners tr2
               else setupMainProcessListeners env tr2 in
    (resetTimer now tr3, [tracking_started]).

(** [handleActivity(event)]; [type] is [event?.type], [None] when the
    event or its type is missing. *)
Definition handleActivity (env : Env) (now : Z) (type : option string)
    (tr : ActivityTracker) : ActivityTracker * list Event :=
  if negb (isTracking tr) then (tr, [])
  else
    let timeSinceLastActivity := now - lastActivity tr in
    if timeSinceLastActivity <? 100 then (tr, [])
    else
      let tr1 := setTracking (isTracking tr) now tr in
      let tr2 := resetTimer now tr1 in
      (tr2,
       (if hasWindow env && hasReportActivity env
        then [api_reportActivity] else []) ++
       [activity_detected
          (match truthyS type with Some s => s | None => "system" end) now]).

(** [handleVisibilityChange]; [hidden] is [document.hidden]. *)
Definition handleVisibilityChange (env : Env) (now : Z) (hidden : bool)
    (tr : ActivityTracker) : ActivityTracker * list Event :=
  if hidden then (tr, [visibility_hidden])
  else
    let '(tr', evs) := handleActivity env now (Some "visibility-change"%string) tr in
    (tr', evs ++ [visibility_visible]).

(** [handleFocusChange(event)] *)
Definition handleFocusChange (env : Env) (now : Z) (type : string)
    (hidden : bool) (tr : ActivityTracker) : ActivityTracker * list Event :=
  let isFocused := String.eqb type "focus" || negb hidden in
  let '(tr', evs) :=
    if isFocused then handleActivity env now (Some "focus-change"%string) tr
    else (tr, []) in
  (tr', evs ++ [focus_change isFocused]).

(** [checkAudioActivity]; [hasActiveAudio] is the result of the scan of
    the audio and video elements. *)
Definition checkAudioActivity (env : Env) (now : Z) (hasActiveAudio : bool)
    (tr : ActivityTracker) : ActivityTracker * list Event :=
  if hasActiveAudio then handleActivity env now (Some "audio-activity"%string) tr
  else (tr, []).

Definition stopTracking (env : Env) (tr : ActivityTracker)
  : ActivityTracker * list Event :=
  if negb (isTracking tr) then (tr, [])
  else
    ({| timeout := timeout tr;
        warningTime := warningTime tr;
        sensitivity := sensitivity tr;
        enabled := enabled tr;
        timer := None;
        warningTimer := None;
        isTracking := false;
        lastActivity := lastActivity tr;
        activityEvents := activityEvents tr;
        audioCheckInterval := false;
        documentListeners :=
          if hasWindow env
          then filter (fun e => e ∉ activityEvents tr) (documentListeners tr)
          else documentListeners tr;
        focusListeners :=
          if hasWindow env then false else focusListeners tr;
        ipcListeners :=
          if hasWindow env then ipcListeners tr
          else if hasIpcMain env then false else ipcListeners tr |},
     [tracking_stopped]).

(** *** Timer callbacks *)

Definition expire (t : Timeout) : Timeout :=
  {| armedAt := armedAt t; delay := delay t; pending := false |}.

(** A handle can run its callback once, no earlier than its deadline. *)
Definition isDue (now : Z) (o : option Timeout) : bool :=
  match o with
  | Some t => pending t && (dueAt t <=? now)
  | None => false
  end.

(** The tracker with its two timer slots replaced. *)
Definition withTimers (t w : option Timeout) (tr : ActivityTracker)
  : ActivityTracker :=
  {| timeout := timeout tr;
     warningTime := warningTime tr;
     sensitivity := sensitivity tr;
     enabled := enabled tr;
     timer := t;
     warningTimer := w;
     isTracking := isTracking tr;
     lastActivity := lastActivity tr;
     activityEvents := activityEvents tr;
     audioCheckInterval := audioCheckInterval tr;
     documentListeners := documentListeners tr;
     focusListeners := focusListeners tr;
     ipcListeners := ipcListeners tr |}.

(** The callback of [warningTimer] runs. *)
Definition fireWarningTimer (now : Z) (tr : ActivityTracker)
  : ActivityTracker * list Event :=
  if isDue now (warningTimer tr) then
    (withTimers (timer tr) (expire <$> warningTimer tr) tr,
     [inactivity_warning (timeout tr - warningTime tr) (warningTime tr)])
  else (tr, []).

(** The callback of [timer] runs. *)
Definition fireTimer (now : Z) (tr : ActivityTracker)
  : ActivityTracker * list Event :=
  if isDue now (timer tr) then
    (withTimers (expire <$> timer tr) (warningTimer tr) tr,
     [inactivity_timeout])
  else (tr, []).

(** Does the tracker have a deadline outstanding? *)
Definition hasDeadline (tr : ActivityTracker) : bool :=
  match timer tr, warningTimer tr with
  | Some t, Some w => pending t || pending w
  | Some t, None => pending t
  | None, Some w => pending w
  | None, None => false
  end.

(** *** Host signals *)

(** What the host can deliver to the listeners the tracker registered. *)
Inductive Signal :=
| DocumentEvent (name : string)
| VisibilityChange (hidden : bool)
| WindowFocusEvent (type : string) (hidden : bool)
| AudioCheck (hasActiveAudio : bool)
| IpcUserActivity (type : option string).

Definition deliver (env : Env) (now : Z) (sig : Signal) (tr : ActivityTracker)
  : ActivityTracker * list Event :=
  match sig with
  | DocumentEvent name =>
      if bool_decide (name ∈ documentListeners tr)
      then handleActivity env now (Some name) tr else (tr, [])
  | VisibilityChange hidden =>
      if focusListeners tr then handleVisibilityChange env now hidden tr
      else (tr, [])
  | WindowFocusEvent type hidden =>
      if focusListeners tr then handleFocusChange env now type hidden tr
      else (tr, [])
  | AudioCheck hasActiveAudio =>
      if audioCheckInterval tr then checkAudioActivity env now hasActiveAudio tr
      else (tr, [])
  | IpcUserActivity type =>
      if ipcListeners tr then handleActivity env now type tr else (tr, [])
  end.

Definition isPulse (ev : Event) : bool :=
  match ev with activity_detected _ _ => true | _ => false end.

Definition emitsPulse (evs : list Event) : bool := existsb isPulse evs.

(** A run of [handleActivity] calls, each at its own time. *)
Fixpoint handleActivities (env : Env) (calls : list (Z * option string))
    (tr : ActivityTracker) : ActivityTracker * list Event :=
  match calls with
  | [] => (tr, [])
  | (now, type) :: rest =>
      let '(tr1, evs1) := handleActivity env now type tr in
      let '(tr2, evs2) := handleActivities env rest tr1 in
      (tr2, evs1 ++ evs2)
  end.

(** *** The sensitivity table as the specification words it *)

Inductive Sensitivity := Low | Normal | High.

Inductive EventKind :=
| PointerDown | KeyDown | ExternalReport
| PointerMove | Scroll
| PointerUp | KeyUp | Wheel | MediaPlayback.

(** From the specification: Low enables only Pointer-down, Key-down and
    ExternalReport; Normal adds Pointer-move and Scroll; High adds
    Pointer-up, Key-up, Wheel and MediaPlayback. *)
Definition specEnabled (s : Sensitivity) (k : EventKind) : bool :=
  match k with
  | PointerDown | KeyDown | ExternalReport => true
  | PointerMove | Scroll =>
      match s with Low => false | _ => true end
  | PointerUp | KeyUp | Wheel | MediaPlayback =>
      match s with High => true | _ => false end
  end.

Definition sensitivityName (s : Sensitivity) : string :=
  match s with Low => "low" | Normal => "normal" | High => "high" end.

(** How each kind reaches the tracker. *)
Definition signalOf (k : EventKind) : Signal :=
  match k with
  | PointerDown => DocumentEvent "mousedown"
  | KeyDown => DocumentEvent "keydown"
  | ExternalReport => IpcUserActivity None
  | PointerMove => DocumentEvent "mousemove"
  | Scroll => DocumentEvent "scroll"
  | PointerUp => DocumentEvent "mouseup"
  | KeyUp => DocumentEvent "keyup"
  | Wheel => DocumentEvent "wheel"
  | MediaPlayback => AudioCheck true
  end.

Definition withSensitivity (s : Sensitivity) : TrackerOptions :=
  {| o_timeout := None; o_warningTime := None;
     o_sensitivity := Some (sensitivityName s); o_enabled := None |}.

(** A renderer process without the optional hooks and with an empty
    [process.env]. *)
Definition rendererEnv : Env :=
  {| hasWindow := true; hasIpcMain := false; hasReportActivity := false;
     hasNotifySessionLock := false; hasNotifySessionUnlock := false;
     AFK_TIMEOUT_MINUTES := None; AFK_WARNING_MINUTES := None;
     AFK_ENABLED := None; AFK_UNLOCK_METHOD := None;
     AFK_UNLOCK_PASSWORD := None |}.

(** The main process: no [window], [ipcMain] present. *)
Definition mainEnv : Env :=
  {| hasWindow := false; hasIpcMain := true; hasReportActivity := false;
     hasNotifySessionLock := false; hasNotifySessionUnlock := false;
     AFK_TIMEOUT_MINUTES := None; AFK_WARNING_MINUTES := None;
     AFK_ENABLED := None; AFK_UNLOCK_METHOD := None;
     AFK_UNLOCK_PASSWORD := None |}.

(** ** The document *)

(** An element as far as the module looks at it, and what it needs to
    know of the tree.  Elements are referred to by their position in the
    list, which never changes; the list holds the elements that exist
    when the module runs, in document order.  An element may be left
    out when no sensitive selector matches it; the model then says
    nothing about it (about the class of the body, when the body is
    left out).

    - [innerHTML] is the serialization of the element's content, [None]
      when the model does not know it: the model does not serialize, so
      the [innerHTML] of an element is lost when something inside it
      changes, and known again when the module assigns it.  [None] is
      no string: two unknown serializations need not be the same.
    - [value] is [element.value || ''].  The module writes the [value]
      of an [INPUT] only, and reads back what it stored of a [value] for
      an [INPUT] only; the model follows the property for an [INPUT].
    - [attached] tells whether [parentNode] is non-null, [inDocument]
      whether the element is in the tree of the document.
    - [parentElement] is the handle of the parent when the parent is an
      element of the list, and [ancestors] lists the handles of the
      elements of the list that contain the element, nearest first.
    - [tagName] is in upper case and the names in [attributes] are in
      lower case, as they are for HTML elements.  [attributes] holds
      the attributes other than [class], which is [classList].
    - [isBody] marks the element that is [document.body].

    The elements the parser makes when an [innerHTML] is assigned are
    new elements; none of them is in the list. *)
Record Element := {
  tagName : string;
  classList : list string;
  attributes : list (string * string);
  innerHTML : option string;
  value : string;
  attached : bool;
  inDocument : bool;
  parentElement : option nat;
  ancestors : list nat;
  isBody : bool
}.

Abbreviation Document := (list Element).

(** [element.className] *)
Definition className (el : Element) : string :=
  String.concat " " (classList el).

Definition getAttribute (name : string) (el : Element) : option string :=
  snd <$> find (fun kv => String.eqb (fst kv) name) (attributes el).

Definition classListAdd (c : string) (el : Element) : Element :=
  {| tagName := tagName el;
     classList :=
       if bool_decide (c ∈ classList el) then classList el
       else classList el ++ [c];
     attributes := attributes el;
     innerHTML := innerHTML el;
     value := value el;
     attached := attached el;
     inDocument := inDocument el;
     parentElement := parentElement el;
     ancestors := ancestors el;
     isBody := isBody el |}.

Definition classListRemove (c : string) (el : Element) : Element :=
  {| tagName := tagName el;
     classList := filter (fun c' => c' ≠ c) (classList el);
     attributes := attributes el;
     innerHTML := innerHTML el;
     value := value el;
     attached := attached el;
     inDocument := inDocument el;
     parentElement := parentElement el;
     ancestors := ancestors el;
     isBody := isBody el |}.

Definition setInnerHTML (s : option string) (el : Element) : Element :=
  {| tagName := tagName el;
     classList := classList el;
     attributes := attributes el;
     innerHTML := s;
     value := value el;
     attached := attached el;
     inDocument := inDocument el;
     parentElement := parentElement el;
     ancestors := ancestors el;
     isBody := isBody el |}.

Definition setValue (s : string) (el : Element) : Element :=
  {| tagName := tagName el;
     classList := classList el;
     attributes := attributes el;
     innerHTML := innerHTML el;
     value := s;
     attached := attached el;
     inDocument := inDocument el;
     parentElement := parentElement el;
     ancestors := ancestors el;
     isBody := isBody el |}.

(** The part of a list of handles that comes before [h]. *)
Fixpoint before (h : nat) (l : list nat) : list nat :=
  match l with
  | [] => []
  | a :: rest => if decide (a = h) then [] else a :: before h rest
  end.

(** What becomes of an element inside [h] when the [innerHTML] of [h]
    is assigned: the content of [h] is replaced, so the element leaves
    the document together with the subtree of the child of [h] it is
    in.  A child of [h] loses its parent; a deeper element keeps its
    parent and the ancestors below [h]. *)
Definition detach (h : nat) (el : Element) : Element :=
  {| tagName := tagName el;
     classList := classList el;
     attributes := attributes el;
     innerHTML := innerHTML el;
     value := value el;
     attached :=
       if bool_decide (parentElement el = Some h) then false
       else attached el;
     inDocument := false;
     parentElement :=
       if bool_decide (parentElement el = Some h) then None
       else parentElement el;
     ancestors := before h (ancestors el);
     isBody := isBody el |}.

(** A write to element [h], which was [old] and becomes [new], as the
    other elements see it.  When the write assigns [innerHTML]
    ([replaced]), the elements inside [h] are detached.  The elements
    that contain [h] have another serialization than before. *)
Definition domWrite (h : nat) (old new : Element) (replaced : bool)
    (doc : Document) : Document :=
  imap (fun i el =>
          if decide (i = h) then new
          else if replaced && bool_decide (h ∈ ancestors el) then detach h el
          else if bool_decide (i ∈ ancestors old) then setInnerHTML None el
          else el) doc.

(** ASCII lower case, as selectors compare the value of [type]. *)
Definition asciiLower (c : Ascii.ascii) : Ascii.ascii :=
  let n := Ascii.nat_of_ascii c in
  if ((65 <=? n) && (n <=? 90))%nat then Ascii.ascii_of_nat (n + 32) else c.

Fixpoint lowerCase (s : string) : string :=
  match s with
  | EmptyString => EmptyString
  | String c rest => String (asciiLower c) (lowerCase rest)
  end.

(** The three shapes of selector the module uses: [[name]], [.class]
    and [input[type=t]]. *)
Inductive Selector :=
| HasAttribute (name : string)
| HasClass (c : string)
| InputOfType (t : string).

Definition isInput (el : Element) : bool := String.eqb (tagName el) "INPUT".

(** [element.matches(selector)] in an HTML document in no-quirks mode:
    class names are compared as they are, the value of the [type]
    attribute without regard to ASCII case. *)
Definition matches (sel : Selector) (el : Element) : bool :=
  match sel with
  | HasAttribute name =>
      match getAttribute name el with Some _ => true | None => false end
  | HasClass c => bool_decide (c ∈ classList el)
  | InputOfType t =>
      isInput el &&
      match getAttribute "type" el with
      | Some t' => String.eqb (lowerCase t') (lowerCase t)
      | None => false
      end
  end.

(** [document.querySelectorAll(selector)]: the handles of the elements
    in the document that match, in document order. *)
Definition selects (doc : Document) (sel : Selector) (h : nat) : bool :=
  match doc !! h with
  | Some el => inDocument el && matches sel el
  | None => false
  end.

Definition querySelectorAll (doc : Document) (sel : Selector) : list nat :=
  List.filter (selects doc sel) (seq 0 (length doc)).

Definition sensitiveSelectors : list Selector :=
  [ HasAttribute "data-sensitive";
    HasClass "api-key";
    HasClass "user-token";
    HasClass "search-history";
    HasClass "personal-data";
    InputOfType "password";
    HasClass "sample-metadata";
    HasClass "user-profile" ].

Definition doubleQuote : string := String (Ascii.ascii_of_nat 34) "".

Definition maskedValue : string := "••••••••".

Definition maskedHTML : string :=
  "<span class=" +:+ doubleQuote +:+ "afk-blanked" +:+ doubleQuote +:+
  ">••••••••</span>".

(** What the module blanks and restores: the [value] of an [INPUT], the
    [innerHTML] of any other element. *)
Definition content (el : Element) : option string :=
  if isInput el then Some (value el) else innerHTML el.

Definition maskedContent (el : Element) : string :=
  if isInput el then maskedValue else maskedHTML.

(** [document.body], when it is an element of the list. *)
Definition documentBody (doc : Document) : option (nat * Element) :=
  list_find (fun el => isBody el = true /\ inDocument el = true) doc.

Definition sessionLockedClass : string := "afk-session-locked".

(** [if (document.body) document.body.classList.add(c)], or [remove]. *)
Definition setBodyClass (add : bool) (doc : Document) : Document :=
  match documentBody doc with
  | Some (b, el) =>
      domWrite b el
        ((if add then classListAdd else classListRemove) sessionLockedClass el)
        false doc
  | None => doc
  end.

(** ** SessionManager *)

(** An entry of [sensitiveDataBackup].  The entry's [originalText],
    which nothing reads, is left out. *)
Record Backup := {
  element : nat;
  originalContent : option string;
  originalValue : string
}.

(** A JavaScript [Map] keyed by strings: insertion order is kept and
    [set] on a present key overwrites the value in place. *)
Fixpoint mapSet {V} (k : string) (v : V) (m : list (string * V))
  : list (string * V) :=
  match m with
  | [] => [(k, v)]
  | (k', v') :: rest =>
      if String.eqb k' k then (k', v) :: rest
      else (k', v') :: mapSet k v rest
  end.

Record SessionManager := {
  unlockMethod : string;
  isLocked : bool;
  lockTime : option Z;
  sensitiveDataBackup : list (string * Backup);
  memoryCache : list (string * string)
}.

Definition newSessionManager (env : Env) (method : option string)
  : SessionManager :=
  {| unlockMethod :=
       match truthyS method with
       | Some m => m
       | None =>
           match truthyS (AFK_UNLOCK_METHOD env) with
           | Some m => m
           | None => "click"
           end
       end;
     isLocked := false;
     lockTime := None;
     sensitiveDataBackup := [];
     memoryCache := [] |}.

(** One reading of [Date.now()] and of
    [Math.random().toString(36).substr(2, 9)]. *)
Definition Draw : Type := Z * string.

(** [generateElementId(element)] *)
Definition generateElementId (el : Element) (d : Draw) : string :=
  "afk_" +:+ tagName el +:+ "_" +:+ className el +:+ "_" +:+
  pretty d.1 +:+ "_" +:+ d.2.

Definition blankedClass : string := "afk-sensitive-blanked".

(** The element the inner [forEach] of [blankSensitiveData] leaves in
    place of [el]. *)
Definition blanked (el : Element) : Element :=
  classListAdd blankedClass
    (if isInput el then setValue maskedValue el
     else setInnerHTML (Some maskedHTML) el).

(** The body of the inner [forEach] of [blankSensitiveData]: snapshot
    the element under a new id, then mask it. *)
Definition blankElement (d : Draw) (h : nat)
    (st : Document * list (string * Backup)) : Document * list (string * Backup) :=
  match st.1 !! h with
  | None => st
  | Some el =>
      let id := generateElementId el d in
      let backup :=
        mapSet id {| element := h;
                     originalContent := innerHTML el;
                     originalValue := value el |} st.2 in
      (domWrite h el (blanked el) (negb (isInput el)) st.1, backup)
  end.

(** [elements.forEach]: [draws n], [draws (n+1)], ... are the draws of
    the successive calls of [generateElementId]. *)
Fixpoint blankElements (draws : nat -> Draw) (n : nat) (hs : list nat)
    (st : Document * list (string * Backup))
  : Document * list (string * Backup) * nat :=
  match hs with
  | [] => (st, n)
  | h :: rest => blankElements draws (S n) rest (blankElement (draws n) h st)
  end.

(** [sensitiveSelectors.forEach]: each selector is queried on the
    document as the previous ones left it. *)
Fixpoint blankSelectors (draws : nat -> Draw) (n : nat) (sels : list Selector)
    (st : Document * list (string * Backup))
  : Document * list (string * Backup) * nat :=
  match sels with
  | [] => (st, n)
  | sel :: rest =>
      let elements := querySelectorAll st.1 sel in
      let '(st1, n1) := blankElements draws n elements st in
      blankSelectors draws n1 rest st1
  end.

Definition withBackup (b : list (string * Backup)) (sm : SessionManager)
  : SessionManager :=
  {| unlockMethod := unlockMethod sm;
     isLocked := isLocked sm;
     lockTime := lockTime sm;
     sensitiveDataBackup := b;
     memoryCache := memoryCache sm |}.

(** [blankSensitiveData] *)
Definition blankSensitiveData (env : Env) (draws : nat -> Draw)
    (st : SessionManager * Document) : SessionManager * Document :=
  if negb (hasWindow env) then st
  else
    let '(doc, backup, _) :=
      blankSelectors draws 0 sensitiveSelectors
        (st.2, sensitiveDataBackup st.1) in
    (withBackup backup st.1, setBodyClass true doc).

(** What an entry of the backup writes into the element [el]. *)
Definition restored (b : Backup) (el : Element) : Element :=
  classListRemove blankedClass
    (if isInput el then setValue (originalValue b) el
     else setInnerHTML (originalContent b) el).

(** The body of the [forEach] of [restoreSensitiveData]. *)
Definition restoreEntry (doc : Document) (b : Backup) : Document :=
  match doc !! element b with
  | Some el =>
      if attached el then
        domWrite (element b) el (restored b el) (negb (isInput el)) doc
      else doc
  | None => doc
  end.

(** [restoreSensitiveData] *)
Definition restoreSensitiveData (env : Env) (st : SessionManager * Document)
  : SessionManager * Document :=
  if negb (hasWindow env) then st
  else
    (withBackup [] st.1,
     setBodyClass false
       (foldl restoreEntry st.2 (sensitiveDataBackup st.1).*2)).

(** [clearMemoryCache], as far as the object's own cache goes; the
    session storage and the global caches of the window are the host's. *)
Definition clearMemoryCache (sm : SessionManager)
  : SessionManager * list Event :=
  ({| unlockMethod := unlockMethod sm;
      isLocked := isLocked sm;
      lockTime := lockTime sm;
      sensitiveDataBackup := sensitiveDataBackup sm;
      memoryCache := [] |},
   [memory_cleared]).

Definition setLocked (b : bool) (t : option Z) (sm : SessionManager)
  : SessionManager :=
  {| unlockMethod := unlockMethod sm;
     isLocked := b;
     lockTime := t;
     sensitiveDataBackup := sensitiveDataBackup sm;
     memoryCache := memoryCache sm |}.

(** [lockSession].  The lock screen overlay is not part of the model:
    [showLockScreen] makes it of new elements, none of which is in the
    list, and appends it to the body; [hideLockScreen] hides it and
    leaves it there.  A page that still holds the overlay of an earlier
    lock is a document whose list has the elements of the overlay; in a
    run of operations the overlay comes in by a change of the
    document. *)
Definition lockSession (env : Env) (now : Z) (draws : nat -> Draw)
    (st : SessionManager * Document)
  : SessionManager * Document * list Event :=
  if isLocked st.1 then (st, [])
  else
    let sm1 := setLocked true (Some now) st.1 in
    let '(sm2, doc2) := blankSensitiveData env draws (sm1, st.2) in
    let '(sm3, evs) := clearMemoryCache sm2 in
    (sm3, doc2,
     evs ++
     (if hasWindow env && hasNotifySessionLock env
      then [api_notifySessionLock] else []) ++
     [session_locked now]).

Definition isSessionLocked (sm : SessionManager) : bool := isLocked sm.

(** What is passed as [credentials]: [null] (or nothing), or an object
    whose [password] may be missing. *)
Inductive Credentials :=
| cred_null
| cred_object (password : option string).

Definition getStoredPassword (env : Env) : string :=
  match truthyS (AFK_UNLOCK_PASSWORD env) with
  | Some p => p
  | None => "default"
  end.

(** [validateOSAuth]: a placeholder that accepts. *)
Definition validateOSAuth (creds : Credentials) : bool := true.

Definition validateUnlock (env : Env) (sm : SessionManager)
    (creds : Credentials) : bool :=
  if String.eqb (unlockMethod sm) "click" then true
  else if String.eqb (unlockMethod sm) "password" then
    match creds with
    | cred_object (Some p) => String.eqb p (getStoredPassword env)
    | _ => false
    end
  else if String.eqb (unlockMethod sm) "os" then validateOSAuth creds
  else true.

(** [unlockSession] is [async]: the call runs up to the [await] and the
    rest runs later, as a microtask. *)
Inductive UnlockCall :=
| Returned (result : bool)
| Awaiting (isValid : bool).

Definition unlockSession_call (env : Env) (creds : Credentials)
    (sm : SessionManager) : UnlockCall :=
  if negb (isLocked sm) then Returned true
  else Awaiting (validateUnlock env sm creds).

Definition unlockSession_resume (env : Env) (now : Z) (isValid : bool)
    (st : SessionManager * Document)
  : SessionManager * Document * list Event * bool :=
  if negb isValid then (st, [unlock_failed (unlockMethod st.1)], false)
  else
    let sm1 := setLocked false (lockTime st.1) st.1 in
    let unlockTime := now in
    let lockDuration := unlockTime - default 0 (lockTime st.1) in
    let '(sm2, doc2) := restoreSensitiveData env (sm1, st.2) in
    (sm2, doc2,
     (if hasWindow env && hasNotifySessionUnlock env
      then [api_notifySessionUnlock] else []) ++
     [session_unlocked unlockTime lockDuration (unlockMethod sm2)],
     true).

(** An awaited [unlockSession(credentials)]: the call and its
    continuation with nothing in between. *)
Definition unlockSession (env : Env) (now : Z) (creds : Credentials)
    (st : SessionManager * Document)
  : SessionManager * Document * list Event * bool :=
  match unlockSession_call env creds st.1 with
  | Returned r => (st, [], r)
  | Awaiting isValid => unlockSession_resume env now isValid st
  end.

(** ** AFKGuard *)

Record AFKGuard := {
  activityTracker : ActivityTracker;
  sessionManager : SessionManager;
  guardEnabled : bool
}.

(** The options of the constructor, of [start] and of [configure]:
    [options.activity], [options.session.unlockMethod] and
    [options.enabled]. *)
Record GuardOptions := {
  g_activity : TrackerOptions;
  g_unlockMethod : option string;
  g_enabled : option bool
}.

Definition newAFKGuard (env : Env) (options : GuardOptions) (now : Z)
  : AFKGuard :=
  {| activityTracker := newActivityTracker env (g_activity options) now;
     sessionManager := newSessionManager env (g_unlockMethod options);
     guardEnabled :=
       notFalse (g_enabled options) && notFalseString (AFK_ENABLED env) |}.

Definition withTracker (tr : ActivityTracker) (g : AFKGuard) : AFKGuard :=
  {| activityTracker := tr;
     sessionManager := sessionManager g;
     guardEnabled := guardEnabled g |}.

Definition withSession (sm : SessionManager) (g : AFKGuard) : AFKGuard :=
  {| activityTracker := activityTracker g;
     sessionManager := sm;
     guardEnabled := guardEnabled g |}.

(** The emitter an event was emitted on. *)
Inductive Emitter := onTracker | onSession | onGuard.

Definition Log := list (Emitter * Event).

Definition tag (e : Emitter) (evs : list Event) : Log := map (pair e) evs.

(** The listeners [setupEventForwarding] puts on the session manager.
    They touch the tracker and the guard's emitter only, so they are run
    on the events of a session manager method after the method. *)
Definition onSessionEvent (env : Env) (now : Z) (ev : Event) (g : AFKGuard)
  : AFKGuard * Log :=
  match ev with
  | session_locked _ =>
      let '(tr, evs) := stopTracking env (activityTracker g) in
      (withTracker tr g, tag onTracker evs ++ [(onGuard, ev)])
  | session_unlocked _ _ _ =>
      let '(tr, evs) :=
        if guardEnabled g
        then startTracking env now noOptions (activityTracker g)
        else (activityTracker g, []) in
      (withTracker tr g, tag onTracker evs ++ [(onGuard, ev)])
  | unlock_failed _ => (g, [(onGuard, ev)])
  | _ => (g, [])
  end.

Fixpoint forwardSession (env : Env) (now : Z) (evs : list Event)
    (g : AFKGuard) : AFKGuard * Log :=
  match evs with
  | [] => (g, [])
  | ev :: rest =>
      let '(g1, l1) := onSessionEvent env now ev g in
      let '(g2, l2) := forwardSession env now rest g1 in
      (g2, (onSession, ev) :: l1 ++ l2)
  end.

(** [sessionManager.lockSession()] with the guard's listeners. *)
Definition guardLockSession (env : Env) (now : Z) (draws : nat -> Draw)
    (st : AFKGuard * Document) : AFKGuard * Document * Log :=
  let '(sm, doc, evs) := lockSession env now draws (sessionManager st.1, st.2) in
  let '(g, log) := forwardSession env now evs (withSession sm st.1) in
  (g, doc, log).

(** The listeners [setupEventForwarding] puts on the tracker. *)
Definition onTrackerEvent (env : Env) (now : Z) (draws : nat -> Draw)
    (ev : Event) (st : AFKGuard * Document) : AFKGuard * Document * Log :=
  match ev with
  | inactivity_timeout =>
      if guardEnabled st.1 then guardLockSession env now draws st
      else (st, [])
  | inactivity_warning _ _ => (st, [(onGuard, ev)])
  | activity_detected _ _ => (st, [(onGuard, ev)])
  | _ => (st, [])
  end.

Fixpoint forwardTracker (env : Env) (now : Z) (draws : nat -> Draw)
    (evs : list Event) (st : AFKGuard * Document)
  : AFKGuard * Document * Log :=
  match evs with
  | [] => (st, [])
  | ev :: rest =>
      let '(st1, l1) := onTrackerEvent env now draws ev st in
      let '(st2, l2) := forwardTracker env now draws rest st1 in
      (st2, (onTracker, ev) :: l1 ++ l2)
  end.

(** A tracker method run inside the guard. *)
Definition onTracker_run (env : Env) (now : Z) (draws : nat -> Draw)
    (f : ActivityTracker -> ActivityTracker * list Event)
    (st : AFKGuard * Document) : AFKGuard * Document * Log :=
  let '(tr, evs) := f (activityTracker st.1) in
  forwardTracker env now draws evs (withTracker tr st.1, st.2).

Definition guardFireTimer (env : Env) (now : Z) (draws : nat -> Draw)
    (st : AFKGuard * Document) : AFKGuard * Document * Log :=
  onTracker_run env now draws (fireTimer now) st.

Definition guardFireWarningTimer (env : Env) (now : Z) (draws : nat -> Draw)
    (st : AFKGuard * Document) : AFKGuard * Document * Log :=
  onTracker_run env now draws (fireWarningTimer now) st.

Definition guardDeliver (env : Env) (now : Z) (draws : nat -> Draw)
    (sig : Signal) (st : AFKGuard * Document) : AFKGuard * Document * Log :=
  onTracker_run env now draws (deliver env now sig) st.

(** [start(options)] *)
Definition start (env : Env) (now : Z) (options : GuardOptions)
    (g : AFKGuard) : AFKGuard * Log :=
  if negb (guardEnabled g) then (g, [])
  else
    let '(tr, evs) :=
      startTracking env now (g_activity options) (activityTracker g) in
    (withTracker tr g, tag onTracker evs ++ [(onGuard, afk_guard_started)]).

(** An awaited [sessionManager.unlockSession(credentials)] with the
    guard's listeners. *)
Definition guardUnlockSession (env : Env) (now : Z) (creds : Credentials)
    (st : AFKGuard * Document) : AFKGuard * Document * Log * bool :=
  let '(sm, doc, evs, r) :=
    unlockSession env now creds (sessionManager st.1, st.2) in
  let '(g, log) := forwardSession env now evs (withSession sm st.1) in
  (g, doc, log, r).

(** [stop()], up to the end of the microtask that finishes the
    [unlockSession()] it launched without awaiting it. *)
Definition stop (env : Env) (now : Z) (st : AFKGuard * Document)
  : AFKGuard * Document * Log :=
  let '(tr, evs) := stopTracking env (activityTracker st.1) in
  let g1 := withTracker tr st.1 in
  let call :=
    if isSessionLocked (sessionManager g1)
    then unlockSession_call env cred_null (sessionManager g1)
    else Returned true in
  let log1 := tag onTracker evs ++ [(onGuard, afk_guard_stopped)] in
  match call with
  | Returned _ => (g1, st.2, log1)
  | Awaiting isValid =>
      let '(sm, doc, evs2, _) :=
        unlockSession_resume env now isValid (sessionManager g1, st.2) in
      let '(g2, log2) := forwardSession env now evs2 (withSession sm g1) in
      (g2, doc, log1 ++ log2)
  end.

(** [configure(options)] for options that hold configuration:
    [activity] is [options.activity] ([None] when it is missing),
    [method] is [options.session.unlockMethod] and [en] is
    [options.enabled].  What [configure] does when [options.activity]
    or [options.session] names fields of the state is [assignState]
    and [assignSession] below. *)
Definition configure (activity : option TrackerOptions)
    (method : option string) (en : option bool) (g : AFKGuard) : AFKGuard :=
  {| activityTracker :=
       match activity with
       | Some o => assignOptions (activityTracker g) o
       | None => activityTracker g
       end;
     sessionManager :=
       match method with
       | Some m =>
           {| unlockMethod := m;
              isLocked := isLocked (sessionManager g);
              lockTime := lockTime (sessionManager g);
              sensitiveDataBackup := sensitiveDataBackup (sessionManager g);
              memoryCache := memoryCache (sessionManager g) |}
       | None => sessionManager g
       end;
     guardEnabled := default (guardEnabled g) en |}.

(** ** Definitions used by the statements *)

Definition badDurations : TrackerOptions :=
  {| o_timeout := Some 1000; o_warningTime := Some 2000;
     o_sensitivity := None; o_enabled := None |}.

Definition zeroDurations : TrackerOptions :=
  {| o_timeout := Some 0; o_warningTime := Some (-5);
     o_sensitivity := None; o_enabled := None |}.

Definition startedTracker (s : Sensitivity) : ActivityTracker :=
  (startTracking rendererEnv 0 noOptions
     (newActivityTracker rendererEnv (withSensitivity s) 0)).1.

(** The tracker on its own after its timeout has fired. *)
Definition expiredTracker : ActivityTracker :=
  (fireTimer 600000 (fireWarningTimer 480000 (startedTracker Normal)).1).1.

(** What can happen to a session manager and its document: a
    [lockSession()], an awaited [unlockSession(credentials)], the
    continuation of an [unlockSession] call that was not awaited (with
    the verdict it computed when called), and any change of the
    document made by the page. *)
Inductive SessionOp :=
| op_lockSession (now : Z) (draws : nat -> Draw)
| op_unlockSession (now : Z) (creds : Credentials)
| op_unlockResume (now : Z) (isValid : bool)
| op_pageChange (doc : Document).

Definition runOp (env : Env) (op : SessionOp) (st : SessionManager * Document)
  : SessionManager * Document :=
  match op with
  | op_lockSession now draws => (lockSession env now draws st).1
  | op_unlockSession now creds => (unlockSession env now creds st).1.1
  | op_unlockResume now isValid => (unlockSession_resume env now isValid st).1.1
  | op_pageChange doc => (st.1, doc)
  end.

Definition runOps (env : Env) (ops : list SessionOp)
    (st : SessionManager * Document) : SessionManager * Document :=
  foldl (fun s op => runOp env op s) st ops.

(** The invariant: the backup is empty when unlocked, and always empty
    where there is no window (nothing is ever blanked there). *)
Definition vaultInvariant (env : Env) (sm : SessionManager) : Prop :=
  (isLocked sm = false -> sensitiveDataBackup sm = []) /\
  (hasWindow env = false -> sensitiveDataBackup sm = []).

(** Sample data: an API key shown in a [div], a token typed in an
    [input], and draws whose random parts are "0", "1", "2", ... *)
Definition apiKeyDiv : Element :=
  {| tagName := "DIV"; classList := ["api-key"]; attributes := [];
     innerHTML := Some "sk-12345"; value := "";
     attached := true; inDocument := true; parentElement := None;
     ancestors := []; isBody := false |}.

Definition tokenInput : Element :=
  {| tagName := "INPUT"; classList := ["user-token"];
     attributes := [("type", "text")];
     innerHTML := Some ""; value := "tok-678";
     attached := true; inDocument := true; parentElement := None;
     ancestors := []; isBody := false |}.

Definition sampleDoc : Document := [apiKeyDiv; tokenInput].

Definition sampleDraws (offset : nat) (n : nat) : Draw :=
  (1700000000000, pretty (offset + n)%nat).

Definition passwordManager : SessionManager :=
  newSessionManager rendererEnv (Some "password").

(** A session locked at time 1000 under the password method. *)
Definition lockedByPassword : SessionManager * Document :=
  (lockSession rendererEnv 1000 (sampleDraws 0) (passwordManager, sampleDoc)).1.

(** A run of awaited unlock attempts; the results are collected. *)
Fixpoint unlockAttempts (env : Env) (attempts : list (Z * Credentials))
    (st : SessionManager * Document)
  : SessionManager * Document * list bool :=
  match attempts with
  | [] => (st, [])
  | (now, creds) :: rest =>
      let '(st1, _, r) := unlockSession env now creds st in
      let '(st2, rs) := unlockAttempts env rest st1 in
      (st2, r :: rs)
  end.

Definition fiveWrongGuesses : list (Z * Credentials) :=
  [ (2000, cred_object (Some "a")); (2001, cred_object (Some "b"));
    (2002, cred_object (Some "c")); (2003, cred_null);
    (2004, cred_object None) ].

(** A guard whose session was locked by the timeout, under the password
    method, over the sample document. *)
Definition passwordGuardOptions : GuardOptions :=
  {| g_activity := noOptions; g_unlockMethod := Some "password";
     g_enabled := None |}.

Definition startedGuard : AFKGuard :=
  (start rendererEnv 0 passwordGuardOptions
     (newAFKGuard rendererEnv passwordGuardOptions 0)).1.

Definition timedOutGuard : AFKGuard * Document :=
  (guardFireTimer rendererEnv 600000 (sampleDraws 0)
     (startedGuard, sampleDoc)).1.

(** The characters [toString(36)] produces. *)
Definition isBase36Digit (c : Ascii.ascii) : bool :=
  let n := Ascii.nat_of_ascii c in
  ((48 <=? n)%nat && (n <=? 57)%nat) || ((97 <=? n)%nat && (n <=? 122)%nat).

Fixpoint isBase36 (s : string) : bool :=
  match s with
  | EmptyString => true
  | String c rest => isBase36Digit c && isBase36 rest
  end.

(** [k] ends with an underscore followed by [s]. *)
Definition suffixOf (k s : string) : Prop :=
  exists p, k = p +:+ String "_"%char s.

(** Every key of the backup ends with a random part from [U]. *)
Definition keysWithin (U : string -> Prop) (bk : list (string * Backup)) : Prop :=
  forall k, k ∈ bk.*1 -> exists s, U s /\ suffixOf k s.

(** A selector that does not ask for a class the module sets. *)
Definition avoidsOwnClasses (sel : Selector) : Prop :=
  match sel with
  | HasClass c => c ≠ blankedClass /\ c ≠ sessionLockedClass
  | _ => True
  end.

(** Two states of an element that the selectors cannot tell apart: the
    same tag, the same attributes and, the classes the module sets
    apart, the same classes. *)
Definition sameMarkup (el el' : Element) : Prop :=
  tagName el' = tagName el /\ attributes el' = attributes el /\
  forall c, c ≠ blankedClass -> c ≠ sessionLockedClass ->
            (c ∈ classList el' <-> c ∈ classList el).

(** [el'] is a later state of [el]: the module never changes the
    markup, never puts an element back into the document and never
    gives it a new ancestor. *)
Definition later (el el' : Element) : Prop :=
  sameMarkup el el' /\
  (inDocument el' = true -> inDocument el = true) /\
  (forall a, a ∈ ancestors el' -> a ∈ ancestors el) /\
  isBody el' = isBody el.

Definition evolves (doc doc' : Document) : Prop := Forall2 later doc doc'.

(** [el'] is a later state of an element that stayed where it was. *)
Definition kept (el el' : Element) : Prop :=
  sameMarkup el el' /\ inDocument el' = inDocument el /\
  attached el' = attached el /\ ancestors el' = ancestors el /\
  isBody el' = isBody el.

(** No element of the list is inside [h]. *)
Definition sealed (doc : Document) (h : nat) : Prop :=
  forall i el, doc !! i = Some el -> h ∉ ancestors el.

(** Element [h] shows the placeholder, and nothing the module does to
    another element can change that. *)
Definition masked (doc : Document) (h : nat) : Prop :=
  exists el, doc !! h = Some el /\
             content el = Some (maskedContent el) /\
             blankedClass ∈ classList el /\
             (isInput el = true \/ sealed doc h).

(** One of the sensitive selectors finds element [h]. *)
Definition isSensitive (doc : Document) (h : nat) : bool :=
  existsb (fun sel => selects doc sel h) sensitiveSelectors.

(** No sensitive selector finds an element that contains [el]. *)
Definition outsideSensitive (doc : Document) (el : Element) : bool :=
  forallb (fun a => negb (isSensitive doc a)) (ancestors el).

(** Element [i] is inside element [h]. *)
Definition inside (doc : Document) (h i : nat) : bool :=
  match doc !! i with
  | Some el => bool_decide (h ∈ ancestors el)
  | None => false
  end.

(** No sensitive selector finds an element inside [h]. *)
Definition holdsNoSensitive (doc : Document) (h : nat) : bool :=
  forallb (fun i => negb (isSensitive doc i && inside doc h i))
          (seq 0 (length doc)).

(** No sensitive element is inside another one. *)
Definition noNesting (doc : Document) : bool :=
  forallb (fun h => negb (isSensitive doc h) ||
                    match doc !! h with
                    | Some el => outsideSensitive doc el
                    | None => true
                    end)
          (seq 0 (length doc)).

(** Element [h] is [document.body] or contains it. *)
Definition aroundBody (doc : Document) (h : nat) : bool :=
  existsb (fun i => match doc !! i with
                    | Some el =>
                        isBody el &&
                        (bool_decide (i = h) || bool_decide (h ∈ ancestors el))
                    | None => false
                    end)
          (seq 0 (length doc)).


(** The handles the sensitive selectors find in the document, selector
    by selector. *)
Definition targets (doc : Document) : list nat :=
  flat_map (querySelectorAll doc) sensitiveSelectors.

(** The handles [blankSensitiveData] visits, in the order of the
    visits: each selector is queried on the document as the visits
    before left it. *)
Fixpoint visits (draws : nat -> Draw) (n : nat) (sels : list Selector)
    (st : Document * list (string * Backup)) : list nat :=
  match sels with
  | [] => []
  | sel :: rest =>
      let elements := querySelectorAll st.1 sel in
      let '(st1, n1) := blankElements draws n elements st in
      elements ++ visits draws n1 rest st1
  end.


(** The entry [blankElement] makes for element [h] in state [el]. *)
Definition snapshot (h : nat) (el : Element) : Backup :=
  {| element := h; originalContent := innerHTML el;
     originalValue := value el |}.


Definition entriesFor (h : nat) (bs : list Backup) : list Backup :=
  filter (fun b => element b = h) bs.

(** The random parts of the first [n] draws. *)
Definition drawn (draws : nat -> Draw) (n : nat) : list string :=
  map (fun i => (draws i).2) (seq 0 n).

Fixpoint distinctStrings (l : list string) : bool :=
  match l with
  | [] => true
  | s :: rest => negb (existsb (String.eqb s) rest) && distinctStrings rest
  end.


(** The first [n] random parts are base-36 strings that differ from one
    another. *)
Definition freshRun (n : nat) (draws : nat -> Draw) : bool :=
  forallb isBase36 (drawn draws n) && distinctStrings (drawn draws n).

(** The draws from the [n]th on, up to [N], make keys the backup does
    not hold. *)
Definition freshAt (draws : nat -> Draw) (N n : nat)
    (bk : list (string * Backup)) : Prop :=
  (forall j, (j < N)%nat -> isBase36 (draws j).2 = true) /\
  (forall i j, (i < N)%nat -> (j < N)%nat ->
               (draws i).2 = (draws j).2 -> i = j) /\
  exists U : string -> Prop,
    (forall s, U s -> isBase36 s = true) /\
    keysWithin U bk /\
    (forall j, (n <= j < N)%nat -> ~ U (draws j).2).

(** A password field that carries the class [api-key]: it matches two
    of the sensitive selectors, [.api-key] and [input[type=password]]. *)
Definition apiKeyPasswordInput : Element :=
  {| tagName := "INPUT"; classList := ["api-key"];
     attributes := [("type", "password")];
     innerHTML := Some ""; value := "hunter2";
     attached := true; inDocument := true; parentElement := None;
     ancestors := []; isBody := false |}.

(** ** Further operations *)

(** [handleUnlockAttempt(credentials)]: under the password method a
    call without credentials reads the password from the
    [.afk-unlock-input] element; [typed] is that element's value, [None]
    when the element is missing.  The error class the method flashes on
    the lock screen is not part of the model. *)
Definition handleUnlockAttempt (env : Env) (now : Z) (creds : Credentials)
    (typed : option string) (st : SessionManager * Document)
  : SessionManager * Document * list Event * bool :=
  let credentials :=
    if String.eqb (unlockMethod st.1) "password" &&
       match creds with cred_null => true | cred_object _ => false end
    then cred_object (Some (default "" typed))
    else creds in
  unlockSession env now credentials st.

(** [getDefaultConfig()]; [AFK_SENSITIVITY] is the environment variable
    of that name, which only this function reads. *)
Definition getDefaultConfig (env : Env) (AFK_SENSITIVITY : option string)
  : GuardOptions :=
  {| g_activity :=
       {| o_timeout :=
            Some (match truthyZ (minutesToMs (AFK_TIMEOUT_MINUTES env)) with
                  | Some v => v
                  | None => 10 * 60 * 1000
                  end);
          o_warningTime :=
            Some (match truthyZ (minutesToMs (AFK_WARNING_MINUTES env)) with
                  | Some v => v
                  | None => 2 * 60 * 1000
                  end);
          o_sensitivity :=
            Some (match truthyS AFK_SENSITIVITY with
                  | Some s => s
                  | None => "normal"
                  end);
          o_enabled := Some (notFalseString (AFK_ENABLED env)) |};
     g_unlockMethod :=
       Some (match truthyS (AFK_UNLOCK_METHOD env) with
             | Some m => m
             | None => "click"
             end);
     g_enabled := Some (notFalseString (AFK_ENABLED env)) |}.

(** [createAFKGuard(options)] *)
Definition createAFKGuard (env : Env) (options : GuardOptions) (now : Z)
  : AFKGuard := newAFKGuard env options now.

(** The options object with no key set, as [new AFKGuard()] gets it. *)
Definition noGuardOptions : GuardOptions :=
  {| g_activity := noOptions; g_unlockMethod := None; g_enabled := None |}.

(** An object whose keys are fields of the tracker's state.
    [Object.assign] copies whatever keys its argument has, so
    [configure({activity: object})] overwrites these fields as well;
    an absent key is [None]. *)
Record TrackerState := {
  s_timer : option (option Timeout);
  s_warningTimer : option (option Timeout);
  s_isTracking : option bool;
  s_lastActivity : option Z;
  s_activityEvents : option (list string);
  s_audioCheckInterval : option bool
}.

(** [Object.assign(tracker, object)] for such an object. *)
Definition assignState (tr : ActivityTracker) (s : TrackerState)
  : ActivityTracker :=
  {| timeout := timeout tr;
     warningTime := warningTime tr;
     sensitivity := sensitivity tr;
     enabled := enabled tr;
     timer := default (timer tr) (s_timer s);
     warningTimer := default (warningTimer tr) (s_warningTimer s);
     isTracking := default (isTracking tr) (s_isTracking s);
     lastActivity := default (lastActivity tr) (s_lastActivity s);
     activityEvents := default (activityEvents tr) (s_activityEvents s);
     audioCheckInterval :=
       default (audioCheckInterval tr) (s_audioCheckInterval s);
     documentListeners := documentListeners tr;
     focusListeners := focusListeners tr;
     ipcListeners := ipcListeners tr |}.

(** What can happen to a tracker: its two public methods, a signal of
    the host, one of its two timer callbacks, and the
    [Object.assign(tracker, object)] of [AFKGuard.configure], with an
    options object or with an object that names fields of the state. *)
Inductive TrackerOp :=
| t_startTracking (now : Z) (options : TrackerOptions)
| t_stopTracking
| t_signal (now : Z) (sig : Signal)
| t_warningTimer (now : Z)
| t_timer (now : Z)
| t_assign (options : TrackerOptions)
| t_assignState (state : TrackerState).

Definition runTrackerOp (env : Env) (op : TrackerOp) (tr : ActivityTracker)
  : ActivityTracker * list Event :=
  match op with
  | t_startTracking now options => startTracking env now options tr
  | t_stopTracking => stopTracking env tr
  | t_signal now sig => deliver env now sig tr
  | t_warningTimer now => fireWarningTimer now tr
  | t_timer now => fireTimer now tr
  | t_assign options => (assignOptions tr options, [])
  | t_assignState state => (assignState tr state, [])
  end.

Fixpoint runTrackerOps (env : Env) (ops : list TrackerOp)
    (tr : ActivityTracker) : ActivityTracker * list Event :=
  match ops with
  | [] => (tr, [])
  | op :: rest =>
      let '(tr1, evs1) := runTrackerOp env op tr in
      let '(tr2, evs2) := runTrackerOps env rest tr1 in
      (tr2, evs1 ++ evs2)
  end.

Definition isAssign (op : TrackerOp) : bool :=
  match op with t_assign _ | t_assignState _ => true | _ => false end.

Definition assignsState (op : TrackerOp) : bool :=
  match op with t_assignState _ => true | _ => false end.

(** Nothing is registered or scheduled for an idle tracker. *)
Definition released (tr : ActivityTracker) : Prop :=
  timer tr = None /\ warningTimer tr = None /\
  audioCheckInterval tr = false /\ documentListeners tr = [] /\
  focusListeners tr = false /\ ipcListeners tr = false.

(** What a tracking tracker holds: two handles armed when the last
    activity was recorded, and the listeners of its process. *)
Definition engaged (env : Env) (tr : ActivityTracker) : Prop :=
  (exists t w, timer tr = Some t /\ warningTimer tr = Some w /\
               armedAt t = lastActivity tr /\ armedAt w = lastActivity tr) /\
  documentListeners tr = (if hasWindow env then activityEvents tr else []) /\
  focusListeners tr = hasWindow env /\
  audioCheckInterval tr = hasWindow env /\
  ipcListeners tr = negb (hasWindow env) && hasIpcMain env.

Definition trackerConsistent (env : Env) (tr : ActivityTracker) : Prop :=
  (isTracking tr = false -> released tr) /\
  (isTracking tr = true -> engaged env tr).

(** The handles of a tracking tracker carry the durations the tracker
    has now. *)
Definition armedWithDurations (tr : ActivityTracker) : Prop :=
  isTracking tr = true ->
  delay <$> timer tr = Some (timeout tr) /\
  delay <$> warningTimer tr = Some (timeout tr - warningTime tr).

(** An object whose keys are fields of the session manager's state,
    as [configure({session: object})] copies them; an absent key is
    [None]. *)
Record SessionState := {
  s_isLocked : option bool;
  s_lockTime : option (option Z);
  s_sensitiveDataBackup : option (list (string * Backup));
  s_memoryCache : option (list (string * string))
}.

(** [Object.assign(sessionManager, object)] for such an object. *)
Definition assignSession (sm : SessionManager) (s : SessionState)
  : SessionManager :=
  {| unlockMethod := unlockMethod sm;
     isLocked := default (isLocked sm) (s_isLocked s);
     lockTime := default (lockTime sm) (s_lockTime s);
     sensitiveDataBackup :=
       default (sensitiveDataBackup sm) (s_sensitiveDataBackup s);
     memoryCache := default (memoryCache sm) (s_memoryCache s) |}.

(** What can happen to a guard and the document: its methods, the
    tracker's callbacks and signals, calls of the session manager it
    exposes, and a change of the document made by the page.
    [configure] comes three times: with configuration, with fields of
    the tracker's state under [activity], and with fields of the
    session manager's state under [session]. *)
Inductive GuardOp :=
| g_start (now : Z) (options : GuardOptions)
| g_stop (now : Z)
| g_signal (now : Z) (draws : nat -> Draw) (sig : Signal)
| g_timer (now : Z) (draws : nat -> Draw)
| g_warningTimer (now : Z) (draws : nat -> Draw)
| g_lockSession (now : Z) (draws : nat -> Draw)
| g_unlockSession (now : Z) (creds : Credentials)
| g_configure (activity : option TrackerOptions) (method : option string)
    (en : option bool)
| g_configureActivity (state : TrackerState)
| g_configureSession (state : SessionState)
| g_pageChange (doc : Document).

Definition runGuardOp (env : Env) (op : GuardOp) (st : AFKGuard * Document)
  : AFKGuard * Document :=
  match op with
  | g_start now options => ((start env now options st.1).1, st.2)
  | g_stop now => (stop env now st).1
  | g_signal now draws sig => (guardDeliver env now draws sig st).1
  | g_timer now draws => (guardFireTimer env now draws st).1
  | g_warningTimer now draws => (guardFireWarningTimer env now draws st).1
  | g_lockSession now draws => (guardLockSession env now draws st).1
  | g_unlockSession now creds => (guardUnlockSession env now creds st).1.1
  | g_configure activity method en => (configure activity method en st.1, st.2)
  | g_configureActivity state =>
      (withTracker (assignState (activityTracker st.1) state) st.1, st.2)
  | g_configureSession state =>
      (withSession (assignSession (sessionManager st.1) state) st.1, st.2)
  | g_pageChange doc => (st.1, doc)
  end.

Definition configuresSession (op : GuardOp) : bool :=
  match op with g_configureSession _ => true | _ => false end.

Definition runGuardOps (env : Env) (ops : list GuardOp)
    (st : AFKGuard * Document) : AFKGuard * Document :=
  foldl (fun s op => runGuardOp env op s) st ops.

(** A page with nesting: the body holds a [div] of class [user-profile],
    which holds a paragraph, which holds a [span] of class [api-key].
    The model does not serialize, so the [innerHTML] of the three outer
    elements is not given. *)
Definition profilePage : Document :=
  [ {| tagName := "BODY"; classList := []; attributes := [];
       innerHTML := None; value := "";
       attached := true; inDocument := true; parentElement := None;
       ancestors := []; isBody := true |};
    {| tagName := "DIV"; classList := ["user-profile"]; attributes := [];
       innerHTML := None; value := "";
       attached := true; inDocument := true; parentElement := Some 0%nat;
       ancestors := [0%nat]; isBody := false |};
    {| tagName := "P"; classList := []; attributes := [];
       innerHTML := None; value := "";
       attached := true; inDocument := true; parentElement := Some 1%nat;
       ancestors := [1%nat; 0%nat]; isBody := false |};
    {| tagName := "SPAN"; classList := ["api-key"]; attributes := [];
       innerHTML := Some "sk-12345"; value := "";
       attached := true; inDocument := true; parentElement := Some 2%nat;
       ancestors := [2%nat; 1%nat; 0%nat]; isBody := false |} ].

(** A box that is sensitive as a whole and holds a key: a [div] with
    the attribute [data-sensitive] around a [span] of class [api-key]. *)
Definition sensitiveBox : Document :=
  [ {| tagName := "DIV"; classList := [];
       attributes := [("data-sensitive", "")];
       innerHTML := None; value := "";
       attached := true; inDocument := true; parentElement := None;
       ancestors := []; isBody := false |};
    {| tagName := "SPAN"; classList := ["api-key"]; attributes := [];
       innerHTML := Some "sk-12345"; value := "";
       attached := true; inDocument := true; parentElement := Some 0%nat;
       ancestors := [0%nat]; isBody := false |} ].

(** A page whose body holds an API key in a [div], a title that is not
    sensitive, and a password field whose [type] is written in upper
    case. *)
Definition bodyPage : Document :=
  [ {| tagName := "BODY"; classList := []; attributes := [];
       innerHTML := None; value := "";
       attached := true; inDocument := true; parentElement := None;
       ancestors := []; isBody := true |};
    {| tagName := "DIV"; classList := ["api-key"]; attributes := [];
       innerHTML := Some "sk-12345"; value := "";
       attached := true; inDocument := true; parentElement := Some 0%nat;
       ancestors := [0%nat]; isBody := false |};
    {| tagName := "DIV"; classList := ["title"]; attributes := [];
       innerHTML := Some "Top tracks"; value := "";
       attached := true; inDocument := true; parentElement := Some 0%nat;
       ancestors := [0%nat]; isBody := false |};
    {| tagName := "INPUT"; classList := [];
       attributes := [("type", "PASSWORD")];
       innerHTML := Some ""; value := "hunter2";
       attached := true; inDocument := true; parentElement := Some 0%nat;
       ancestors := [0%nat]; isBody := false |} ].

(** A guard under the click method, started, and locked by its
    timeout over the sample document. *)
Definition clickGuard : AFKGuard :=
  (start rendererEnv 0 noGuardOptions
     (createAFKGuard rendererEnv noGuardOptions 0)).1.

Definition clickGuardTimedOut : AFKGuard * Document :=
  (guardFireTimer rendererEnv 600000 (sampleDraws 0) (clickGuard, sampleDoc)).1.

(** * Properties of the activity tracker *)

Lemma truthyZ_nonzero v z : truthyZ v = Some z -> z <> 0.
Proof.
  destruct v as [w|]; simpl; [|discriminate].
  destruct (Z.eqb_spec w 0); [discriminate|]. intros [= <-]. assumption.
Qed.

(** The constructor never keeps a zero duration: a zero option falls
    through to the environment and then to the default. *)
Lemma newActivityTracker_nonzero env options now :
  timeout (newActivityTracker env options now) <> 0 /\
  warningTime (newActivityTracker env options now) <> 0.
Proof.
  unfold newActivityTracker; simpl. split.
  - destruct (truthyZ (o_timeout options)) eqn:E1;
      [eauto using truthyZ_nonzero|].
    destruct (truthyZ (minutesToMs _)) eqn:E2;
      [eauto using truthyZ_nonzero | lia].
  - destruct (truthyZ (o_warningTime options)) eqn:E1;
      [eauto using truthyZ_nonzero|].
    destruct (truthyZ (minutesToMs _)) eqn:E2;
      [eauto using truthyZ_nonzero | lia].
Qed.

Lemma newActivityTracker_idle env options now :
  isTracking (newActivityTracker env options now) = false /\
  timer (newActivityTracker env options now) = None /\
  warningTimer (newActivityTracker env options now) = None.
Proof. repeat split. Qed.

Lemma resetTimer_tracking now tr :
  isTracking tr = true ->
  timer (resetTimer now tr) = Some (setTimeout now (timeout tr)) /\
  warningTimer (resetTimer now tr)
  = Some (setTimeout now (timeout tr - warningTime tr)).
Proof. intros H. unfold resetTimer. rewrite H. simpl. split; reflexivity. Qed.

Lemma resetTimer_idle now tr : isTracking tr = false -> resetTimer now tr = tr.
Proof. intros H. unfold resetTimer. rewrite H. reflexivity. Qed.

(** [startTracking] on an enabled, idle tracker: no check of the
    durations, both handles armed from [now]. *)
Lemma startTracking_arms env now options tr :
  enabled tr = true -> isTracking tr = false ->
  let r := startTracking env now options tr in
  r.2 = [tracking_started] /\
  isTracking r.1 = true /\
  lastActivity r.1 = now /\
  timeout r.1 = default (timeout tr) (o_timeout options) /\
  warningTime r.1 = default (warningTime tr) (o_warningTime options) /\
  timer r.1 = Some (setTimeout now (timeout r.1)) /\
  warningTimer r.1 = Some (setTimeout now (timeout r.1 - warningTime r.1)).
Proof.
  intros He Ht. unfold startTracking. rewrite He, Ht. simpl.
  destruct (hasWindow env); simpl.
  - repeat split.
  - unfold setupMainProcessListeners.
    destruct (hasIpcMain env); simpl; repeat split.
Qed.

(** A disabled or already tracking tracker ignores [startTracking]. *)
Lemma startTracking_ignored env now options tr :
  enabled tr = false \/ isTracking tr = true ->
  startTracking env now options tr = (tr, []).
Proof.
  intros [H|H]; unfold startTracking; rewrite H; simpl; [reflexivity|].
  rewrite orb_true_r. reflexivity.
Qed.

(** C3, as amended: [start] validates nothing.  The constructor keeps
    every duration given to it that is not zero (a negative one, a
    warning time at or above the timeout) and replaces a zero or missing
    one by the value of the environment or, when that is zero or
    missing, by the default of 10 or 2 minutes.  For an enabled tracker
    built by the constructor, [startTracking] then succeeds whatever the
    durations are, takes over the durations given to it (zero
    included), and arms the warning handle with the delay
    [timeout - warningTime] and the expiry handle with the delay
    [timeout].  A delay from 1 to [2^31 - 1] ms makes the deadline
    [now + delay]; with any other delay the host may run the callback
    at once. *)
Theorem C3_start_arms_without_validation env t0 options now startOptions :
  enabled (newActivityTracker env options t0) = true ->
  let tr0 := newActivityTracker env options t0 in
  let r := startTracking env now startOptions tr0 in
  (forall v, o_timeout options = Some v -> v <> 0 -> timeout tr0 = v) /\
  (o_timeout options = None \/ o_timeout options = Some 0 ->
   timeout tr0 = match AFK_TIMEOUT_MINUTES env with
                 | Some m => if m =? 0 then 600000 else m * 60 * 1000
                 | None => 600000
                 end) /\
  (forall v, o_warningTime options = Some v -> v <> 0 -> warningTime tr0 = v) /\
  (o_warningTime options = None \/ o_warningTime options = Some 0 ->
   warningTime tr0 = match AFK_WARNING_MINUTES env with
                     | Some m => if m =? 0 then 120000 else m * 60 * 1000
                     | None => 120000
                     end) /\
  r.2 = [tracking_started] /\
  isTracking r.1 = true /\
  timeout r.1 = default (timeout tr0) (o_timeout startOptions) /\
  warningTime r.1 = default (warningTime tr0) (o_warningTime startOptions) /\
  warningTimer r.1 = Some (setTimeout now (timeout r.1 - warningTime r.1)) /\
  timer r.1 = Some (setTimeout now (timeout r.1)) /\
  (1 <= timeout r.1 - warningTime r.1 <= TIMEOUT_MAX ->
   dueAt <$> warningTimer r.1 = Some (now + (timeout r.1 - warningTime r.1))) /\
  (1 <= timeout r.1 <= TIMEOUT_MAX ->
   dueAt <$> timer r.1 = Some (now + timeout r.1)) /\
  (timeout r.1 - warningTime r.1 < 1 \/ TIMEOUT_MAX < timeout r.1 - warningTime r.1 ->
   dueAt <$> warningTimer r.1 = Some now) /\
  (timeout r.1 < 1 \/ TIMEOUT_MAX < timeout r.1 ->
   dueAt <$> timer r.1 = Some now).
Proof.
  intros He tr0 r.
  destruct (startTracking_arms env now startOptions tr0 He eq_refl)
    as (H1 & H2 & _ & H4 & H5 & H6 & H7).
  fold r in H1, H2, H4, H5, H6, H7.
  assert (Hm : forall m d, d <> 0 ->
            match truthyZ (minutesToMs (Some m)) with
            | Some v => v
            | None => d
            end = if m =? 0 then d else m * 60 * 1000).
  { intros m d Hd. simpl.
    destruct (Z.eqb_spec (m * 60 * 1000) 0), (Z.eqb_spec m 0);
      try reflexivity; lia. }
  split; [|split; [|split; [|split]]].
  - intros v Hv Hne. subst tr0. unfold newActivityTracker. simpl.
    rewrite Hv. simpl. destruct (Z.eqb_spec v 0); [contradiction|reflexivity].
  - intros Hv. subst tr0. unfold newActivityTracker. cbn [timeout].
    assert (E : truthyZ (o_timeout options) = None)
      by (destruct Hv as [-> | ->]; reflexivity).
    rewrite E. destruct (AFK_TIMEOUT_MINUTES env) as [m|]; [|reflexivity].
    apply (Hm m (10 * 60 * 1000)). lia.
  - intros v Hv Hne. subst tr0. unfold newActivityTracker. simpl.
    rewrite Hv. simpl. destruct (Z.eqb_spec v 0); [contradiction|reflexivity].
  - intros Hv. subst tr0. unfold newActivityTracker. cbn [warningTime].
    assert (E : truthyZ (o_warningTime options) = None)
      by (destruct Hv as [-> | ->]; reflexivity).
    rewrite E. destruct (AFK_WARNING_MINUTES env) as [m|]; [|reflexivity].
    apply (Hm m (2 * 60 * 1000)). lia.
  - rewrite H6, H7. unfold dueAt, hostDelay, setTimeout. cbn [fmap option_fmap option_map armedAt delay].
    repeat split; try assumption.
    + intros [Ha Hb].
      destruct (Z.leb_spec 1 (timeout r.1 - warningTime r.1)); [|lia].
      destruct (Z.leb_spec (timeout r.1 - warningTime r.1) TIMEOUT_MAX); [|lia].
      reflexivity.
    + intros [Ha Hb].
      destruct (Z.leb_spec 1 (timeout r.1)); [|lia].
      destruct (Z.leb_spec (timeout r.1) TIMEOUT_MAX); [|lia].
      reflexivity.
    + intros Ho.
      destruct (Z.leb_spec 1 (timeout r.1 - warningTime r.1)),
               (Z.leb_spec (timeout r.1 - warningTime r.1) TIMEOUT_MAX);
        simpl; f_equal; lia.
    + intros Ho.
      destruct (Z.leb_spec 1 (timeout r.1)),
               (Z.leb_spec (timeout r.1) TIMEOUT_MAX);
        simpl; f_equal; lia.
Qed.

Lemma C3_start_arms_without_validation_witness :
  enabled (newActivityTracker rendererEnv badDurations 0) = true /\
  let tr0 := newActivityTracker rendererEnv badDurations 0 in
  let r := startTracking rendererEnv 50 zeroDurations tr0 in
  (forall v, o_timeout badDurations = Some v -> v <> 0 -> timeout tr0 = v) /\
  (o_timeout badDurations = None \/ o_timeout badDurations = Some 0 ->
   timeout tr0 = match AFK_TIMEOUT_MINUTES rendererEnv with
                 | Some m => if m =? 0 then 600000 else m * 60 * 1000
                 | None => 600000
                 end) /\
  (forall v, o_warningTime badDurations = Some v -> v <> 0 ->
             warningTime tr0 = v) /\
  (o_warningTime badDurations = None \/ o_warningTime badDurations = Some 0 ->
   warningTime tr0 = match AFK_WARNING_MINUTES rendererEnv with
                     | Some m => if m =? 0 then 120000 else m * 60 * 1000
                     | None => 120000
                     end) /\
  r.2 = [tracking_started] /\
  isTracking r.1 = true /\
  timeout r.1 = default (timeout tr0) (o_timeout zeroDurations) /\
  warningTime r.1 = default (warningTime tr0) (o_warningTime zeroDurations) /\
  warningTimer r.1 = Some (setTimeout 50 (timeout r.1 - warningTime r.1)) /\
  timer r.1 = Some (setTimeout 50 (timeout r.1)) /\
  (1 <= timeout r.1 - warningTime r.1 <= TIMEOUT_MAX ->
   dueAt <$> warningTimer r.1 = Some (50 + (timeout r.1 - warningTime r.1))) /\
  (1 <= timeout r.1 <= TIMEOUT_MAX ->
   dueAt <$> timer r.1 = Some (50 + timeout r.1)) /\
  (timeout r.1 - warningTime r.1 < 1 \/ TIMEOUT_MAX < timeout r.1 - warningTime r.1 ->
   dueAt <$> warningTimer r.1 = Some 50) /\
  (timeout r.1 < 1 \/ TIMEOUT_MAX < timeout r.1 ->
   dueAt <$> timer r.1 = Some 50).
Proof.
  split; [reflexivity|].
  exact (C3_start_arms_without_validation rendererEnv 0 badDurations 50
           zeroDurations eq_refl).
Defined.

(** The durations of the witness: the constructor kept 1000 and 2000,
    [startTracking] took over 0 and -5, and the handles carry the delays
    5 and 0. *)
Example start_takes_over_zero_and_negative :
  let tr0 := newActivityTracker rendererEnv badDurations 0 in
  let r := startTracking rendererEnv 50 zeroDurations tr0 in
  timeout tr0 = 1000 /\ warningTime tr0 = 2000 /\
  timeout r.1 = 0 /\ warningTime r.1 = -5 /\
  delay <$> warningTimer r.1 = Some 5 /\ delay <$> timer r.1 = Some 0 /\
  dueAt <$> warningTimer r.1 = Some 55 /\ dueAt <$> timer r.1 = Some 50.
Proof. vm_compute. repeat split. Qed.

(** C3, counterexample: a warning time of 2000 ms with a timeout of
    1000 ms is accepted by the constructor and by [startTracking]; the
    tracker starts and arms a warning handle with a delay of -1000 ms. *)
Lemma C3_counterexample :
  let tr0 := newActivityTracker rendererEnv badDurations 0 in
  let r := startTracking rendererEnv 0 noOptions tr0 in
  warningTime tr0 >= timeout tr0 /\
  r.2 = [tracking_started] /\
  isTracking r.1 = true /\
  warningTimer r.1 = Some (setTimeout 0 (-1000)) /\
  timer r.1 = Some (setTimeout 0 1000).
Proof. vm_compute. repeat split. discriminate. Qed.

(** *** Debounce *)

Lemma handleActivity_debounced env now type tr :
  now - lastActivity tr < 100 -> handleActivity env now type tr = (tr, []).
Proof.
  intros H. unfold handleActivity.
  destruct (isTracking tr); simpl; [|reflexivity].
  destruct (Z.ltb_spec (now - lastActivity tr) 100); [reflexivity | lia].
Qed.

Lemma handleActivity_idle env now type tr :
  isTracking tr = false -> handleActivity env now type tr = (tr, []).
Proof. intros H. unfold handleActivity. rewrite H. reflexivity. Qed.

Lemma emitsPulse_app evs1 evs2 :
  emitsPulse (evs1 ++ evs2) = emitsPulse evs1 || emitsPulse evs2.
Proof. apply existsb_app. Qed.

(** A call of [handleActivity] either does nothing at all or makes a
    pulse: it stamps [lastActivity], re-arms both handles and emits
    [activity-detected]. *)
Lemma handleActivity_cases env now type tr :
  handleActivity env now type tr = (tr, []) \/
  (isTracking tr = true /\ 100 <= now - lastActivity tr /\
   let r := handleActivity env now type tr in
   emitsPulse r.2 = true /\ lastActivity r.1 = now /\ isTracking r.1 = true /\
   timer r.1 = Some (setTimeout now (timeout tr)) /\
   warningTimer r.1 = Some (setTimeout now (timeout tr - warningTime tr))).
Proof.
  unfold handleActivity.
  destruct (isTracking tr) eqn:Ht; simpl; [|left; reflexivity].
  destruct (Z.ltb_spec (now - lastActivity tr) 100); [left; reflexivity|].
  right. split; [reflexivity|]. split; [assumption|].
  unfold resetTimer; simpl.
  rewrite emitsPulse_app. simpl. rewrite orb_true_r. repeat split.
Qed.

Lemma handleActivity_pulse env now type tr :
  100 <= now - lastActivity tr -> isTracking tr = true ->
  emitsPulse (handleActivity env now type tr).2 = true.
Proof.
  intros Hn Ht.
  destruct (handleActivity_cases env now type tr) as [E|(_ & _ & H & _)];
    [|exact H].
  exfalso. unfold handleActivity in E. rewrite Ht in E. simpl in E.
  destruct (Z.ltb_spec (now - lastActivity tr) 100); [lia|].
  apply (f_equal snd) in E. simpl in E.
  apply (f_equal (@length _)) in E. rewrite length_app in E. simpl in E. lia.
Qed.

Lemma handleActivities_debounced env calls tr :
  Forall (fun c => c.1 - lastActivity tr < 100) calls ->
  handleActivities env calls tr = (tr, []).
Proof.
  induction 1 as [|[now type] rest Hc _ IH]; simpl; [reflexivity|].
  rewrite handleActivity_debounced by exact Hc. rewrite IH. reflexivity.
Qed.

(** C7: once a call of [handleActivity] at [t0] has made a pulse, every
    run of further calls that all arrive less than 100 ms after [t0]
    returns normally and changes nothing: [lastActivity] and both timer
    handles are as the pulse left them, and nothing is emitted (no
    [activity-detected], no report to the main process). *)
Theorem C7_debounce env t0 type tr calls :
  emitsPulse (handleActivity env t0 type tr).2 = true ->
  Forall (fun c => c.1 - t0 < 100) calls ->
  handleActivities env calls (handleActivity env t0 type tr).1
  = ((handleActivity env t0 type tr).1, []).
Proof.
  intros Hp Hc.
  destruct (handleActivity_cases env t0 type tr) as [E|(_ & _ & _ & Hl & _)].
  - rewrite E in Hp. discriminate.
  - apply handleActivities_debounced. rewrite Hl. exact Hc.
Qed.

Lemma C7_debounce_witness :
  let r := handleActivity rendererEnv 1000 (Some "keydown") (startedTracker Normal) in
  handleActivities rendererEnv
    [(1000, Some "mousemove"); (1040, Some "mousemove"); (1099, None)] r.1
  = (r.1, []).
Proof.
  apply (C7_debounce rendererEnv 1000 (Some "keydown") (startedTracker Normal)).
  - reflexivity.
  - repeat constructor; simpl; lia.
Defined.

(** *** Sensitivity *)

Lemma filter_not_in_nil (l : list string) :
  filter (fun e => e ∉ ([] : list string)) l = l.
Proof.
  induction l as [|x l IH]; [reflexivity|].
  rewrite filter_cons_True by apply not_elem_of_nil.
  rewrite IH. reflexivity.
Qed.

Lemma getActivityEvents_sensitivity tr tr' :
  sensitivity tr = sensitivity tr' ->
  getActivityEvents tr = getActivityEvents tr'.
Proof. intros H. unfold getActivityEvents. rewrite H. reflexivity. Qed.

(** What a tracker fresh from the constructor has after
    [startTracking()] in a renderer. *)
Lemma startTracking_renderer env t0 options :
  hasWindow env = true ->
  enabled (newActivityTracker env options t0) = true ->
  let tr0 := newActivityTracker env options t0 in
  let tr := (startTracking env t0 noOptions tr0).1 in
  isTracking tr = true /\ lastActivity tr = t0 /\
  documentListeners tr = getActivityEvents tr0 /\
  audioCheckInterval tr = true /\ focusListeners tr = true.
Proof.
  intros Hw He tr0 tr. subst tr tr0. unfold startTracking.
  rewrite He. simpl. rewrite Hw. simpl.
  rewrite filter_not_in_nil. repeat split.
Qed.

(** C8, as amended: the sensitivity selects the [document] events the
    tracker listens to, and nothing else.  Low binds mousedown, keydown
    and touchstart; normal (and any other value) adds mousemove and
    scroll; high adds mouseup, keyup, wheel, touchend and touchmove.  A
    [document] event outside the bound list reaches no handler.  An
    event of the list, and also media playback, a visibility change to
    visible and a window focus, make a pulse at every sensitivity once
    100 ms have passed since the last activity. *)
Theorem C8_sensitivity_selects_document_events env t0 options :
  hasWindow env = true ->
  enabled (newActivityTracker env options t0) = true ->
  let tr0 := newActivityTracker env options t0 in
  let tr := (startTracking env t0 noOptions tr0).1 in
  documentListeners tr = getActivityEvents tr0 /\
  (sensitivity tr0 = "low" ->
   getActivityEvents tr0 = ["mousedown"; "keydown"; "touchstart"]) /\
  (sensitivity tr0 = "high" ->
   getActivityEvents tr0 =
   ["mousedown"; "mousemove"; "keydown"; "scroll"; "touchstart";
    "mouseup"; "keyup"; "wheel"; "touchend"; "touchmove"]) /\
  (sensitivity tr0 <> "low" -> sensitivity tr0 <> "high" ->
   getActivityEvents tr0 =
   ["mousedown"; "mousemove"; "keydown"; "scroll"; "touchstart"]) /\
  (forall now name,
     name ∉ getActivityEvents tr0 ->
     deliver env now (DocumentEvent name) tr = (tr, [])) /\
  (forall now name,
     name ∈ getActivityEvents tr0 -> 100 <= now - t0 ->
     emitsPulse (deliver env now (DocumentEvent name) tr).2 = true) /\
  (forall now,
     100 <= now - t0 ->
     emitsPulse (deliver env now (AudioCheck true) tr).2 = true /\
     emitsPulse (deliver env now (VisibilityChange false) tr).2 = true /\
     emitsPulse (deliver env now (WindowFocusEvent "focus" false) tr).2 = true).
Proof.
  intros Hw He tr0 tr.
  destruct (startTracking_renderer env t0 options Hw He)
    as (Ht & Hl & Hd & Ha & Hf).
  fold tr0 in Ht, Hl, Hd, Ha, Hf. fold tr in Ht, Hl, Hd, Ha, Hf.
  split; [exact Hd|].
  split; [intros Hs; unfold getActivityEvents; rewrite Hs; reflexivity|].
  split; [intros Hs; unfold getActivityEvents; rewrite Hs; reflexivity|].
  split.
  { intros H1 H2. unfold getActivityEvents.
    destruct (String.eqb_spec (sensitivity tr0) "low"); [contradiction|].
    destruct (String.eqb_spec (sensitivity tr0) "high"); [contradiction|].
    reflexivity. }
  split.
  { intros now name Hn. simpl. rewrite Hd.
    rewrite bool_decide_eq_false_2 by exact Hn. reflexivity. }
  split.
  { intros now name Hn Hnow. simpl. rewrite Hd.
    rewrite bool_decide_eq_true_2 by exact Hn.
    apply handleActivity_pulse; [rewrite Hl; exact Hnow | exact Ht]. }
  intros now Hnow. simpl. rewrite Ha, Hf.
  assert (Hp : forall type, emitsPulse (handleActivity env now type tr).2 = true)
    by (intros type; apply handleActivity_pulse;
        [rewrite Hl; exact Hnow | exact Ht]).
  split; [apply Hp|].
  unfold handleVisibilityChange, handleFocusChange. simpl.
  split.
  - specialize (Hp (Some "visibility-change")).
    destruct (handleActivity env now (Some "visibility-change") tr) as [tr' evs].
    simpl in *. rewrite emitsPulse_app, Hp. reflexivity.
  - specialize (Hp (Some "focus-change")).
    destruct (handleActivity env now (Some "focus-change") tr) as [tr' evs].
    simpl in *. rewrite emitsPulse_app, Hp. reflexivity.
Qed.

Lemma C8_sensitivity_selects_document_events_witness :
  let tr0 := newActivityTracker rendererEnv (withSensitivity Low) 0 in
  let tr := (startTracking rendererEnv 0 noOptions tr0).1 in
  documentListeners tr = ["mousedown"; "keydown"; "touchstart"] /\
  deliver rendererEnv 5000 (DocumentEvent "mousemove") tr = (tr, []) /\
  emitsPulse (deliver rendererEnv 5000 (AudioCheck true) tr).2 = true.
Proof.
  destruct (C8_sensitivity_selects_document_events rendererEnv 0
              (withSensitivity Low) eq_refl eq_refl)
    as (H1 & H2 & _ & _ & H5 & _ & H7).
  split; [rewrite H1; apply H2; reflexivity|].
  split.
  - apply H5. rewrite (H2 eq_refl). intros Hin.
    apply list_elem_of_In in Hin. simpl in Hin.
    destruct Hin as [H|[H|[H|[]]]]; discriminate H.
  - apply (H7 5000). lia.
Defined.

(** C8, counterexample: at low sensitivity the specification's table
    does not enable media playback, yet a tracker started at low
    sensitivity turns the periodic audio check that finds media playing
    into a pulse. *)
Lemma C8_counterexample :
  specEnabled Low MediaPlayback = false /\
  let r := deliver rendererEnv 5000 (signalOf MediaPlayback) (startedTracker Low) in
  emitsPulse r.2 = true /\
  r.2 = [activity_detected "audio-activity" 5000] /\
  lastActivity r.1 = 5000.
Proof. vm_compute. repeat split. Qed.

(** *** Expiry *)

(** C6, counterexample: the tracker's timeout callback only emits
    [inactivity-timeout]; the tracker keeps tracking, and the next call
    of [handleActivity], with no [startTracking] in between, arms both
    deadlines again. *)
Lemma C6_counterexample :
  (fireTimer 600000 (fireWarningTimer 480000 (startedTracker Normal)).1).2
  = [inactivity_timeout] /\
  hasDeadline expiredTracker = false /\
  let r := handleActivity rendererEnv 600500 (Some "mousemove") expiredTracker in
  hasDeadline r.1 = true /\
  timer r.1 = Some (setTimeout 600500 600000) /\
  warningTimer r.1 = Some (setTimeout 600500 480000).
Proof. vm_compute. repeat split. Qed.

(** * Properties of the session manager *)

Lemma blankSensitiveData_fields env draws sm doc :
  let r := blankSensitiveData env draws (sm, doc) in
  unlockMethod r.1 = unlockMethod sm /\ isLocked r.1 = isLocked sm /\
  lockTime r.1 = lockTime sm /\ memoryCache r.1 = memoryCache sm.
Proof.
  unfold blankSensitiveData.
  destruct (hasWindow env); cbn [negb fst snd]; [|repeat split].
  destruct (blankSelectors draws 0 sensitiveSelectors
              (doc, sensitiveDataBackup sm)) as [[d b] n].
  repeat split.
Qed.

Lemma blankSensitiveData_no_window env draws st :
  hasWindow env = false -> blankSensitiveData env draws st = st.
Proof. intros H. unfold blankSensitiveData. rewrite H. reflexivity. Qed.

Lemma restoreSensitiveData_no_window env st :
  hasWindow env = false -> restoreSensitiveData env st = st.
Proof. intros H. unfold restoreSensitiveData. rewrite H. reflexivity. Qed.

Lemma restoreSensitiveData_window env st :
  hasWindow env = true ->
  sensitiveDataBackup (restoreSensitiveData env st).1 = [].
Proof. intros H. unfold restoreSensitiveData. rewrite H. reflexivity. Qed.

Lemma restoreSensitiveData_fields env sm doc :
  let r := restoreSensitiveData env (sm, doc) in
  unlockMethod r.1 = unlockMethod sm /\ isLocked r.1 = isLocked sm /\
  lockTime r.1 = lockTime sm.
Proof.
  unfold restoreSensitiveData. destruct (hasWindow env); simpl; repeat split.
Qed.

(** What [lockSession] does to an unlocked session. *)
Lemma lockSession_unlocked env now draws sm doc :
  isLocked sm = false ->
  let b := blankSensitiveData env draws (setLocked true (Some now) sm, doc) in
  exists sm',
    lockSession env now draws (sm, doc)
    = (sm', b.2,
       [memory_cleared] ++
       (if hasWindow env && hasNotifySessionLock env
        then [api_notifySessionLock] else []) ++ [session_locked now]) /\
    isLocked sm' = true /\ unlockMethod sm' = unlockMethod sm /\
    lockTime sm' = Some now /\
    sensitiveDataBackup sm' = sensitiveDataBackup b.1.
Proof.
  intros Hl b. unfold lockSession. simpl. rewrite Hl. fold b.
  pose proof (blankSensitiveData_fields env draws
                (setLocked true (Some now) sm) doc) as (H1 & H2 & H3 & _).
  fold b in H1, H2, H3. destruct b as [sm2 doc2]. simpl in *.
  eexists. split; [reflexivity|]. simpl. auto.
Qed.

Lemma lockSession_locked env now draws st :
  isLocked st.1 = true -> lockSession env now draws st = (st, []).
Proof. intros H. unfold lockSession. rewrite H. reflexivity. Qed.

(** *** The vault is empty whenever the session is unlocked *)

Lemma vaultInvariant_new env method :
  vaultInvariant env (newSessionManager env method).
Proof. split; reflexivity. Qed.

Lemma vaultInvariant_resume env now isValid st :
  vaultInvariant env st.1 ->
  vaultInvariant env (unlockSession_resume env now isValid st).1.1.1.
Proof.
  intros [H1 H2]. unfold unlockSession_resume.
  destruct isValid; simpl; [|split; assumption].
  destruct (hasWindow env) eqn:Hw.
  - unfold restoreSensitiveData. rewrite Hw. simpl. split; reflexivity.
  - rewrite restoreSensitiveData_no_window by exact Hw. simpl.
    split; intros _; apply H2; reflexivity.
Qed.

Lemma vaultInvariant_runOp env op st :
  vaultInvariant env st.1 -> vaultInvariant env (runOp env op st).1.
Proof.
  intros Hinv. destruct op as [now draws|now creds|now isValid|doc]; simpl.
  - destruct (isLocked st.1) eqn:Hl.
    + rewrite lockSession_locked by exact Hl. exact Hinv.
    + destruct st as [sm doc]. simpl in *.
      destruct (lockSession_unlocked env now draws sm doc Hl)
        as (sm' & -> & Hl' & _ & _ & Hb).
      simpl. split; [rewrite Hl'; discriminate|].
      intros Hw. rewrite Hb.
      rewrite blankSensitiveData_no_window by exact Hw. simpl.
      apply Hinv; exact Hw.
  - unfold unlockSession, unlockSession_call.
    destruct (isLocked st.1); simpl; [|exact Hinv].
    apply (vaultInvariant_resume env now _ st Hinv).
  - apply (vaultInvariant_resume env now _ st Hinv).
  - exact Hinv.
Qed.

Lemma vaultInvariant_runOps env ops st :
  vaultInvariant env st.1 -> vaultInvariant env (runOps env ops st).1.
Proof.
  revert st. induction ops as [|op ops IH]; intros st Hinv; [exact Hinv|].
  simpl. apply IH. apply vaultInvariant_runOp. exact Hinv.
Qed.

(** C1: starting from a new session manager, after every sequence of
    lock and unlock operations (awaited or interleaved, with the page
    changing the document in between), an unlocked session has an empty
    [sensitiveDataBackup]. *)
Theorem C1_vault_empty_when_unlocked env method doc ops :
  let st := runOps env ops (newSessionManager env method, doc) in
  isLocked st.1 = false -> sensitiveDataBackup st.1 = [].
Proof.
  intros st Hl.
  destruct (vaultInvariant_runOps env ops (newSessionManager env method, doc)
              (vaultInvariant_new env method)) as [H _].
  exact (H Hl).
Qed.

Lemma C1_vault_empty_when_unlocked_witness :
  sensitiveDataBackup
    (runOps rendererEnv
       [op_lockSession 1000 (sampleDraws 0); op_unlockSession 2000 cred_null]
       (newSessionManager rendererEnv None, sampleDoc)).1 = [].
Proof.
  apply (C1_vault_empty_when_unlocked rendererEnv None sampleDoc
           [op_lockSession 1000 (sampleDraws 0); op_unlockSession 2000 cred_null]).
  vm_compute. reflexivity.
Defined.

(** *** Failed unlock attempts *)

Lemma unlockSession_rejected env now creds sm doc :
  isLocked sm = true ->
  validateUnlock env sm creds = false ->
  unlockSession env now creds (sm, doc)
  = (sm, doc, [unlock_failed (unlockMethod sm)], false).
Proof.
  intros Hl Hv. unfold unlockSession, unlockSession_call. simpl.
  rewrite Hl, Hv. reflexivity.
Qed.

(** C5: an [unlockSession] on a locked session whose credentials are
    rejected leaves the session manager as it was (still locked, the
    backup untouched) and the document as it was, emits [unlock-failed]
    and resolves to [false]. *)
Theorem C5_failed_unlock_changes_nothing env now creds sm doc :
  isLocked sm = true ->
  validateUnlock env sm creds = false ->
  let r := unlockSession env now creds (sm, doc) in
  r.1.1.1 = sm /\ isLocked r.1.1.1 = true /\
  sensitiveDataBackup r.1.1.1 = sensitiveDataBackup sm /\
  r.1.1.2 = doc /\
  r.1.2 = [unlock_failed (unlockMethod sm)] /\
  r.2 = false.
Proof.
  intros Hl Hv r. subst r.
  rewrite (unlockSession_rejected env now creds sm doc Hl Hv). simpl.
  repeat split; assumption.
Qed.

Lemma C5_failed_unlock_changes_nothing_witness :
  let r := unlockSession rendererEnv 2000 (cred_object (Some "guess"))
             (lockedByPassword.1, lockedByPassword.2) in
  r.1.1.1 = lockedByPassword.1 /\ isLocked r.1.1.1 = true /\
  sensitiveDataBackup r.1.1.1 = sensitiveDataBackup lockedByPassword.1 /\
  r.1.1.2 = lockedByPassword.2 /\
  r.1.2 = [unlock_failed (unlockMethod lockedByPassword.1)] /\
  r.2 = false.
Proof.
  refine (C5_failed_unlock_changes_nothing rendererEnv 2000
            (cred_object (Some "guess")) lockedByPassword.1 lockedByPassword.2
            _ _); vm_compute; reflexivity.
Defined.

Lemma unlockAttempts_failed env attempts sm doc :
  isLocked sm = true ->
  Forall (fun a => validateUnlock env sm a.2 = false) attempts ->
  unlockAttempts env attempts (sm, doc)
  = (sm, doc, map (fun _ => false) attempts).
Proof.
  intros Hl. induction 1 as [|[now creds] rest Hv _ IH]; [reflexivity|].
  simpl. rewrite unlockSession_rejected by assumption.
  rewrite IH. reflexivity.
Qed.

(** An accepted attempt on a locked session unlocks it. *)
Lemma unlockSession_valid env now creds sm doc :
  isLocked sm = true ->
  validateUnlock env sm creds = true ->
  let r := unlockSession env now creds (sm, doc) in
  r.2 = true /\ isLocked r.1.1.1 = false /\
  In (session_unlocked now (now - default 0 (lockTime sm)) (unlockMethod sm))
     r.1.2.
Proof.
  intros Hl Hv. unfold unlockSession, unlockSession_call. simpl.
  rewrite Hl, Hv. unfold unlockSession_resume. simpl.
  pose proof (restoreSensitiveData_fields env
                (setLocked false (lockTime sm) sm) doc) as (H1 & H2 & _).
  destruct (restoreSensitiveData env (setLocked false (lockTime sm) sm, doc))
    as [sm2 doc2].
  simpl in *. rewrite H1. split; [reflexivity|]. split; [exact H2|].
  apply in_or_app. right. left. reflexivity.
Qed.

(** C4, as amended: there is no cooldown and no failure counter.  On a
    locked session, any number of rejected attempts leaves the session
    manager and the document exactly as they were, and the next attempt
    that [validateUnlock] accepts succeeds at once, however many
    failures came before it and however little time has passed. *)
Theorem C4_no_cooldown env attempts now creds sm doc :
  isLocked sm = true ->
  Forall (fun a => validateUnlock env sm a.2 = false) attempts ->
  validateUnlock env sm creds = true ->
  let r := unlockAttempts env attempts (sm, doc) in
  r.1 = (sm, doc) /\
  r.2 = map (fun _ => false) attempts /\
  (unlockSession env now creds r.1).2 = true /\
  isLocked (unlockSession env now creds r.1).1.1.1 = false.
Proof.
  intros Hl Hf Hv r. subst r.
  rewrite unlockAttempts_failed by assumption. simpl.
  destruct (unlockSession_valid env now creds sm doc Hl Hv) as (H1 & H2 & _).
  auto.
Qed.

Lemma C4_no_cooldown_witness :
  let r := unlockAttempts rendererEnv fiveWrongGuesses lockedByPassword in
  r.1 = lockedByPassword /\
  r.2 = [false; false; false; false; false] /\
  (unlockSession rendererEnv 2005 (cred_object (Some "default")) r.1).2 = true /\
  isLocked
    (unlockSession rendererEnv 2005 (cred_object (Some "default")) r.1).1.1.1
  = false.
Proof.
  apply (C4_no_cooldown rendererEnv fiveWrongGuesses 2005
           (cred_object (Some "default"))
           lockedByPassword.1 lockedByPassword.2).
  - reflexivity.
  - repeat constructor.
  - reflexivity.
Defined.

(** C4, counterexample: with the password method and the stored
    password "default", five wrong attempts in a row are each rejected,
    and the sixth attempt, one millisecond after the fifth and with the
    right password, is accepted: the session is unlocked, no cooldown
    applies. *)
Lemma C4_counterexample :
  let r := unlockAttempts rendererEnv fiveWrongGuesses lockedByPassword in
  let sixth :=
    unlockSession rendererEnv 2005 (cred_object (Some "default")) r.1 in
  unlockMethod lockedByPassword.1 = "password" /\
  isLocked lockedByPassword.1 = true /\
  r.2 = [false; false; false; false; false] /\
  sixth.2 = true /\
  isLocked sixth.1.1.1 = false /\
  sixth.1.2 = [session_unlocked 2005 1005 "password"].
Proof. vm_compute. repeat split. Qed.

(** * Properties of the guard *)

Lemma stopTracking_idle env tr :
  let r := stopTracking env tr in
  isTracking r.1 = false /\
  (isTracking tr = true -> timer r.1 = None /\ warningTimer r.1 = None).
Proof.
  unfold stopTracking. destruct (isTracking tr) eqn:Ht; simpl.
  - split; [reflexivity|]. intros _. split; reflexivity.
  - split; [exact Ht|]. discriminate.
Qed.

Lemma validateUnlock_password_null env sm :
  unlockMethod sm = "password" -> validateUnlock env sm cred_null = false.
Proof. intros H. unfold validateUnlock. rewrite H. reflexivity. Qed.

Lemma validateUnlock_click env sm creds :
  unlockMethod sm = "click" -> validateUnlock env sm creds = true.
Proof. intros H. unfold validateUnlock. rewrite H. reflexivity. Qed.

Lemma forwardSession_sessionManager env now evs g :
  sessionManager (forwardSession env now evs g).1 = sessionManager g.
Proof.
  revert g. induction evs as [|ev evs IH]; intros g; [reflexivity|].
  simpl. destruct (onSessionEvent env now ev g) as [g1 l1] eqn:E1.
  specialize (IH g1). destruct (forwardSession env now evs g1) as [g2 l2].
  simpl in *. rewrite IH.
  destruct ev; simpl in E1; try (injection E1 as <- _; reflexivity).
  - destruct (stopTracking env (activityTracker g)).
    injection E1 as <- _. reflexivity.
  - destruct (if guardEnabled g then _ else _).
    injection E1 as <- _. reflexivity.
Qed.

(** C10: [stop()] on a locked session calls [unlockSession()] without
    credentials.  Under the password method the attempt is rejected:
    the session manager and the document stay as they were (locked,
    the backup not restored) although tracking has stopped, and
    [unlock-failed] is emitted.  Under the click method the session is
    unlocked. *)
Theorem C10_stop_leaves_password_session_locked env now g doc :
  isLocked (sessionManager g) = true ->
  let r := stop env now (g, doc) in
  (unlockMethod (sessionManager g) = "password" ->
   sessionManager r.1.1 = sessionManager g /\
   isLocked (sessionManager r.1.1) = true /\
   r.1.2 = doc /\
   isTracking (activityTracker r.1.1) = false /\
   In (onSession, unlock_failed "password") r.2) /\
  (unlockMethod (sessionManager g) = "click" ->
   isLocked (sessionManager r.1.1) = false).
Proof.
  intros Hl r. subst r. unfold stop. simpl.
  pose proof (stopTracking_idle env (activityTracker g)) as [Hidle _].
  destruct (stopTracking env (activityTracker g)) as [tr evs]. simpl in *.
  unfold isSessionLocked, unlockSession_call. simpl. rewrite Hl. simpl.
  split; intros Hm.
  - rewrite validateUnlock_password_null by exact Hm.
    unfold unlockSession_resume. simpl. rewrite Hm. simpl.
    repeat split; try assumption.
    apply in_or_app. right. left. reflexivity.
  - rewrite validateUnlock_click by exact Hm.
    unfold unlockSession_resume. simpl.
    pose proof (restoreSensitiveData_fields env
       (setLocked false (lockTime (sessionManager g)) (sessionManager g)) doc)
      as (_ & H2 & _).
    destruct (restoreSensitiveData env _) as [sm2 doc2]. simpl in H2.
    pose proof (forwardSession_sessionManager env now
      ((if hasWindow env && hasNotifySessionUnlock env
        then [api_notifySessionUnlock] else []) ++
       [session_unlocked now
          (now - default 0 (lockTime (sessionManager g))) (unlockMethod sm2)])
      (withSession sm2 (withTracker tr g))) as Hf.
    destruct (forwardSession env now _ _) as [g2 log2].
    simpl in *. rewrite Hf. exact H2.
Qed.

Lemma C10_stop_leaves_password_session_locked_witness :
  let r := stop rendererEnv 700000 (timedOutGuard.1, timedOutGuard.2) in
  sessionManager r.1.1 = sessionManager timedOutGuard.1 /\
  isLocked (sessionManager r.1.1) = true /\
  r.1.2 = timedOutGuard.2 /\
  isTracking (activityTracker r.1.1) = false /\
  In (onSession, unlock_failed "password") r.2.
Proof.
  refine (proj1 (C10_stop_leaves_password_session_locked rendererEnv 700000
                   timedOutGuard.1 timedOutGuard.2 _) _);
    vm_compute; reflexivity.
Defined.

Lemma deliver_idle env now sig tr :
  isTracking tr = false -> (deliver env now sig tr).1 = tr.
Proof.
  intros Ht. destruct sig as [name|hidden|type hidden|audio|type]; simpl.
  - destruct (bool_decide _); [|reflexivity].
    rewrite handleActivity_idle by exact Ht. reflexivity.
  - destruct (focusListeners tr); [|reflexivity].
    unfold handleVisibilityChange. destruct hidden; [reflexivity|].
    rewrite handleActivity_idle by exact Ht. reflexivity.
  - destruct (focusListeners tr); [|reflexivity].
    unfold handleFocusChange.
    destruct (String.eqb type "focus" || negb hidden); [|reflexivity].
    rewrite handleActivity_idle by exact Ht. reflexivity.
  - destruct (audioCheckInterval tr); [|reflexivity].
    unfold checkAudioActivity. destruct audio; [|reflexivity].
    rewrite handleActivity_idle by exact Ht. reflexivity.
  - destruct (ipcListeners tr); [|reflexivity].
    rewrite handleActivity_idle by exact Ht. reflexivity.
Qed.

Lemma handleActivities_idle env calls tr :
  isTracking tr = false -> handleActivities env calls tr = (tr, []).
Proof.
  intros Ht. induction calls as [|[now type] rest IH]; [reflexivity|].
  simpl. rewrite handleActivity_idle by exact Ht. rewrite IH. reflexivity.
Qed.

(** C6, as amended: it is the guard, not the tracker, that makes expiry
    terminal.  When the timeout of a tracking tracker fires inside an
    enabled guard whose session is unlocked, the guard locks the session
    and the lock stops the tracker: both handles are dropped, and from
    then on no call of [handleActivity] and no signal of the host
    changes the tracker or arms a deadline, until [startTracking] is
    called, which (on an enabled tracker) arms both again. *)
Theorem C6_guard_timeout_stops_tracker env now draws g doc :
  guardEnabled g = true ->
  isLocked (sessionManager g) = false ->
  isTracking (activityTracker g) = true ->
  isDue now (timer (activityTracker g)) = true ->
  let r := guardFireTimer env now draws (g, doc) in
  let tr := activityTracker r.1.1 in
  In (onTracker, inactivity_timeout) r.2 /\
  isLocked (sessionManager r.1.1) = true /\
  isTracking tr = false /\ timer tr = None /\ warningTimer tr = None /\
  hasDeadline tr = false /\
  (forall calls, handleActivities env calls tr = (tr, [])) /\
  (forall now' sig, (deliver env now' sig tr).1 = tr) /\
  (enabled (activityTracker g) = true ->
   forall now', hasDeadline (startTracking env now' noOptions tr).1 = true).
Proof.
  intros He Hl Ht Hd r tr. subst tr r.
  unfold guardFireTimer, onTracker_run, fireTimer. simpl. rewrite Hd. simpl.
  rewrite He. unfold guardLockSession. simpl.
  destruct (lockSession_unlocked env now draws (sessionManager g) doc Hl)
    as (sm' & -> & Hl' & _).
  set (b := blankSensitiveData env draws _). clearbody b.
  destruct (hasWindow env && hasNotifySessionLock env); simpl;
    unfold stopTracking; simpl; rewrite Ht; simpl;
    (split; [left; reflexivity|]);
    (split; [exact Hl'|]);
    (split; [reflexivity|]); (split; [reflexivity|]);
    (split; [reflexivity|]); (split; [reflexivity|]);
    (split; [intros calls; apply handleActivities_idle; reflexivity|]);
    (split; [intros now' sig; apply deliver_idle; reflexivity|]);
    intros Hen now';
    match goal with
    | |- hasDeadline (startTracking ?e ?n ?o ?t).1 = true =>
        destruct (startTracking_arms e n o t Hen eq_refl)
          as (_ & _ & _ & _ & _ & H6 & H7);
        unfold hasDeadline; rewrite H6, H7; reflexivity
    end.
Qed.

Lemma C6_guard_timeout_stops_tracker_witness :
  let r := guardFireTimer rendererEnv 600000 (sampleDraws 0)
             (startedGuard, sampleDoc) in
  let tr := activityTracker r.1.1 in
  In (onTracker, inactivity_timeout) r.2 /\
  isLocked (sessionManager r.1.1) = true /\
  isTracking tr = false /\ timer tr = None /\ warningTimer tr = None /\
  hasDeadline tr = false /\
  (forall calls, handleActivities rendererEnv calls tr = (tr, [])) /\
  (forall now' sig, (deliver rendererEnv now' sig tr).1 = tr) /\
  (enabled (activityTracker startedGuard) = true ->
   forall now',
     hasDeadline (startTracking rendererEnv now' noOptions tr).1 = true).
Proof.
  exact (C6_guard_timeout_stops_tracker rendererEnv 600000 (sampleDraws 0)
           startedGuard sampleDoc eq_refl eq_refl eq_refl eq_refl).
Defined.

(** * Backup keys *)

Lemma append_cons c (a b : string) : String c a +:+ b = String c (a +:+ b).
Proof. reflexivity. Qed.

Lemma append_nil (b : string) : "" +:+ b = b.
Proof. reflexivity. Qed.

Lemma append_assoc (a b c : string) : (a +:+ b) +:+ c = a +:+ (b +:+ c).
Proof.
  induction a as [|x a IH]; [reflexivity|].
  rewrite !append_cons, IH. reflexivity.
Qed.

Lemma isBase36_underscore p s :
  isBase36 (p +:+ String "_"%char s) = false.
Proof.
  induction p as [|c p IH]; [reflexivity|].
  rewrite append_cons. simpl. rewrite IH. apply andb_false_r.
Qed.

(** Two base-36 strings that end the same key are the same string. *)
Lemma suffixOf_inj k s1 s2 :
  isBase36 s1 = true -> isBase36 s2 = true ->
  suffixOf k s1 -> suffixOf k s2 -> s1 = s2.
Proof.
  intros H1 H2 [p1 E1] [p2 E2]. subst k. revert p2 E2.
  induction p1 as [|c p1 IH]; intros [|c' p2] E;
    rewrite ?append_cons, ?append_nil in E.
  - injection E as E. exact E.
  - injection E as _ E. rewrite E, isBase36_underscore in H1. discriminate.
  - injection E as _ E. rewrite <- E, isBase36_underscore in H2. discriminate.
  - injection E as _ E. apply (IH p2 E).
Qed.

Lemma generateElementId_suffix el d : suffixOf (generateElementId el d) d.2.
Proof.
  exists ("afk_" +:+ tagName el +:+ "_" +:+ className el +:+ "_" +:+ pretty d.1).
  unfold generateElementId. rewrite !append_assoc. reflexivity.
Qed.

(** Ids made from different base-36 random parts differ, whatever the
    elements and the clock readings. *)
Lemma generateElementId_fresh el1 d1 el2 d2 :
  isBase36 d1.2 = true -> isBase36 d2.2 = true -> d1.2 <> d2.2 ->
  generateElementId el1 d1 <> generateElementId el2 d2.
Proof.
  intros H1 H2 Hne E. apply Hne.
  apply (suffixOf_inj (generateElementId el1 d1)); try assumption.
  - apply generateElementId_suffix.
  - rewrite E. apply generateElementId_suffix.
Qed.


(** [set] with a key the map does not hold appends at the end. *)
Lemma mapSet_fresh {V} k (v : V) m :
  k ∉ m.*1 -> mapSet k v m = m ++ [(k, v)].
Proof.
  induction m as [|[k0 v0] m IH]; simpl; intros Hnin; [reflexivity|].
  apply not_elem_of_cons in Hnin as [Hne Hnin].
  destruct (String.eqb_spec k0 k) as [->|_]; [contradiction|].
  rewrite IH by exact Hnin. reflexivity.
Qed.

(** * What blanking and restoring leave alone *)

Lemma sensitiveSelectors_avoid : Forall avoidsOwnClasses sensitiveSelectors.
Proof. repeat constructor; discriminate. Qed.

Lemma sameMarkup_refl el : sameMarkup el el.
Proof. repeat split; auto. Qed.

Lemma sameMarkup_trans a b c :
  sameMarkup a b -> sameMarkup b c -> sameMarkup a c.
Proof.
  intros (T1 & A1 & C1) (T2 & A2 & C2).
  split; [congruence|]. split; [congruence|].
  intros x H1 H2. rewrite (C2 x H1 H2). apply C1; assumption.
Qed.

Lemma sameMarkup_classes el el' :
  tagName el' = tagName el -> attributes el' = attributes el ->
  (classList el' = classList el \/
   (exists c, (c = blankedClass \/ c = sessionLockedClass) /\
              (classList el' = classList el ++ [c] \/
               classList el' = filter (fun c' => c' ≠ c) (classList el)))) ->
  sameMarkup el el'.
Proof.
  intros Ht Ha Hc. split; [exact Ht|]. split; [exact Ha|].
  intros x H1 H2. destruct Hc as [-> |(c & Hc & [-> | ->])]; [tauto| |].
  - rewrite elem_of_app, list_elem_of_singleton.
    split; [intros [H|H]; [exact H|]|auto].
    destruct Hc; congruence.
  - rewrite list_elem_of_filter.
    split; [tauto|]. intros H. split; [|exact H].
    destruct Hc; congruence.
Qed.

Lemma sameMarkup_classListAdd c el :
  c = blankedClass \/ c = sessionLockedClass ->
  sameMarkup el (classListAdd c el).
Proof.
  intros Hc. apply sameMarkup_classes; try reflexivity.
  unfold classListAdd. simpl. destruct (bool_decide _); [left; reflexivity|].
  right. exists c. auto.
Qed.



Lemma matches_sameMarkup sel el el' :
  sameMarkup el el' -> avoidsOwnClasses sel ->
  matches sel el' = matches sel el.
Proof.
  intros (Ht & Ha & Hc) Hsel. destruct sel as [name|c|t]; simpl.
  - unfold getAttribute. rewrite Ha. reflexivity.
  - apply bool_decide_ext. destruct Hsel. apply Hc; assumption.
  - unfold isInput, getAttribute. rewrite Ht, Ha. reflexivity.
Qed.

(** The states of an element the module goes through. *)
Lemma kept_refl el : kept el el.
Proof. repeat split; auto. Qed.

Lemma kept_trans a b c : kept a b -> kept b c -> kept a c.
Proof.
  intros (M1 & D1 & P1 & A1 & B1) (M2 & D2 & P2 & A2 & B2).
  split; [exact (sameMarkup_trans _ _ _ M1 M2)|].
  repeat split; congruence.
Qed.

Lemma kept_blanked el : kept el (blanked el).
Proof.
  unfold blanked. split.
  - apply (sameMarkup_trans _ (if isInput el then setValue maskedValue el
                               else setInnerHTML (Some maskedHTML) el)).
    + destruct (isInput el); repeat split; auto.
    + apply sameMarkup_classListAdd. left. reflexivity.
  - destruct (isInput el); repeat split.
Qed.



Lemma kept_unknown el : kept el (setInnerHTML None el).
Proof. repeat split; auto. Qed.

Lemma kept_later el el' : kept el el' -> later el el'.
Proof.
  intros (M & D & _ & A & B). split; [exact M|].
  split; [congruence|]. split; [rewrite A; auto | exact B].
Qed.

Lemma later_refl el : later el el.
Proof. apply kept_later, kept_refl. Qed.

Lemma later_trans a b c : later a b -> later b c -> later a c.
Proof.
  intros (M1 & D1 & A1 & B1) (M2 & D2 & A2 & B2).
  split; [exact (sameMarkup_trans _ _ _ M1 M2)|].
  split; [auto|]. split; [auto | congruence].
Qed.

Lemma before_incl h l x : x ∈ before h l -> x ∈ l.
Proof.
  induction l as [|a l IH]; simpl; [auto|].
  destruct (decide (a = h)); [intros H; inversion H|].
  intros H. apply elem_of_cons in H as [->|H]; [left|right; auto].
Qed.

Lemma before_not_in h l : h ∉ before h l.
Proof.
  induction l as [|a l IH]; simpl; [apply not_elem_of_nil|].
  destruct (decide (a = h)) as [|Hne]; [apply not_elem_of_nil|].
  apply not_elem_of_cons. split; [congruence | exact IH].
Qed.

Lemma later_detach h el : later el (detach h el).
Proof.
  split; [repeat split; auto|]. split; [discriminate|].
  split; [apply before_incl | reflexivity].
Qed.

(** ** Documents *)

Lemma evolves_refl doc : evolves doc doc.
Proof.
  apply Forall2_same_length_lookup_2; [reflexivity|].
  intros i x y H1 H2. assert (x = y) by congruence. subst y. apply later_refl.
Qed.

Lemma evolves_length doc doc' : evolves doc doc' -> length doc' = length doc.
Proof. intros H. symmetry. exact (Forall2_length _ _ _ H). Qed.

Lemma evolves_lookup doc doc' i el :
  evolves doc doc' -> doc !! i = Some el ->
  exists el', doc' !! i = Some el' /\ later el el'.
Proof. intros H. exact (Forall2_lookup_l _ _ _ _ _ H). Qed.

Lemma evolves_lookup_r doc doc' i el' :
  evolves doc doc' -> doc' !! i = Some el' ->
  exists el, doc !! i = Some el /\ later el el'.
Proof. intros H. exact (Forall2_lookup_r _ _ _ _ _ H). Qed.

Lemma evolves_trans d1 d2 d3 : evolves d1 d2 -> evolves d2 d3 -> evolves d1 d3.
Proof.
  intros H1 H2. apply Forall2_same_length_lookup_2.
  - rewrite <- (evolves_length _ _ H1), <- (evolves_length _ _ H2). reflexivity.
  - intros i x z Hx Hz.
    destruct (evolves_lookup _ _ _ _ H1 Hx) as (y & Hy & L1).
    pose proof (Forall2_lookup_lr _ _ _ _ _ _ H2 Hy Hz) as L2.
    exact (later_trans _ _ _ L1 L2).
Qed.

Lemma domWrite_lookup h old new r doc i :
  domWrite h old new r doc !! i
  = (fun el =>
       if decide (i = h) then new
       else if r && bool_decide (h ∈ ancestors el) then detach h el
       else if bool_decide (i ∈ ancestors old) then setInnerHTML None el
       else el) <$> doc !! i.
Proof. unfold domWrite. apply list_lookup_imap. Qed.

Lemma domWrite_same w old new r doc :
  doc !! w = Some old -> domWrite w old new r doc !! w = Some new.
Proof.
  intros H. rewrite domWrite_lookup, H. simpl.
  destruct (decide (w = w)); [reflexivity|contradiction].
Qed.

Lemma domWrite_evolves h old new r doc :
  doc !! h = Some old -> later old new ->
  evolves doc (domWrite h old new r doc).
Proof.
  intros Hl Hn. apply Forall2_same_length_lookup_2.
  - unfold domWrite. rewrite length_imap. reflexivity.
  - intros i x y Hx Hy. rewrite domWrite_lookup, Hx in Hy. simpl in Hy.
    injection Hy as <-.
    destruct (decide (i = h)) as [->|_].
    + assert (x = old) by congruence. subst x. exact Hn.
    + destruct (r && bool_decide (h ∈ ancestors x)); [apply later_detach|].
      destruct (bool_decide (i ∈ ancestors old));
        [apply kept_later, kept_unknown | apply later_refl].
Qed.

(** A write to [w] as an element [h] that it does not detach sees it. *)
Lemma domWrite_kept w old new r doc h el0 el :
  doc !! h = Some el -> kept el0 el ->
  (r = true -> w ∉ ancestors el0) ->
  doc !! w = Some old -> kept old new ->
  exists el',
    domWrite w old new r doc !! h = Some el' /\ kept el0 el' /\
    (w = h -> el' = new) /\
    (w <> h -> el' = el \/ (el' = setInnerHTML None el /\ h ∈ ancestors old)).
Proof.
  intros Hl Hk Hw Hlw Hn. rewrite domWrite_lookup, Hl. simpl.
  destruct (decide (h = w)) as [->|Hne].
  - assert (old = el) by congruence. subst old. exists new.
    split; [reflexivity|]. split; [exact (kept_trans _ _ _ Hk Hn)|].
    split; [auto | intros H; contradiction].
  - assert (Hd : r && bool_decide (w ∈ ancestors el) = false).
    { destruct r; [|reflexivity]. simpl. apply bool_decide_eq_false.
      destruct Hk as (_ & _ & _ & -> & _). auto. }
    rewrite Hd.
    destruct (bool_decide_reflect (h ∈ ancestors old)) as [Hin|Hin].
    + exists (setInnerHTML None el). split; [reflexivity|].
      split; [exact (kept_trans _ _ _ Hk (kept_unknown el))|].
      split; [intros E; congruence|]. intros _. right. auto.
    + exists el. split; [reflexivity|]. split; [exact Hk|].
      split; [intros E; congruence|]. intros _. left. reflexivity.
Qed.

Lemma blankElement_None d h st :
  st.1 !! h = None -> blankElement d h st = st.
Proof. intros H. unfold blankElement. rewrite H. reflexivity. Qed.

Lemma blankElement_Some d h doc bk el :
  doc !! h = Some el ->
  blankElement d h (doc, bk)
  = (domWrite h el (blanked el) (negb (isInput el)) doc,
     mapSet (generateElementId el d) (snapshot h el) bk).
Proof. intros H. unfold blankElement. simpl. rewrite H. reflexivity. Qed.

Lemma blankElement_evolves d h st : evolves st.1 (blankElement d h st).1.
Proof.
  destruct st as [doc bk]. simpl.
  destruct (doc !! h) as [el|] eqn:Hl.
  - rewrite (blankElement_Some _ _ _ _ _ Hl). simpl.
    apply domWrite_evolves; [exact Hl | apply kept_later, kept_blanked].
  - rewrite blankElement_None by exact Hl. apply evolves_refl.
Qed.

Lemma blankElements_evolves draws hs :
  forall n st, evolves st.1 (blankElements draws n hs st).1.1.
Proof.
  induction hs as [|h hs IH]; intros n st; [apply evolves_refl|].
  simpl. eapply evolves_trans; [apply blankElement_evolves | apply IH].
Qed.

Lemma blankSelectors_evolves draws sels :
  forall n st, evolves st.1 (blankSelectors draws n sels st).1.1.
Proof.
  induction sels as [|sel sels IH]; intros n st; [apply evolves_refl|].
  simpl.
  pose proof (blankElements_evolves draws (querySelectorAll st.1 sel) n st) as H.
  destruct (blankElements draws n (querySelectorAll st.1 sel) st) as [st1 n1].
  eapply evolves_trans; [exact H | apply IH].
Qed.





(** An element the selectors find in a later document they found
    before. *)
Lemma selects_evolves doc doc' sel h :
  evolves doc doc' -> avoidsOwnClasses sel ->
  selects doc' sel h = true -> selects doc sel h = true.
Proof.
  intros He Hsel. unfold selects.
  destruct (doc' !! h) as [el'|] eqn:Hl'; [|discriminate].
  destruct (evolves_lookup_r _ _ _ _ He Hl') as (el & -> & (M & D & _)).
  intros H. apply andb_prop in H as [H1 H2].
  rewrite (D H1), <- (matches_sameMarkup sel el el' M Hsel), H2. reflexivity.
Qed.

Lemma selects_kept doc doc' sel h el el' :
  doc !! h = Some el -> doc' !! h = Some el' -> kept el el' ->
  avoidsOwnClasses sel -> selects doc' sel h = selects doc sel h.
Proof.
  intros Hl Hl' (M & D & _) Hsel. unfold selects. rewrite Hl, Hl', D.
  rewrite (matches_sameMarkup sel el el' M Hsel). reflexivity.
Qed.

Lemma isSensitive_spec doc h :
  isSensitive doc h = true <->
  exists sel, sel ∈ sensitiveSelectors /\ selects doc sel h = true.
Proof.
  unfold isSensitive. rewrite existsb_exists.
  split; intros (sel & H1 & H2); exists sel; split; try exact H2;
    apply list_elem_of_In; exact H1.
Qed.


Lemma outsideSensitive_spec doc el :
  outsideSensitive doc el = true <->
  forall a, a ∈ ancestors el -> isSensitive doc a = false.
Proof.
  unfold outsideSensitive. rewrite forallb_forall. split.
  - intros H a Ha. apply list_elem_of_In in Ha. specialize (H a Ha).
    apply negb_true_iff in H. exact H.
  - intros H a Ha. apply negb_true_iff, H, list_elem_of_In, Ha.
Qed.

Lemma querySelectorAll_spec doc sel h :
  h ∈ querySelectorAll doc sel <-> selects doc sel h = true.
Proof.
  unfold querySelectorAll. rewrite list_elem_of_In, filter_In, in_seq.
  split; [tauto|]. intros H. split; [|exact H].
  unfold selects in H. destruct (doc !! h) as [el|] eqn:Hl; [|discriminate].
  apply lookup_lt_Some in Hl. lia.
Qed.



Lemma sealed_evolves doc doc' h : evolves doc doc' -> sealed doc h -> sealed doc' h.
Proof.
  intros He Hs i el' Hl' Hin.
  destruct (evolves_lookup_r _ _ _ _ He Hl') as (el & Hl & (_ & _ & A & _)).
  exact (Hs i el Hl (A _ Hin)).
Qed.

Lemma domWrite_sealed h old new doc :
  doc !! h = Some old -> h ∉ ancestors new ->
  sealed (domWrite h old new true doc) h.
Proof.
  intros Hl Hn i el' Hl'. rewrite domWrite_lookup in Hl'.
  destruct (doc !! i) as [el|]; [|discriminate]. simpl in Hl'.
  injection Hl' as <-.
  destruct (decide (i = h)); [exact Hn|].
  destruct (bool_decide_reflect (h ∈ ancestors el)) as [Hin|Hin].
  - apply before_not_in.
  - destruct (bool_decide (i ∈ ancestors old)); exact Hin.
Qed.

(** * Blanking and restoring one element *)




Lemma blanked_fields el :
  isInput (blanked el) = isInput el /\
  tagName (blanked el) = tagName el /\
  content (blanked el) = Some (maskedContent el) /\
  blankedClass ∈ classList (blanked el) /\
  ancestors (blanked el) = ancestors el.
Proof.
  assert (Hc : forall e, blankedClass ∈ classList (classListAdd blankedClass e)).
  { intros e. unfold classListAdd. simpl.
    destruct (bool_decide_reflect (blankedClass ∈ classList e)) as [H|H];
      [exact H | apply elem_of_app; right; left]. }
  unfold blanked, content, maskedContent, isInput.
  destruct (String.eqb (tagName el) "INPUT") eqn:E; simpl; rewrite E;
    repeat split; apply Hc.
Qed.


Lemma content_unknown el :
  isInput el = true -> content (setInnerHTML None el) = content el.
Proof. intros H. unfold content, isInput in *. simpl. rewrite H. reflexivity. Qed.




(** *** Elements that show the placeholder *)

Lemma masked_blanked doc h el :
  doc !! h = Some el -> h ∉ ancestors el ->
  masked (domWrite h el (blanked el) (negb (isInput el)) doc) h.
Proof.
  intros Hl Hn. exists (blanked el).
  destruct (blanked_fields el) as (F1 & F2 & F3 & F4 & F5).
  split; [apply domWrite_same; exact Hl|].
  split; [rewrite F3; unfold maskedContent; rewrite F1; reflexivity|].
  split; [exact F4|].
  rewrite F1. destruct (isInput el) eqn:E; [left; reflexivity|right].
  simpl. apply domWrite_sealed; [exact Hl | rewrite F5; exact Hn].
Qed.

Lemma masked_other w old new r doc h :
  masked doc h -> doc !! w = Some old -> kept old new -> w <> h ->
  (forall el, doc !! h = Some el -> r = true -> w ∉ ancestors el) ->
  masked (domWrite w old new r doc) h.
Proof.
  intros (el & Hl & Hc & Hb & Hs) Hlw Hn Hne Hw.
  destruct (domWrite_kept w old new r doc h el el Hl (kept_refl el)
              (Hw el Hl) Hlw Hn) as (el' & Hl' & Hk & _ & Ho).
  destruct (Ho Hne) as [-> | [-> Hin]].
  - exists el. split; [exact Hl'|]. split; [exact Hc|]. split; [exact Hb|].
    destruct Hs as [Hs|Hs]; [left; exact Hs|right].
    eapply sealed_evolves; [|exact Hs].
    apply domWrite_evolves; [exact Hlw | apply kept_later, Hn].
  - destruct Hs as [Hs|Hs]; [|exfalso; exact (Hs w old Hlw Hin)].
    exists (setInnerHTML None el). split; [exact Hl'|].
    split; [rewrite (content_unknown el Hs); exact Hc|].
    split; [exact Hb | left; exact Hs].
Qed.

Lemma blankElement_masked d w doc bk h el0 el :
  doc !! h = Some el -> kept el0 el -> h ∉ ancestors el0 ->
  w ∉ ancestors el0 ->
  (exists el', (blankElement d w (doc, bk)).1 !! h = Some el' /\ kept el0 el') /\
  (w = h \/ masked doc h -> masked (blankElement d w (doc, bk)).1 h).
Proof.
  intros Hl Hk Hn Hw.
  assert (Ha : ancestors el = ancestors el0) by (destruct Hk; tauto).
  destruct (doc !! w) as [ew|] eqn:Hlw.
  - rewrite (blankElement_Some _ _ _ _ _ Hlw). simpl.
    destruct (domWrite_kept w ew (blanked ew) (negb (isInput ew)) doc h el0 el
                Hl Hk (fun _ => Hw) Hlw (kept_blanked ew))
      as (el' & Hl' & Hk' & _).
    split; [eauto|].
    destruct (decide (w = h)) as [->|Hne].
    + intros _. assert (ew = el) by congruence. subst ew.
      apply masked_blanked; [exact Hl | rewrite Ha; exact Hn].
    + intros [E|Hm]; [contradiction|].
      apply masked_other; auto using kept_blanked.
      intros el1 Hl1 _. assert (el1 = el) by congruence. subst el1.
      rewrite Ha. exact Hw.
  - rewrite blankElement_None by exact Hlw. simpl.
    split; [eauto|]. intros [E|Hm]; [congruence | exact Hm].
Qed.

(** *** The first blank masks every element it visits *)

Lemma blankElements_masks draws hs :
  forall n doc bk h el0 el,
    doc !! h = Some el -> kept el0 el -> h ∉ ancestors el0 ->
    Forall (fun w => w ∉ ancestors el0) hs ->
    let r := blankElements draws n hs (doc, bk) in
    (exists el', r.1.1 !! h = Some el' /\ kept el0 el') /\
    (h ∈ hs \/ masked doc h -> masked r.1.1 h).
Proof.
  induction hs as [|w hs IH]; intros n doc bk h el0 el Hl Hk Hn Hf; simpl.
  - split; [eauto|]. intros [H|H]; [inversion H | exact H].
  - apply Forall_cons in Hf as [Hw Hf].
    destruct (blankElement_masked (draws n) w doc bk h el0 el Hl Hk Hn Hw)
      as ((el' & Hl' & Hk') & Hm).
    destruct (blankElement (draws n) w (doc, bk)) as [doc1 bk1].
    simpl in Hl', Hm.
    destruct (IH (S n) doc1 bk1 h el0 el' Hl' Hk' Hn Hf) as [H1 H2].
    split; [exact H1|]. intros Hin. apply H2.
    destruct Hin as [Hin|Hin]; [|right; apply Hm; right; exact Hin].
    apply elem_of_cons in Hin as [->|Hin]; [|left; exact Hin].
    right. apply Hm. left. reflexivity.
Qed.

(** *** Keys and entries of the backup *)







Lemma blankElements_app draws hs1 hs2 :
  forall n st,
    blankElements draws n (hs1 ++ hs2) st
    = blankElements draws (blankElements draws n hs1 st).2 hs2
        (blankElements draws n hs1 st).1.
Proof.
  induction hs1 as [|h hs1 IH]; intros n st; [reflexivity|].
  simpl. apply IH.
Qed.

(** *** Fresh random parts *)

Lemma drawn_In draws n i : (i < n)%nat -> In (draws i).2 (drawn draws n).
Proof.
  intros Hi. unfold drawn. apply in_map_iff. exists i.
  split; [reflexivity|]. apply in_seq. lia.
Qed.

Lemma drawn_lookup draws n i :
  (i < n)%nat -> drawn draws n !! i = Some (draws i).2.
Proof.
  intros Hi. unfold drawn.
  change (map (fun i0 => (draws i0).2) (seq 0 n))
    with ((fun i0 => (draws i0).2) <$> seq 0 n).
  rewrite list_lookup_fmap, lookup_seq_lt by exact Hi. reflexivity.
Qed.

Lemma existsb_eqb_false s l :
  existsb (String.eqb s) l = false -> ~ In s l.
Proof.
  intros H Hin. assert (existsb (String.eqb s) l = true); [|congruence].
  apply existsb_exists. exists s. split; [exact Hin|apply String.eqb_refl].
Qed.

Lemma distinctStrings_NoDup l : distinctStrings l = true -> NoDup l.
Proof.
  induction l as [|s l IH]; simpl; intros H; [constructor|].
  apply andb_prop in H as [H1 H2]. apply negb_true_iff in H1.
  constructor; [|auto].
  intros Hin. apply list_elem_of_In in Hin.
  exact (existsb_eqb_false _ _ H1 Hin).
Qed.


Lemma freshRun_spec n draws :
  freshRun n draws = true ->
  (forall j, (j < n)%nat -> isBase36 (draws j).2 = true) /\
  (forall i j, (i < n)%nat -> (j < n)%nat ->
               (draws i).2 = (draws j).2 -> i = j).
Proof.
  unfold freshRun. intros H. apply andb_prop in H as [H1 H2].
  rewrite forallb_forall in H1.
  split; [intros j Hj; apply H1, drawn_In, Hj|].
  intros i j Hi Hj E. apply distinctStrings_NoDup in H2.
  apply (proj1 (NoDup_alt _) H2 i j (draws i).2).
  - apply drawn_lookup, Hi.
  - rewrite E. apply drawn_lookup, Hj.
Qed.

Lemma freshRun_freshAt n draws : freshRun n draws = true -> freshAt draws n 0 [].
Proof.
  intros H. destruct (freshRun_spec _ _ H) as [Hb Hinj].
  split; [exact Hb|]. split; [exact Hinj|].
  exists (fun _ => False). split; [intros s []|].
  split; [intros k Hk; inversion Hk | intros j _ []].
Qed.

Lemma freshAt_new draws N n bk el :
  freshAt draws N n bk -> (n < N)%nat ->
  generateElementId el (draws n) ∉ bk.*1.
Proof.
  intros (Hb & Hinj & U & HUb & Hk & Hfresh) Hn Hin.
  destruct (Hk _ Hin) as (s & Hs & Hsuf).
  apply (Hfresh n); [lia|].
  assert (E : s = (draws n).2)
    by (apply (suffixOf_inj (generateElementId el (draws n)));
        auto using generateElementId_suffix with lia).
  rewrite <- E. exact Hs.
Qed.

Lemma freshAt_snoc draws N n bk el b :
  freshAt draws N n bk -> (n < N)%nat ->
  freshAt draws N (S n) (bk ++ [(generateElementId el (draws n), b)]).
Proof.
  intros (Hb & Hinj & U & HUb & Hk & Hfresh) Hn.
  split; [exact Hb|]. split; [exact Hinj|].
  exists (fun s => U s \/ s = (draws n).2).
  split; [intros s [Hs| ->]; [auto | apply Hb; lia]|]. split.
  - intros k Hin. rewrite fmap_app in Hin.
    apply elem_of_app in Hin as [Hin|Hin].
    + destruct (Hk _ Hin) as (s & Hs & Hsuf). exists s. split; [left|]; auto.
    + apply list_elem_of_singleton in Hin. subst k.
      exists (draws n).2. split; [right; reflexivity|].
      apply generateElementId_suffix.
  - intros j Hj [Hs|Hs]; [apply (Hfresh j); [lia|exact Hs]|].
    apply Hinj in Hs; lia.
Qed.


(** With a new id the visit appends its snapshot to the backup. *)
Lemma blankElement_fresh draws N n doc bk w ew :
  freshAt draws N n bk -> (n < N)%nat -> doc !! w = Some ew ->
  blankElement (draws n) w (doc, bk)
  = (domWrite w ew (blanked ew) (negb (isInput ew)) doc,
     bk ++ [(generateElementId ew (draws n), snapshot w ew)]).
Proof.
  intros Hf Hn Hl. rewrite (blankElement_Some _ _ _ _ _ Hl).
  rewrite (mapSet_fresh _ _ _ (freshAt_new draws N n bk ew Hf Hn)).
  reflexivity.
Qed.

Lemma domWrite_length h old new r doc :
  length (domWrite h old new r doc) = length doc.
Proof. unfold domWrite. apply length_imap. Qed.

(** With new ids every visit appends one entry, so the backup lists the
    visited elements in the order of the visits. *)
Lemma blankElements_appends draws (N : nat) hs :
  forall n doc bk,
    (n + length hs <= N)%nat -> freshAt draws N n bk ->
    Forall (fun w => (w < length doc)%nat) hs ->
    exists es,
      (blankElements draws n hs (doc, bk)).1.2 = bk ++ es /\
      element <$> es.*2 = hs /\
      freshAt draws N (n + length hs) (bk ++ es).
Proof.
  induction hs as [|w hs IH]; intros n doc bk Hn Hf Hr; simpl.
  - exists []. rewrite app_nil_r, Nat.add_0_r. auto.
  - simpl in Hn. apply Forall_cons in Hr as [Hw Hr].
    destruct (lookup_lt_is_Some_2 doc w Hw) as [ew Hl].
    rewrite (blankElement_fresh draws N n doc bk w ew Hf ltac:(lia) Hl).
    pose proof (freshAt_snoc draws N n bk ew (snapshot w ew) Hf ltac:(lia))
      as Hf'.
    assert (Hr' : Forall (fun w0 => (w0 < length (domWrite w ew (blanked ew)
                                       (negb (isInput ew)) doc))%nat) hs)
      by (rewrite domWrite_length; exact Hr).
    destruct (IH (S n) _ _ ltac:(lia) Hf' Hr') as (es & E1 & E2 & E3).
    exists ((generateElementId ew (draws n), snapshot w ew) :: es).
    split; [rewrite E1, <- app_assoc; reflexivity|].
    split; [rewrite fmap_cons, fmap_cons, E2; reflexivity|].
    rewrite <- app_assoc in E3. simpl in E3.
    replace (n + S (length hs))%nat with (S n + length hs)%nat by lia.
    exact E3.
Qed.

(** *** A second blank snapshots the placeholder *)


(** *** Elements that blanking does not touch *)


(** * The visits of a blank *)

Lemma blankSelectors_visits draws sels :
  forall n st,
    blankSelectors draws n sels st
    = blankElements draws n (visits draws n sels st) st.
Proof.
  induction sels as [|sel sels IH]; intros n st; [reflexivity|].
  simpl.
  destruct (blankElements draws n (querySelectorAll st.1 sel) st)
    as [st1 n1] eqn:E.
  rewrite blankElements_app, E. simpl. apply IH.
Qed.

Lemma blankSensitiveData_visits env draws sm doc :
  hasWindow env = true ->
  blankSensitiveData env draws (sm, doc)
  = (withBackup
       (blankElements draws 0
          (visits draws 0 sensitiveSelectors (doc, sensitiveDataBackup sm))
          (doc, sensitiveDataBackup sm)).1.2 sm,
     setBodyClass true
       (blankElements draws 0
          (visits draws 0 sensitiveSelectors (doc, sensitiveDataBackup sm))
          (doc, sensitiveDataBackup sm)).1.1).
Proof.
  intros Hw. unfold blankSensitiveData. rewrite Hw. cbn [negb fst snd].
  rewrite blankSelectors_visits.
  destruct (blankElements draws 0 _ (doc, sensitiveDataBackup sm))
    as [[d b] n].
  reflexivity.
Qed.





(** * Restoring replays the entries in order *)



(** * The class on the body *)



(** * One blank, as an element that stays in place sees it *)



Lemma outsideSensitive_kept doc el0 el :
  kept el0 el -> outsideSensitive doc el = outsideSensitive doc el0.
Proof.
  intros (_ & _ & _ & A & _). unfold outsideSensitive. rewrite A. reflexivity.
Qed.




(** * The capture *)







(** * Blank, blank, restore *)






(** When the outer element is matched first, the inner one is never
    masked: in the box, the [div] carries [data-sensitive] and holds a
    [span] of class [api-key]; masking the [div] takes the [span] out of
    the document before the selector [.api-key] is queried. *)
Example inner_element_is_never_masked :
  let sm := newSessionManager rendererEnv None in
  let s1 := blankSensitiveData rendererEnv (sampleDraws 0) (sm, sensitiveBox) in
  let s3 := restoreSensitiveData rendererEnv
              (blankSensitiveData rendererEnv (sampleDraws 2) s1) in
  isSensitive sensitiveBox 1 = true /\
  (content <$> sensitiveBox !! 1%nat) = Some (Some "sk-12345") /\
  entriesFor 1%nat (sensitiveDataBackup s1.1).*2 = [] /\
  (content <$> s1.2 !! 1%nat) = Some (Some "sk-12345") /\
  (inDocument <$> s1.2 !! 1%nat) = Some false /\
  (content <$> s3.2 !! 1%nat) = Some (Some "sk-12345") /\
  (content <$> s3.2 !! 0%nat) = Some (Some maskedHTML).
Proof. vm_compute. repeat split. Qed.

(** * Blank, then restore *)



(** A sensitive element inside another one does not come back: on the
    page with nesting, the blank masks the [span] and then the [div]
    around it, which takes the [span] out of the document; the restore
    writes the key back into the [span], which is no longer part of the
    page, and writes into the [div] what it captured after the [span]
    was masked. *)
Example nested_element_is_lost :
  let st := restoreSensitiveData rendererEnv
              (blankSensitiveData rendererEnv (sampleDraws 0)
                 (newSessionManager rendererEnv None, profilePage)) in
  isSensitive profilePage 3 = true /\
  outsideSensitive profilePage
    {| tagName := "SPAN"; classList := ["api-key"]; attributes := [];
       innerHTML := Some "sk-12345"; value := "";
       attached := true; inDocument := true; parentElement := Some 2%nat;
       ancestors := [2%nat; 1%nat; 0%nat]; isBody := false |} = false /\
  inDocument <$> st.2 !! 3%nat = Some false /\
  innerHTML <$> st.2 !! 3%nat = Some (Some "sk-12345") /\
  inDocument <$> st.2 !! 1%nat = Some true /\
  innerHTML <$> st.2 !! 1%nat = Some None /\
  sensitiveDataBackup st.1 = [].
Proof. vm_compute. repeat split. Qed.

(** C2: the round trip fails for an element that two selectors match.
    The blank visits the password field twice, the second time storing
    the placeholder under a new key; the restore replays both entries
    in order and leaves the placeholder in the field.  The same happens
    through [lockSession] and [unlockSession]. *)
Theorem C2_double_match_not_restored :
  let doc := [apiKeyPasswordInput] in
  let sm := newSessionManager rendererEnv None in
  let st := restoreSensitiveData rendererEnv
              (blankSensitiveData rendererEnv (sampleDraws 0) (sm, doc)) in
  let locked := (lockSession rendererEnv 1000 (sampleDraws 0) (sm, doc)).1 in
  let unlocked := (unlockSession rendererEnv 2000 cred_null locked).1.1 in
  targets doc = [0%nat; 0%nat] /\
  freshRun 2 (sampleDraws 0) = true /\
  value <$> doc !! 0%nat = Some "hunter2" /\
  value <$> st.2 !! 0%nat = Some maskedValue /\
  sensitiveDataBackup st.1 = [] /\
  isLocked unlocked.1 = false /\
  value <$> unlocked.2 !! 0%nat = Some maskedValue.
Proof. vm_compute. repeat split. Qed.

(** The sample document, where every element matches one selector, does
    come back. *)
Example round_trip_sampleDoc :
  (restoreSensitiveData rendererEnv
     (blankSensitiveData rendererEnv (sampleDraws 0)
        (newSessionManager rendererEnv None, sampleDoc))).2 = sampleDoc.
Proof. vm_compute. reflexivity. Qed.

(** A guard disabled by [configure] after [start] does not lock on
    timeout, so its tracker keeps tracking and the next pulse arms the
    deadlines again. *)
Example disabled_guard_keeps_tracking :
  let g := configure None None (Some false) startedGuard in
  let r := guardFireTimer rendererEnv 600000 (sampleDraws 0) (g, sampleDoc) in
  r.2 = [(onTracker, inactivity_timeout)] /\
  isLocked (sessionManager r.1.1) = false /\
  isTracking (activityTracker r.1.1) = true /\
  hasDeadline
    (guardDeliver rendererEnv 600500 (sampleDraws 0)
       (DocumentEvent "keydown") r.1).1.1.(activityTracker) = true.
Proof. vm_compute. repeat split. Qed.

(** In the main process there is no window: locking blanks nothing and
    stores nothing. *)
Example main_process_lock_blanks_nothing :
  let r := lockSession mainEnv 1000 (sampleDraws 0)
             (newSessionManager mainEnv None, sampleDoc) in
  r.1.2 = sampleDoc /\ sensitiveDataBackup r.1.1 = [] /\
  isLocked r.1.1 = true /\ r.2 = [memory_cleared; session_locked 1000].
Proof. vm_compute. repeat split. Qed.

(** * Further properties of the activity tracker *)

Lemma filter_not_in_self (l k : list string) :
  (forall x, x ∈ k -> x ∈ l) -> filter (fun e => e ∉ l) k = [].
Proof.
  induction k as [|x k IH]; intros H; [reflexivity|].
  rewrite filter_cons_False by (intros Hn; apply Hn, H; left).
  apply IH. intros y Hy. apply H. right. exact Hy.
Qed.

(** [handleActivity] touches [lastActivity] and the two timer slots and
    nothing else. *)
Lemma handleActivity_fields env now type tr :
  let tr' := (handleActivity env now type tr).1 in
  timeout tr' = timeout tr /\ warningTime tr' = warningTime tr /\
  sensitivity tr' = sensitivity tr /\ enabled tr' = enabled tr /\
  isTracking tr' = isTracking tr /\ activityEvents tr' = activityEvents tr /\
  audioCheckInterval tr' = audioCheckInterval tr /\
  documentListeners tr' = documentListeners tr /\
  focusListeners tr' = focusListeners tr /\ ipcListeners tr' = ipcListeners tr.
Proof.
  unfold handleActivity. destruct (isTracking tr) eqn:Ht; simpl;
    [|rewrite Ht; repeat split].
  destruct (now - lastActivity tr <? 100); simpl; [rewrite Ht; repeat split|].
  unfold resetTimer. simpl. repeat split.
Qed.

(** Whatever the signal, the tracker is left as it was or as a call of
    [handleActivity] leaves it. *)
Lemma deliver_state env now sig tr :
  (deliver env now sig tr).1 = tr \/
  exists type, (deliver env now sig tr).1 = (handleActivity env now type tr).1.
Proof.
  destruct sig as [name|hidden|type hidden|audio|type]; simpl.
  - destruct (bool_decide _); [right; eauto | left; reflexivity].
  - destruct (focusListeners tr); [|left; reflexivity].
    unfold handleVisibilityChange. destruct hidden; [left; reflexivity|].
    right. exists (Some "visibility-change").
    destruct (handleActivity env now (Some "visibility-change") tr).
    reflexivity.
  - destruct (focusListeners tr); [|left; reflexivity].
    unfold handleFocusChange.
    destruct (String.eqb type "focus" || negb hidden); [|left; reflexivity].
    right. exists (Some "focus-change").
    destruct (handleActivity env now (Some "focus-change") tr). reflexivity.
  - destruct (audioCheckInterval tr); [|left; reflexivity].
    unfold checkAudioActivity. destruct audio; [right; eauto|left; reflexivity].
  - destruct (ipcListeners tr); [right; eauto | left; reflexivity].
Qed.

Lemma trackerConsistent_new env options now :
  trackerConsistent env (newActivityTracker env options now).
Proof. split; [intros _; repeat split | discriminate]. Qed.

Lemma trackerConsistent_handleActivity env now type tr :
  trackerConsistent env tr ->
  trackerConsistent env (handleActivity env now type tr).1.
Proof.
  intros [Hidle Hrun].
  destruct (handleActivity_cases env now type tr)
    as [E|(Ht & _ & _ & Hl & Ht' & Htm & Hw)]; [rewrite E; split; assumption|].
  destruct (handleActivity_fields env now type tr)
    as (_ & _ & _ & _ & _ & Hae & Hau & Hd & Hf & Hi).
  cbv zeta in Hl, Ht', Htm, Hw, Hae, Hau, Hd, Hf, Hi.
  split; [rewrite Ht'; discriminate|]. intros _.
  destruct (Hrun Ht) as (_ & Hd0 & Hf0 & Ha0 & Hi0).
  split; [|rewrite Hae, Hau, Hd, Hf, Hi; auto].
  do 2 eexists. split; [exact Htm|]. split; [exact Hw|].
  rewrite Hl. split; reflexivity.
Qed.

Lemma trackerConsistent_runTrackerOp env op tr :
  assignsState op = false ->
  trackerConsistent env tr ->
  trackerConsistent env (runTrackerOp env op tr).1.
Proof.
  intros Hop Hc. pose proof Hc as [Hidle Hrun].
  destruct op as [now options| |now sig|now|now|options|state]; simpl;
    try discriminate Hop.
  - (* startTracking *)
    unfold startTracking.
    destruct (enabled tr) eqn:He; simpl; [|exact Hc].
    destruct (isTracking tr) eqn:Ht; simpl; [exact Hc|].
    destruct (Hidle eq_refl) as (_ & _ & Ha & Hd & Hf & Hi).
    split; [destruct (hasWindow env); simpl;
            [|unfold setupMainProcessListeners; destruct (hasIpcMain env)];
            simpl; discriminate|].
    intros _. unfold engaged.
    destruct (hasWindow env); simpl.
    + rewrite Hd. simpl. rewrite filter_not_in_nil.
      split; [do 2 eexists; repeat split|]. rewrite Hi. auto.
    + unfold setupMainProcessListeners. destruct (hasIpcMain env); simpl;
        (split; [do 2 eexists; repeat split|]); rewrite ?Hd, ?Hf, ?Ha, ?Hi;
        auto.
  - (* stopTracking *)
    unfold stopTracking. destruct (isTracking tr) eqn:Ht; simpl; [|exact Hc].
    split; [|discriminate]. intros _.
    destruct (Hrun eq_refl) as (_ & Hd & Hf & Ha & Hi).
    unfold released. simpl. rewrite Hd, Hf, Hi.
    destruct (hasWindow env); simpl.
    + rewrite filter_not_in_self by auto. repeat split.
    + destruct (hasIpcMain env); repeat split.
  - (* signal *)
    destruct (deliver_state env now sig tr) as [-> |[type ->]]; [exact Hc|].
    apply trackerConsistent_handleActivity. exact Hc.
  - (* warning timer *)
    unfold fireWarningTimer. destruct (isDue now (warningTimer tr)) eqn:Hd;
      simpl; [|exact Hc].
    split; simpl.
    + intros Ht. destruct (Hidle Ht) as (_ & Hw & _).
      rewrite Hw in Hd. discriminate.
    + intros Ht. destruct (Hrun Ht) as ((t & w & H1 & H2 & H3 & H4) & Hr).
      split; [|exact Hr]. exists t, (expire w). simpl. rewrite H1, H2. auto.
  - (* timer *)
    unfold fireTimer. destruct (isDue now (timer tr)) eqn:Hd;
      simpl; [|exact Hc].
    split; simpl.
    + intros Ht. destruct (Hidle Ht) as (Htm & _).
      rewrite Htm in Hd. discriminate.
    + intros Ht. destruct (Hrun Ht) as ((t & w & H1 & H2 & H3 & H4) & Hr).
      split; [|exact Hr]. exists (expire t), w. simpl. rewrite H1, H2. auto.
  - (* assign *)
    exact Hc.
Qed.

Lemma trackerConsistent_runTrackerOps env ops :
  forallb (fun op => negb (assignsState op)) ops = true ->
  forall tr, trackerConsistent env tr ->
             trackerConsistent env (runTrackerOps env ops tr).1.
Proof.
  induction ops as [|op ops IH]; intros Hops tr Hc; [exact Hc|].
  simpl in Hops. apply andb_prop in Hops as [Hop Hops].
  apply negb_true_iff in Hop.
  simpl. pose proof (trackerConsistent_runTrackerOp env op tr Hop Hc) as H1.
  destruct (runTrackerOp env op tr) as [tr1 evs1].
  specialize (IH Hops tr1 H1). destruct (runTrackerOps env ops tr1) as [tr2 evs2].
  exact IH.
Qed.

Lemma isAssign_assignsState ops :
  forallb (fun op => negb (isAssign op)) ops = true ->
  forallb (fun op => negb (assignsState op)) ops = true.
Proof.
  intros H. rewrite forallb_forall in H. apply forallb_forall.
  intros op Hin. specialize (H op Hin). destruct op; auto.
Qed.

(** Timers and listeners exist only while the tracker is tracking.
    Take a tracker built by the constructor, then any sequence of
    [startTracking], [stopTracking], host signals, timer callbacks and
    assignments of options (the keys [timeout], [warningTime],
    [sensitivity] and [enabled]), but no assignment that names a field
    of the tracker's state.  Then a tracker that is not tracking has
    both timer slots and the audio interval cleared and no listener
    left on the document, the window or [ipcMain]; a tracker that is
    tracking holds two handles armed at [lastActivity] and exactly the
    listeners of its process. *)
Theorem tracker_holds_resources_only_while_tracking env options t0 ops :
  forallb (fun op => negb (assignsState op)) ops = true ->
  let tr := (runTrackerOps env ops (newActivityTracker env options t0)).1 in
  (isTracking tr = false ->
   timer tr = None /\ warningTimer tr = None /\
   audioCheckInterval tr = false /\ documentListeners tr = [] /\
   focusListeners tr = false /\ ipcListeners tr = false) /\
  (isTracking tr = true ->
   (exists t w, timer tr = Some t /\ warningTimer tr = Some w /\
                armedAt t = lastActivity tr /\ armedAt w = lastActivity tr) /\
   documentListeners tr = (if hasWindow env then activityEvents tr else []) /\
   focusListeners tr = hasWindow env /\
   audioCheckInterval tr = hasWindow env /\
   ipcListeners tr = negb (hasWindow env) && hasIpcMain env).
Proof.
  intros Hops.
  exact (trackerConsistent_runTrackerOps env ops Hops _
           (trackerConsistent_new env options t0)).
Qed.

Lemma tracker_holds_resources_only_while_tracking_witness :
  let ops := [t_startTracking 0 noOptions;
              t_signal 5000 (DocumentEvent "keydown");
              t_assign (withSensitivity High);
              t_warningTimer 485000;
              t_stopTracking] in
  let tr := (runTrackerOps rendererEnv ops
               (newActivityTracker rendererEnv noOptions 0)).1 in
  (isTracking tr = false ->
   timer tr = None /\ warningTimer tr = None /\
   audioCheckInterval tr = false /\ documentListeners tr = [] /\
   focusListeners tr = false /\ ipcListeners tr = false) /\
  (isTracking tr = true ->
   (exists t w, timer tr = Some t /\ warningTimer tr = Some w /\
                armedAt t = lastActivity tr /\ armedAt w = lastActivity tr) /\
   documentListeners tr
   = (if hasWindow rendererEnv then activityEvents tr else []) /\
   focusListeners tr = hasWindow rendererEnv /\
   audioCheckInterval tr = hasWindow rendererEnv /\
   ipcListeners tr = negb (hasWindow rendererEnv) && hasIpcMain rendererEnv).
Proof.
  refine (tracker_holds_resources_only_while_tracking rendererEnv noOptions 0
            [t_startTracking 0 noOptions;
             t_signal 5000 (DocumentEvent "keydown");
             t_assign (withSensitivity High);
             t_warningTimer 485000;
             t_stopTracking] _).
  vm_compute. reflexivity.
Defined.

(** An assignment that names a field of the state is another matter:
    [configure({activity: {isTracking: false}})] on a tracking tracker
    leaves both handles armed and the listeners bound on a tracker that
    says it is not tracking. *)
Example assigning_isTracking_keeps_the_timers :
  let state := {| s_timer := None; s_warningTimer := None;
                  s_isTracking := Some false; s_lastActivity := None;
                  s_activityEvents := None; s_audioCheckInterval := None |} in
  let tr := (runTrackerOps rendererEnv
               [t_startTracking 0 noOptions; t_assignState state]
               (newActivityTracker rendererEnv noOptions 0)).1 in
  isTracking tr = false /\
  timer tr = Some (setTimeout 0 600000) /\
  warningTimer tr = Some (setTimeout 0 480000) /\
  focusListeners tr = true /\
  (fireTimer 600000 tr).2 = [inactivity_timeout].
Proof. vm_compute. repeat split. Qed.

Lemma armedWithDurations_handleActivity env now type tr :
  armedWithDurations tr ->
  armedWithDurations (handleActivity env now type tr).1.
Proof.
  intros Ha.
  destruct (handleActivity_cases env now type tr)
    as [E|(_ & _ & _ & _ & _ & Htm & Hw)]; [rewrite E; exact Ha|].
  destruct (handleActivity_fields env now type tr) as (Hto & Hwt & _).
  cbv zeta in Htm, Hw, Hto, Hwt. intros _.
  rewrite Htm, Hw, Hto, Hwt. split; reflexivity.
Qed.

Lemma armedWithDurations_runTrackerOp env op tr :
  isAssign op = false ->
  armedWithDurations tr ->
  armedWithDurations (runTrackerOp env op tr).1.
Proof.
  intros Hop Ha.
  destruct op as [now options| |now sig|now|now|options|state]; simpl;
    try discriminate Hop.
  - unfold startTracking.
    destruct (enabled tr); simpl; [|exact Ha].
    destruct (isTracking tr) eqn:Ht; simpl; [exact Ha|].
    intros _.
    destruct (hasWindow env); simpl;
      [|unfold setupMainProcessListeners; destruct (hasIpcMain env)];
      simpl; split; reflexivity.
  - unfold stopTracking. destruct (isTracking tr) eqn:Ht; simpl; [|exact Ha].
    discriminate.
  - destruct (deliver_state env now sig tr) as [-> |[type ->]]; [exact Ha|].
    apply armedWithDurations_handleActivity. exact Ha.
  - unfold fireWarningTimer. destruct (isDue now (warningTimer tr)); simpl;
      [|exact Ha].
    intros Ht. destruct (Ha Ht) as [H1 H2]. simpl. split; [exact H1|].
    destruct (warningTimer tr); [exact H2|discriminate].
  - unfold fireTimer. destruct (isDue now (timer tr)); simpl; [|exact Ha].
    intros Ht. destruct (Ha Ht) as [H1 H2]. simpl. split; [|exact H2].
    destruct (timer tr); [exact H1|discriminate].
Qed.

Lemma armedWithDurations_runTrackerOps env ops :
  forallb (fun op => negb (isAssign op)) ops = true ->
  forall tr,
    armedWithDurations tr -> armedWithDurations (runTrackerOps env ops tr).1.
Proof.
  induction ops as [|op ops IH]; intros Hops tr Ha; [exact Ha|].
  simpl in Hops. apply andb_prop in Hops as [Hop Hops].
  apply negb_true_iff in Hop. simpl.
  pose proof (armedWithDurations_runTrackerOp env op tr Hop Ha) as H1.
  destruct (runTrackerOp env op tr) as [tr1 evs1].
  specialize (IH Hops tr1 H1). destruct (runTrackerOps env ops tr1) as [tr2 evs2].
  exact IH.
Qed.

Lemma isDue_Some now o :
  isDue now o = true -> exists t, o = Some t /\ dueAt t <= now.
Proof.
  destruct o as [t|]; simpl; [|discriminate].
  intros H. apply andb_prop in H as [_ H]. apply Z.leb_le in H. eauto.
Qed.

Lemma hostDelay_in_range d : 1 <= d <= TIMEOUT_MAX -> hostDelay d = d.
Proof.
  intros [H1 H2]. unfold hostDelay.
  destruct (Z.leb_spec 1 d); [|lia]. destruct (Z.leb_spec d TIMEOUT_MAX); [|lia].
  reflexivity.
Qed.

Lemma timeout_needs_full_silence_aux env options t0 ops now :
  forallb (fun op => negb (isAssign op)) ops = true ->
  let tr := (runTrackerOps env ops (newActivityTracker env options t0)).1 in
  ((fireTimer now tr).2 <> [] ->
   lastActivity tr + hostDelay (timeout tr) <= now) /\
  ((fireWarningTimer now tr).2 <> [] ->
   lastActivity tr + hostDelay (timeout tr - warningTime tr) <= now).
Proof.
  intros Hops tr.
  pose proof (trackerConsistent_runTrackerOps env ops
                (isAssign_assignsState ops Hops) _
                (trackerConsistent_new env options t0)) as [Hidle Hrun].
  assert (Ha0 : armedWithDurations (newActivityTracker env options t0))
    by (intros H; discriminate H).
  pose proof (armedWithDurations_runTrackerOps env ops Hops _ Ha0) as Ha.
  fold tr in Hidle, Hrun, Ha.
  assert (Htrack : forall o, isDue now o = true ->
                             o = timer tr \/ o = warningTimer tr ->
                             isTracking tr = true).
  { intros o Hd Ho. destruct (isTracking tr) eqn:Ht; [reflexivity|].
    destruct (Hidle eq_refl) as (H1 & H2 & _).
    destruct Ho as [-> | ->]; [rewrite H1 in Hd|rewrite H2 in Hd];
      discriminate. }
  split; intros Hev.
  - unfold fireTimer in Hev. destruct (isDue now (timer tr)) eqn:Hd;
      [|contradiction].
    pose proof (Htrack _ Hd (or_introl eq_refl)) as Ht.
    destruct (isDue_Some _ _ Hd) as (t & Et & Hdue).
    destruct (Hrun Ht) as ((t' & w & H1 & _ & H3 & _) & _).
    destruct (Ha Ht) as [D1 _].
    rewrite Et in H1, D1. injection H1 as <-. simpl in D1.
    injection D1 as D1. unfold dueAt in Hdue. rewrite D1, H3 in Hdue.
    exact Hdue.
  - unfold fireWarningTimer in Hev.
    destruct (isDue now (warningTimer tr)) eqn:Hd; [|contradiction].
    pose proof (Htrack _ Hd (or_intror eq_refl)) as Ht.
    destruct (isDue_Some _ _ Hd) as (w & Ew & Hdue).
    destruct (Hrun Ht) as ((t & w' & _ & H2 & _ & H4) & _).
    destruct (Ha Ht) as [_ D2].
    rewrite Ew in H2, D2. injection H2 as <-. simpl in D2.
    injection D2 as D2. unfold dueAt in Hdue. rewrite D2, H4 in Hdue.
    exact Hdue.
Qed.

(** The timeout needs a full silence, for the durations a host can
    wait for.  Take a tracker built by the constructor, then any
    sequence of [startTracking], [stopTracking], host signals and timer
    callbacks (options objects hold the keys [timeout], [warningTime],
    [sensitivity] and [enabled] only, and the durations are changed by
    [startTracking] only).  When [timeout] is between 1 and
    [2^31 - 1] ms, the timeout callback can emit [inactivity-timeout]
    at [now] only if [timeout] ms have passed since [lastActivity];
    when [timeout - warningTime] is in that range, the warning callback
    can emit only if [timeout - warningTime] ms have passed.  For any
    other delay the host does not wait, and the callback can run as
    soon as the handle is armed. *)
Theorem timeout_needs_full_silence env options t0 ops now :
  forallb (fun op => negb (isAssign op)) ops = true ->
  let tr := (runTrackerOps env ops (newActivityTracker env options t0)).1 in
  (1 <= timeout tr <= TIMEOUT_MAX ->
   (fireTimer now tr).2 <> [] -> lastActivity tr + timeout tr <= now) /\
  (1 <= timeout tr - warningTime tr <= TIMEOUT_MAX ->
   (fireWarningTimer now tr).2 <> [] ->
   lastActivity tr + (timeout tr - warningTime tr) <= now) /\
  ((fireTimer now tr).2 <> [] ->
   lastActivity tr + hostDelay (timeout tr) <= now) /\
  ((fireWarningTimer now tr).2 <> [] ->
   lastActivity tr + hostDelay (timeout tr - warningTime tr) <= now).
Proof.
  intros Hops tr.
  destruct (timeout_needs_full_silence_aux env options t0 ops now Hops)
    as [H1 H2]. fold tr in H1, H2.
  split; [|split; [|split; assumption]].
  - intros Hr Hev. specialize (H1 Hev).
    rewrite (hostDelay_in_range _ Hr) in H1. exact H1.
  - intros Hr Hev. specialize (H2 Hev).
    rewrite (hostDelay_in_range _ Hr) in H2. exact H2.
Qed.

Lemma timeout_needs_full_silence_witness :
  let ops := [t_startTracking 0 noOptions;
              t_signal 5000 (DocumentEvent "keydown");
              t_warningTimer 485000] in
  let tr := (runTrackerOps rendererEnv ops
               (newActivityTracker rendererEnv noOptions 0)).1 in
  (1 <= timeout tr <= TIMEOUT_MAX ->
   (fireTimer 605000 tr).2 <> [] -> lastActivity tr + timeout tr <= 605000) /\
  (1 <= timeout tr - warningTime tr <= TIMEOUT_MAX ->
   (fireWarningTimer 605000 tr).2 <> [] ->
   lastActivity tr + (timeout tr - warningTime tr) <= 605000) /\
  ((fireTimer 605000 tr).2 <> [] ->
   lastActivity tr + hostDelay (timeout tr) <= 605000) /\
  ((fireWarningTimer 605000 tr).2 <> [] ->
   lastActivity tr + hostDelay (timeout tr - warningTime tr) <= 605000).
Proof.
  refine (timeout_needs_full_silence rendererEnv noOptions 0
            [t_startTracking 0 noOptions;
             t_signal 5000 (DocumentEvent "keydown");
             t_warningTimer 485000] 605000 _).
  vm_compute. reflexivity.
Defined.

(** The witness is not vacuous: at 605000 the timeout does fire. *)
Example timeout_fires_after_silence :
  let ops := [t_startTracking 0 noOptions;
              t_signal 5000 (DocumentEvent "keydown");
              t_warningTimer 485000] in
  let tr := (runTrackerOps rendererEnv ops
               (newActivityTracker rendererEnv noOptions 0)).1 in
  (fireTimer 605000 tr).2 = [inactivity_timeout] /\
  (fireTimer 604999 tr).2 = [] /\ lastActivity tr = 5000 /\
  timeout tr = 600000.
Proof. vm_compute. repeat split. Qed.

(** A timeout of [2^31] ms is more than the host waits for: the
    callback can run one millisecond after [startTracking]. *)
Example huge_timeout_fires_at_once :
  let options := {| o_timeout := Some 2147483648; o_warningTime := None;
                    o_sensitivity := None; o_enabled := None |} in
  let tr := (runTrackerOps rendererEnv [t_startTracking 0 noOptions]
               (newActivityTracker rendererEnv options 0)).1 in
  timeout tr = 2147483648 /\
  delay <$> timer tr = Some 2147483648 /\
  (fireTimer 1 tr).2 = [inactivity_timeout].
Proof. vm_compute. repeat split. Qed.

(** A higher sensitivity never listens to fewer events: whatever the
    sensitivity string, the events bound contain those of "low" and are
    among those of "high". *)
Theorem getActivityEvents_between_low_and_high tr name :
  (name ∈ ["mousedown"; "keydown"; "touchstart"] ->
   name ∈ getActivityEvents tr) /\
  (name ∈ getActivityEvents tr ->
   name ∈ ["mousedown"; "mousemove"; "keydown"; "scroll"; "touchstart";
           "mouseup"; "keyup"; "wheel"; "touchend"; "touchmove"]).
Proof.
  unfold getActivityEvents, baseEvents.
  destruct (String.eqb (sensitivity tr) "low");
    [|destruct (String.eqb (sensitivity tr) "high")];
    split; intros H; apply list_elem_of_In; apply list_elem_of_In in H;
    simpl in *; tauto.
Qed.

(** The warning reports the time elapsed, not the time left.  In the
    same runs, when [timeout - warningTime] is between 1 and
    [2^31 - 1] ms and the warning callback emits at [now], its
    [timeRemaining] field is [timeout - warningTime], the time that has
    passed at least since [lastActivity], while the time left until
    [lastActivity + timeout] is at most [warningTime]. *)
Theorem warning_reports_its_own_delay env options t0 ops now :
  forallb (fun op => negb (isAssign op)) ops = true ->
  let tr := (runTrackerOps env ops (newActivityTracker env options t0)).1 in
  1 <= timeout tr - warningTime tr <= TIMEOUT_MAX ->
  (fireWarningTimer now tr).2 <> [] ->
  (fireWarningTimer now tr).2
  = [inactivity_warning (timeout tr - warningTime tr) (warningTime tr)] /\
  timeout tr - warningTime tr <= now - lastActivity tr /\
  lastActivity tr + timeout tr - now <= warningTime tr.
Proof.
  intros Hops tr Hr Hev.
  destruct (timeout_needs_full_silence_aux env options t0 ops now Hops)
    as [_ Hw].
  fold tr in Hw. specialize (Hw Hev).
  rewrite (hostDelay_in_range _ Hr) in Hw.
  unfold fireWarningTimer in *.
  destruct (isDue now (warningTimer tr)); [|contradiction].
  split; [reflexivity|lia].
Qed.

Lemma warning_reports_its_own_delay_witness :
  let tr := (runTrackerOps rendererEnv [t_startTracking 0 noOptions]
               (newActivityTracker rendererEnv noOptions 0)).1 in
  (fireWarningTimer 480000 tr).2
  = [inactivity_warning (timeout tr - warningTime tr) (warningTime tr)] /\
  timeout tr - warningTime tr <= 480000 - lastActivity tr /\
  lastActivity tr + timeout tr - 480000 <= warningTime tr.
Proof.
  refine (warning_reports_its_own_delay rendererEnv noOptions 0
            [t_startTracking 0 noOptions] 480000 _ _ _);
    [vm_compute; reflexivity | vm_compute; split; discriminate
     | vm_compute; discriminate].
Defined.

(** * Further properties of the session manager *)

(** Locking is idempotent: a [lockSession()] right after another one
    changes nothing and emits nothing, so the elements are not blanked
    a second time and the backup keeps the first capture. *)
Theorem lockSession_twice_is_once env now1 draws1 now2 draws2 st :
  lockSession env now2 draws2 (lockSession env now1 draws1 st).1
  = ((lockSession env now1 draws1 st).1, []).
Proof.
  destruct (isLocked st.1) eqn:Hl.
  - rewrite (lockSession_locked env now1 draws1 st Hl). simpl.
    apply lockSession_locked. exact Hl.
  - destruct st as [sm doc]. simpl in Hl.
    destruct (lockSession_unlocked env now1 draws1 sm doc Hl)
      as (sm' & -> & Hl' & _).
    simpl. apply lockSession_locked. exact Hl'.
Qed.

Lemma getStoredPassword_nonempty env : getStoredPassword env <> "".
Proof.
  unfold getStoredPassword, truthyS.
  destruct (AFK_UNLOCK_PASSWORD env) as [p|]; [|discriminate].
  destruct (String.eqb_spec p ""); [discriminate | assumption].
Qed.

Lemma validateUnlock_password env sm creds :
  unlockMethod sm = "password" ->
  (validateUnlock env sm creds = true <->
   creds = cred_object (Some (getStoredPassword env))).
Proof.
  intros Hm. unfold validateUnlock. rewrite Hm. simpl.
  destruct creds as [|[p|]]; split; intros H; try discriminate.
  - apply String.eqb_eq in H. subst p. reflexivity.
  - injection H as ->. apply String.eqb_refl.
Qed.

Lemma validateUnlock_other env sm creds :
  unlockMethod sm <> "password" -> validateUnlock env sm creds = true.
Proof.
  intros Hm. unfold validateUnlock.
  destruct (String.eqb (unlockMethod sm) "click"); [reflexivity|].
  destruct (String.eqb_spec (unlockMethod sm) "password"); [contradiction|].
  destruct (String.eqb (unlockMethod sm) "os"); reflexivity.
Qed.

Lemma unlockSession_result env now creds sm doc :
  isLocked sm = true ->
  (unlockSession env now creds (sm, doc)).2 = validateUnlock env sm creds /\
  isLocked (unlockSession env now creds (sm, doc)).1.1.1
  = negb (validateUnlock env sm creds).
Proof.
  intros Hl. destruct (validateUnlock env sm creds) eqn:Hv.
  - destruct (unlockSession_valid env now creds sm doc Hl Hv) as (H1 & H2 & _).
    auto.
  - rewrite (unlockSession_rejected env now creds sm doc Hl Hv). simpl. auto.
Qed.

(** Only the password method checks anything: under "click", "os" and
    any other value of [unlockMethod], every [unlockSession] on a
    locked session succeeds, whatever is passed as credentials (nothing
    at all included), and the session is unlocked. *)
Theorem unlock_checks_nothing_unless_password env now creds sm doc :
  isLocked sm = true ->
  unlockMethod sm <> "password" ->
  (unlockSession env now creds (sm, doc)).2 = true /\
  isLocked (unlockSession env now creds (sm, doc)).1.1.1 = false.
Proof.
  intros Hl Hm.
  destruct (unlockSession_result env now creds sm doc Hl) as [H1 H2].
  rewrite H1, H2, (validateUnlock_other env sm creds Hm). auto.
Qed.

(** A session locked under the "os" method over the sample document. *)
Lemma unlock_checks_nothing_unless_password_witness :
  let st := (lockSession rendererEnv 1000 (sampleDraws 0)
               (newSessionManager rendererEnv (Some "os"), sampleDoc)).1 in
  (unlockSession rendererEnv 2000 cred_null (st.1, st.2)).2 = true /\
  isLocked (unlockSession rendererEnv 2000 cred_null (st.1, st.2)).1.1.1
  = false.
Proof.
  refine (unlock_checks_nothing_unless_password rendererEnv 2000 cred_null
            _ _ _ _); [vm_compute; reflexivity | vm_compute; discriminate].
Defined.

(** Under the password method a locked session is unlocked exactly by
    credentials that carry the stored password: [unlockSession]
    resolves to [true] if and only if [credentials.password] is the
    string [getStoredPassword] returns, which is never empty (an unset
    or empty [AFK_UNLOCK_PASSWORD] means "default"). *)
Theorem password_unlocks_iff_stored_password env now creds sm doc :
  isLocked sm = true ->
  unlockMethod sm = "password" ->
  ((unlockSession env now creds (sm, doc)).2 = true <->
   creds = cred_object (Some (getStoredPassword env))) /\
  getStoredPassword env <> "" /\
  (truthyS (AFK_UNLOCK_PASSWORD env) = None ->
   getStoredPassword env = "default").
Proof.
  intros Hl Hm.
  destruct (unlockSession_result env now creds sm doc Hl) as [H1 _].
  rewrite H1. split; [apply validateUnlock_password; exact Hm|].
  split; [apply getStoredPassword_nonempty|].
  intros Hn. unfold getStoredPassword. rewrite Hn. reflexivity.
Qed.

Lemma password_unlocks_iff_stored_password_witness :
  ((unlockSession rendererEnv 2000 (cred_object (Some "default"))
      (lockedByPassword.1, lockedByPassword.2)).2 = true <->
   cred_object (Some "default")
   = cred_object (Some (getStoredPassword rendererEnv))) /\
  getStoredPassword rendererEnv <> "" /\
  (truthyS (AFK_UNLOCK_PASSWORD rendererEnv) = None ->
   getStoredPassword rendererEnv = "default").
Proof.
  refine (password_unlocks_iff_stored_password rendererEnv 2000
            (cred_object (Some "default"))
            lockedByPassword.1 lockedByPassword.2 _ _);
    vm_compute; reflexivity.
Defined.

(** The unlock button does not work under the password method.  The
    button's click listener is [handleUnlockAttempt] itself, so the
    click event arrives as [credentials]: it is not empty, the typed
    password is not read, and the attempt is rejected whatever was
    typed.  The Enter key in the input passes the typed value as
    [credentials.password], and a call without credentials reads the
    input: both unlock exactly when the typed value is the stored
    password. *)
Theorem unlock_button_ignores_typed_password env now typed sm doc :
  isLocked sm = true ->
  unlockMethod sm = "password" ->
  handleUnlockAttempt env now (cred_object None) typed (sm, doc)
  = (sm, doc, [unlock_failed "password"], false) /\
  (forall p,
     (handleUnlockAttempt env now (cred_object (Some p)) typed (sm, doc)).2
     = true <-> p = getStoredPassword env) /\
  ((handleUnlockAttempt env now cred_null typed (sm, doc)).2 = true <->
   typed = Some (getStoredPassword env)).
Proof.
  intros Hl Hm. unfold handleUnlockAttempt. simpl. rewrite Hm. simpl.
  split; [|split].
  - rewrite unlockSession_rejected; [rewrite Hm; reflexivity|exact Hl|].
    unfold validateUnlock. rewrite Hm. reflexivity.
  - intros p.
    destruct (unlockSession_result env now (cred_object (Some p)) sm doc Hl)
      as [H1 _].
    rewrite H1, (validateUnlock_password env sm _ Hm).
    split; intros H; [injection H as ->|subst p]; reflexivity.
  - destruct (unlockSession_result env now
                (cred_object (Some (default "" typed))) sm doc Hl) as [H1 _].
    rewrite H1, (validateUnlock_password env sm _ Hm).
    destruct typed as [p|]; simpl; split; intros H.
    + injection H as ->. reflexivity.
    + injection H as ->. reflexivity.
    + injection H as H. exfalso.
      apply (getStoredPassword_nonempty env). symmetry. exact H.
    + discriminate.
Qed.

Lemma unlock_button_ignores_typed_password_witness :
  handleUnlockAttempt rendererEnv 2000 (cred_object None) (Some "default")
    (lockedByPassword.1, lockedByPassword.2)
  = (lockedByPassword.1, lockedByPassword.2, [unlock_failed "password"], false)
  /\
  (forall p,
     (handleUnlockAttempt rendererEnv 2000 (cred_object (Some p))
        (Some "default") (lockedByPassword.1, lockedByPassword.2)).2
     = true <-> p = getStoredPassword rendererEnv) /\
  ((handleUnlockAttempt rendererEnv 2000 cred_null (Some "default")
      (lockedByPassword.1, lockedByPassword.2)).2 = true <->
   Some "default" = Some (getStoredPassword rendererEnv)).
Proof.
  refine (unlock_button_ignores_typed_password rendererEnv 2000
            (Some "default") lockedByPassword.1 lockedByPassword.2 _ _);
    vm_compute; reflexivity.
Defined.

(** * Further properties of blanking *)





(** On the page with a body: the key and the password field (whose
    [type] is written in upper case) are masked, the title is left
    alone, and the body gets the class [afk-session-locked]. *)
Example blank_bodyPage :
  let doc' := (blankSensitiveData rendererEnv (sampleDraws 0)
                 (newSessionManager rendererEnv None, bodyPage)).2 in
  innerHTML <$> doc' !! 1%nat = Some (Some maskedHTML) /\
  doc' !! 2%nat = bodyPage !! 2%nat /\
  value <$> doc' !! 3%nat = Some maskedValue /\
  classList <$> doc' !! 0%nat = Some [sessionLockedClass] /\
  isSensitive bodyPage 2 = false /\ holdsNoSensitive bodyPage 2 = true /\
  aroundBody bodyPage 2 = false /\ aroundBody bodyPage 0 = true.
Proof. vm_compute. repeat split. Qed.

(** ** One entry per match *)

Lemma noNesting_spec doc h el :
  noNesting doc = true -> doc !! h = Some el -> isSensitive doc h = true ->
  outsideSensitive doc el = true.
Proof.
  intros Hn Hl Hs. unfold noNesting in Hn. rewrite forallb_forall in Hn.
  specialize (Hn h ltac:(apply in_seq; apply lookup_lt_Some in Hl; lia)).
  rewrite Hs, Hl in Hn. exact Hn.
Qed.

Lemma isSensitive_lookup doc h :
  isSensitive doc h = true -> exists el, doc !! h = Some el.
Proof.
  intros H. apply isSensitive_spec in H as (sel & _ & H).
  unfold selects in H. destruct (doc !! h) as [el|]; [eauto|discriminate].
Qed.

(** Where no sensitive element is inside another one, the selectors
    find during the blank what they found before it. *)
Lemma visits_targets draws doc0 :
  noNesting doc0 = true ->
  forall sels,
    (forall sel, sel ∈ sels -> sel ∈ sensitiveSelectors) ->
    forall n st,
      evolves doc0 st.1 ->
      (forall t et, doc0 !! t = Some et -> isSensitive doc0 t = true ->
                    exists et', st.1 !! t = Some et' /\ kept et et') ->
      visits draws n sels st = flat_map (querySelectorAll doc0) sels.
Proof.
  intros Hnn. induction sels as [|sel sels IH]; intros Hsub n st He Hk;
    [reflexivity|].
  simpl.
  assert (Hsel : sel ∈ sensitiveSelectors) by (apply Hsub; left).
  assert (Hav : avoidsOwnClasses sel).
  { pose proof sensitiveSelectors_avoid as H. rewrite Forall_forall in H. auto. }
  assert (Hq : querySelectorAll st.1 sel = querySelectorAll doc0 sel).
  { unfold querySelectorAll. rewrite (evolves_length _ _ He).
    apply List.filter_ext. intros i.
    destruct (isSensitive doc0 i) eqn:Es.
    - destruct (isSensitive_lookup doc0 i Es) as (ei & Hli).
      destruct (Hk i ei Hli Es) as (ei' & Hli' & Hki).
      exact (selects_kept doc0 st.1 sel i ei ei' Hli Hli' Hki Hav).
    - assert (H0 : selects doc0 sel i = false).
      { destruct (selects doc0 sel i) eqn:E; [|reflexivity].
        assert (isSensitive doc0 i = true); [|congruence].
        apply isSensitive_spec. eauto. }
      rewrite H0. destruct (selects st.1 sel i) eqn:E; [|reflexivity].
      rewrite (selects_evolves doc0 st.1 sel i He Hav E) in H0. discriminate. }
  rewrite Hq.
  pose proof (blankElements_evolves draws (querySelectorAll doc0 sel) n st) as He1.
  assert (Hk1 : forall t et,
             doc0 !! t = Some et -> isSensitive doc0 t = true ->
             exists et', (blankElements draws n (querySelectorAll doc0 sel) st).1.1
                         !! t = Some et' /\ kept et et').
  { intros t et Hlt Hst. destruct (Hk t et Hlt Hst) as (et' & Hlt' & Hkt).
    pose proof (noNesting_spec doc0 t et Hnn Hlt Hst) as Hot.
    assert (Hn : t ∉ ancestors et).
    { intros Hin.
      rewrite (proj1 (outsideSensitive_spec doc0 et) Hot t Hin) in Hst.
      discriminate. }
    assert (Hfa : Forall (fun w => w ∉ ancestors et) (querySelectorAll doc0 sel)).
    { apply Forall_forall. intros w Hin Ha.
      apply querySelectorAll_spec in Hin.
      assert (Hs : isSensitive doc0 w = true)
        by (apply isSensitive_spec; eauto).
      rewrite (proj1 (outsideSensitive_spec doc0 et) Hot w Ha) in Hs.
      discriminate. }
    destruct st as [doc bk]. simpl in Hlt'.
    exact (proj1 (blankElements_masks draws (querySelectorAll doc0 sel) n doc bk
                    t et et' Hlt' Hkt Hn Hfa)). }
  destruct (blankElements draws n (querySelectorAll doc0 sel) st) as [st1 n1].
  simpl in He1, Hk1. f_equal.
  apply IH; [intros s Hs; apply Hsub; right; exact Hs | |exact Hk1].
  exact (evolves_trans _ _ _ He He1).
Qed.

Lemma targets_in_range doc :
  Forall (fun h => (h < length doc)%nat) (targets doc).
Proof.
  apply Forall_forall. intros h Hin. apply list_elem_of_In in Hin.
  unfold targets in Hin. apply in_flat_map in Hin as (sel & _ & Hin).
  apply list_elem_of_In, querySelectorAll_spec in Hin.
  unfold selects in Hin. destruct (doc !! h) as [el|] eqn:E; [|discriminate].
  eapply lookup_lt_Some. exact E.
Qed.

(** With distinct ids the backup has one entry per match.  In a window,
    starting from an empty backup, on a page where no sensitive element
    is inside another one, when the random parts of the ids are
    distinct base-36 strings, [blankSensitiveData()] leaves in the
    backup one entry for every pair of a sensitive selector and an
    element it finds, in the order of the visits (selector by selector,
    each in document order); so the number of entries is the number of
    such pairs. *)
Theorem blank_records_one_entry_per_match env draws sm doc :
  hasWindow env = true ->
  sensitiveDataBackup sm = [] ->
  noNesting doc = true ->
  freshRun (length (targets doc)) draws = true ->
  let sm' := (blankSensitiveData env draws (sm, doc)).1 in
  element <$> (sensitiveDataBackup sm').*2 = targets doc /\
  length (sensitiveDataBackup sm') = length (targets doc).
Proof.
  intros Hw Hemp Hnn Hf sm'. subst sm'.
  rewrite (blankSensitiveData_visits env draws sm doc Hw), Hemp.
  cbn [fst snd sensitiveDataBackup withBackup].
  rewrite (visits_targets draws doc Hnn sensitiveSelectors (fun s H => H)
             0%nat (doc, []) (evolves_refl doc)
             (fun t et Hl _ => ex_intro _ et (conj Hl (kept_refl et)))).
  fold (targets doc).
  destruct (blankElements_appends draws (length (targets doc)) (targets doc)
              0%nat doc [] (le_n _) (freshRun_freshAt _ _ Hf)
              (targets_in_range doc)) as (es & E1 & E2 & _).
  rewrite E1. simpl.
  assert (E3 : element <$> es.*2 = targets doc) by exact E2.
  split; [exact E3|].
  rewrite <- E3, !length_fmap. reflexivity.
Qed.

Lemma blank_records_one_entry_per_match_witness :
  let sm' := (blankSensitiveData rendererEnv (sampleDraws 0)
                (newSessionManager rendererEnv None, [apiKeyPasswordInput])).1 in
  element <$> (sensitiveDataBackup sm').*2 = targets [apiKeyPasswordInput] /\
  length (sensitiveDataBackup sm') = length (targets [apiKeyPasswordInput]).
Proof.
  refine (blank_records_one_entry_per_match rendererEnv (sampleDraws 0)
            (newSessionManager rendererEnv None) [apiKeyPasswordInput]
            _ _ _ _); vm_compute; reflexivity.
Defined.

(** On the page with nesting the [span] is visited before the [div]
    takes it out of the document, so both are captured; had the [div]
    come first, the [span] would not be found. *)
Example nested_page_visits :
  noNesting profilePage = false /\
  targets profilePage = [3%nat; 1%nat] /\
  visits (sampleDraws 0) 0 sensitiveSelectors (profilePage, []) = [3%nat; 1%nat] /\
  isSensitive
    (blankSensitiveData rendererEnv (sampleDraws 0)
       (newSessionManager rendererEnv None, profilePage)).2 3 = false.
Proof. vm_compute. repeat split. Qed.

Lemma generateElementId_fresh_witness :
  generateElementId apiKeyDiv (1700000000000, "k3j9x0a1b")
  <> generateElementId tokenInput (1700000000000, "zz81m2p0q").
Proof.
  refine (generateElementId_fresh apiKeyDiv (1700000000000, "k3j9x0a1b")
            tokenInput (1700000000000, "zz81m2p0q") _ _ _);
    [vm_compute; reflexivity | vm_compute; reflexivity |
     vm_compute; discriminate].
Defined.

(** * Further properties of the guard *)

Lemma unlockSession_valid_events env now creds sm doc :
  isLocked sm = true ->
  validateUnlock env sm creds = true ->
  exists sm2 doc2,
    unlockSession env now creds (sm, doc)
    = (sm2, doc2,
       (if hasWindow env && hasNotifySessionUnlock env
        then [api_notifySessionUnlock] else []) ++
       [session_unlocked now (now - default 0 (lockTime sm)) (unlockMethod sm)],
       true) /\
    isLocked sm2 = false /\ unlockMethod sm2 = unlockMethod sm.
Proof.
  intros Hl Hv. unfold unlockSession, unlockSession_call. simpl.
  rewrite Hl, Hv. unfold unlockSession_resume. simpl.
  pose proof (restoreSensitiveData_fields env
                (setLocked false (lockTime sm) sm) doc) as (H1 & H2 & _).
  destruct (restoreSensitiveData env (setLocked false (lockTime sm) sm, doc))
    as [sm2 doc2].
  simpl in *. exists sm2, doc2. rewrite H1. auto.
Qed.

(** What the guard's listeners do with the events of a successful
    unlock. *)
Lemma forwardSession_unlocked env now (c : bool) a b m g :
  (forwardSession env now
     ((if c then [api_notifySessionUnlock] else []) ++ [session_unlocked a b m])
     g).1
  = withTracker
      (if guardEnabled g
       then (startTracking env now noOptions (activityTracker g)).1
       else activityTracker g) g.
Proof.
  destruct c; simpl;
    destruct (guardEnabled g);
    try destruct (startTracking env now noOptions (activityTracker g));
    reflexivity.
Qed.

(** A successful unlock through the guard starts the tracker again.
    When an [unlockSession] whose credentials are accepted unlocks the
    session of an enabled guard whose tracker is enabled and stopped,
    the [session-unlocked] listener starts the tracker: both deadlines
    are armed from the time of the unlock.  In a disabled guard the
    tracker is left as it was. *)
Theorem unlock_through_guard_restarts_tracking env now creds g doc :
  isLocked (sessionManager g) = true ->
  validateUnlock env (sessionManager g) creds = true ->
  let r := guardUnlockSession env now creds (g, doc) in
  let tr := activityTracker r.1.1.1 in
  r.2 = true /\ isLocked (sessionManager r.1.1.1) = false /\
  (guardEnabled g = true -> enabled (activityTracker g) = true ->
   isTracking (activityTracker g) = false ->
   isTracking tr = true /\ lastActivity tr = now /\
   timer tr = Some (setTimeout now (timeout (activityTracker g))) /\
   warningTimer tr
   = Some (setTimeout now (timeout (activityTracker g)
                           - warningTime (activityTracker g)))) /\
  (guardEnabled g = false -> tr = activityTracker g).
Proof.
  intros Hl Hv r tr. subst tr r. unfold guardUnlockSession. simpl.
  destruct (unlockSession_valid_events env now creds (sessionManager g) doc
              Hl Hv) as (sm2 & doc2 & -> & Hl2 & _).
  pose proof (forwardSession_unlocked env now
                (hasWindow env && hasNotifySessionUnlock env) now
                (now - default 0 (lockTime (sessionManager g)))
                (unlockMethod (sessionManager g)) (withSession sm2 g)) as Hf.
  pose proof (forwardSession_sessionManager env now
                ((if hasWindow env && hasNotifySessionUnlock env
                  then [api_notifySessionUnlock] else []) ++
                 [session_unlocked now
                    (now - default 0 (lockTime (sessionManager g)))
                    (unlockMethod (sessionManager g))])
                (withSession sm2 g)) as Hs.
  destruct (forwardSession env now _ (withSession sm2 g)) as [g2 log].
  simpl in *. subst g2. simpl.
  split; [reflexivity|]. split; [exact Hl2|]. split.
  - intros He Hen Ht. rewrite He.
    destruct (startTracking_arms env now noOptions (activityTracker g) Hen Ht)
      as (_ & H2 & H3 & H4 & H5 & H6 & H7).
    simpl in H4, H5. rewrite H6, H7, H4, H5. auto.
  - intros He. rewrite He. reflexivity.
Qed.

Lemma unlock_through_guard_restarts_tracking_witness :
  let r := guardUnlockSession rendererEnv 700000 cred_null
             (clickGuardTimedOut.1, clickGuardTimedOut.2) in
  let tr := activityTracker r.1.1.1 in
  r.2 = true /\ isLocked (sessionManager r.1.1.1) = false /\
  (guardEnabled clickGuardTimedOut.1 = true ->
   enabled (activityTracker clickGuardTimedOut.1) = true ->
   isTracking (activityTracker clickGuardTimedOut.1) = false ->
   isTracking tr = true /\ lastActivity tr = 700000 /\
   timer tr
   = Some (setTimeout 700000 (timeout (activityTracker clickGuardTimedOut.1)))
   /\
   warningTimer tr
   = Some (setTimeout 700000
             (timeout (activityTracker clickGuardTimedOut.1)
              - warningTime (activityTracker clickGuardTimedOut.1)))) /\
  (guardEnabled clickGuardTimedOut.1 = false ->
   tr = activityTracker clickGuardTimedOut.1).
Proof.
  refine (unlock_through_guard_restarts_tracking rendererEnv 700000 cred_null
            clickGuardTimedOut.1 clickGuardTimedOut.2 _ _);
    vm_compute; reflexivity.
Defined.

Lemma stopTracking_enabled env tr :
  enabled (stopTracking env tr).1 = enabled tr /\
  timeout (stopTracking env tr).1 = timeout tr /\
  warningTime (stopTracking env tr).1 = warningTime tr.
Proof. unfold stopTracking. destruct (isTracking tr); repeat split. Qed.

(** [stop()] does not stop a guard whose locked session it can unlock.
    When [stop()] is called on an enabled guard with an enabled tracker
    while the session is locked, and the unlock without credentials is
    accepted (any method but "password"), the unlock it launches
    finishes after [afk-guard-stopped] and its [session-unlocked]
    listener starts the tracker again: after [stop()] the tracker is
    tracking, with both deadlines armed. *)
Theorem stop_restarts_tracking_after_unlock env now g doc :
  guardEnabled g = true ->
  enabled (activityTracker g) = true ->
  isLocked (sessionManager g) = true ->
  validateUnlock env (sessionManager g) cred_null = true ->
  let r := stop env now (g, doc) in
  isLocked (sessionManager r.1.1) = false /\
  isTracking (activityTracker r.1.1) = true /\
  hasDeadline (activityTracker r.1.1) = true /\
  In (onGuard, afk_guard_stopped) r.2.
Proof.
  intros He Hen Hl Hv r. subst r. unfold stop. simpl.
  pose proof (stopTracking_idle env (activityTracker g)) as [Hidle _].
  pose proof (stopTracking_enabled env (activityTracker g)) as (Hen' & _).
  destruct (stopTracking env (activityTracker g)) as [tr evs]. simpl in *.
  unfold isSessionLocked, unlockSession_call. simpl. rewrite Hl, Hv. simpl.
  unfold unlockSession_resume. simpl.
  pose proof (restoreSensitiveData_fields env
     (setLocked false (lockTime (sessionManager g)) (sessionManager g)) doc)
    as (H1 & H2 & _).
  destruct (restoreSensitiveData env _) as [sm2 doc2]. simpl in H1, H2.
  pose proof (forwardSession_unlocked env now
                (hasWindow env && hasNotifySessionUnlock env) now
                (now - default 0 (lockTime (sessionManager g)))
                (unlockMethod sm2) (withSession sm2 (withTracker tr g))) as Hf.
  pose proof (forwardSession_sessionManager env now
                ((if hasWindow env && hasNotifySessionUnlock env
                  then [api_notifySessionUnlock] else []) ++
                 [session_unlocked now
                    (now - default 0 (lockTime (sessionManager g)))
                    (unlockMethod sm2)])
                (withSession sm2 (withTracker tr g))) as Hs.
  destruct (forwardSession env now _ (withSession sm2 (withTracker tr g)))
    as [g2 log].
  simpl in *. subst g2. simpl. rewrite He.
  assert (Hen2 : enabled tr = true) by congruence.
  destruct (startTracking_arms env now noOptions tr Hen2 Hidle)
    as (_ & T2 & _ & _ & _ & T6 & T7).
  split; [exact H2|]. split; [exact T2|].
  split; [unfold hasDeadline; rewrite T6, T7; reflexivity|].
  apply in_or_app. left. apply in_or_app. right. left. reflexivity.
Qed.

Lemma stop_restarts_tracking_after_unlock_witness :
  let r := stop rendererEnv 700000
             (clickGuardTimedOut.1, clickGuardTimedOut.2) in
  isLocked (sessionManager r.1.1) = false /\
  isTracking (activityTracker r.1.1) = true /\
  hasDeadline (activityTracker r.1.1) = true /\
  In (onGuard, afk_guard_stopped) r.2.
Proof.
  refine (stop_restarts_tracking_after_unlock rendererEnv 700000
            clickGuardTimedOut.1 clickGuardTimedOut.2 _ _ _ _);
    vm_compute; reflexivity.
Defined.

Lemma forwardSession_tracker_only env now evs g :
  guardEnabled (forwardSession env now evs g).1 = guardEnabled g.
Proof.
  revert g. induction evs as [|ev evs IH]; intros g; [reflexivity|].
  simpl. destruct (onSessionEvent env now ev g) as [g1 l1] eqn:E1.
  specialize (IH g1). destruct (forwardSession env now evs g1) as [g2 l2].
  simpl in *. rewrite IH.
  destruct ev; simpl in E1; try (injection E1 as <- _; reflexivity).
  - destruct (stopTracking env (activityTracker g)).
    injection E1 as <- _. reflexivity.
  - destruct (if guardEnabled g then _ else _).
    injection E1 as <- _. reflexivity.
Qed.

Lemma guardLockSession_sessionManager env now draws st :
  sessionManager (guardLockSession env now draws st).1.1
  = (lockSession env now draws (sessionManager st.1, st.2)).1.1 /\
  (guardLockSession env now draws st).1.2
  = (lockSession env now draws (sessionManager st.1, st.2)).1.2 /\
  guardEnabled (guardLockSession env now draws st).1.1 = guardEnabled st.1.
Proof.
  unfold guardLockSession.
  destruct (lockSession env now draws (sessionManager st.1, st.2))
    as [[sm doc] evs].
  pose proof (forwardSession_sessionManager env now evs (withSession sm st.1))
    as Hs.
  pose proof (forwardSession_tracker_only env now evs (withSession sm st.1))
    as He.
  destruct (forwardSession env now evs (withSession sm st.1)) as [g log].
  simpl in *. auto.
Qed.

Ltac find_in :=
  first [ left; reflexivity
        | apply in_or_app; right; left; reflexivity
        | apply in_or_app; left; apply in_or_app; right; left; reflexivity
        | right; find_in ].

(** A lock made directly on the session manager stops the tracker as
    a timeout does.  When [lockSession()] locks the unlocked session of
    a guard, the [session-locked] listener stops the tracker (a
    tracking tracker loses both handles) and the guard emits
    [session-locked]; on a session that is already locked the call
    changes nothing and emits nothing. *)
Theorem direct_lock_stops_the_tracker env now draws g doc :
  let r := guardLockSession env now draws (g, doc) in
  (isLocked (sessionManager g) = false ->
   isLocked (sessionManager r.1.1) = true /\
   isTracking (activityTracker r.1.1) = false /\
   (isTracking (activityTracker g) = true ->
    timer (activityTracker r.1.1) = None /\
    warningTimer (activityTracker r.1.1) = None) /\
   In (onGuard, session_locked now) r.2) /\
  (isLocked (sessionManager g) = true -> r = (g, doc, [])).
Proof.
  intros r. subst r. split; intros Hl.
  - unfold guardLockSession. simpl.
    destruct (lockSession_unlocked env now draws (sessionManager g) doc Hl)
      as (sm' & -> & Hl' & _).
    set (b := blankSensitiveData env draws _). clearbody b.
    pose proof (stopTracking_idle env (activityTracker g)) as [Hidle Htm].
    destruct (hasWindow env && hasNotifySessionLock env); simpl;
      destruct (stopTracking env (activityTracker g)) as [tr evs];
      simpl in *;
      (split; [exact Hl'|]); (split; [exact Hidle|]); (split; [exact Htm|]);
      find_in.
  - unfold guardLockSession. cbn [fst snd].
    rewrite (lockSession_locked env now draws (sessionManager g, doc) Hl).
    simpl. destruct g; reflexivity.
Qed.

(** A disabled guard never locks.  While [enabled] is false on the
    guard, the tracker's callbacks and the host's signals reach the
    tracker only: they leave the session manager and the document as
    they were. *)
Theorem disabled_guard_never_locks env now draws f g doc :
  guardEnabled g = false ->
  (onTracker_run env now draws f (g, doc)).1
  = (withTracker (f (activityTracker g)).1 g, doc).
Proof.
  intros He. unfold onTracker_run. simpl.
  destruct (f (activityTracker g)) as [tr evs]. simpl.
  assert (H : forall st, guardEnabled st.1 = false ->
                         (forwardTracker env now draws evs st).1 = st).
  { induction evs as [|ev evs IH]; intros st Hst; [reflexivity|].
    simpl.
    assert (E : onTrackerEvent env now draws ev st
                = (st, (onTrackerEvent env now draws ev st).2)).
    { destruct ev; simpl; try reflexivity. rewrite Hst. reflexivity. }
    rewrite E. specialize (IH st Hst).
    destruct (forwardTracker env now draws evs st) as [st2 l2].
    simpl in *. exact IH. }
  apply (H (withTracker tr g, doc)). exact He.
Qed.

Lemma disabled_guard_never_locks_witness :
  (onTracker_run rendererEnv 600000 (sampleDraws 0) (fireTimer 600000)
     (configure None None (Some false) startedGuard, sampleDoc)).1
  = (withTracker
       (fireTimer 600000
          (activityTracker (configure None None (Some false) startedGuard))).1
       (configure None None (Some false) startedGuard), sampleDoc).
Proof.
  refine (disabled_guard_never_locks rendererEnv 600000 (sampleDraws 0)
            (fireTimer 600000)
            (configure None None (Some false) startedGuard) sampleDoc _).
  vm_compute. reflexivity.
Defined.

Lemma forwardTracker_vault env now draws evs :
  forall st,
    vaultInvariant env (sessionManager st.1) ->
    vaultInvariant env
      (sessionManager (forwardTracker env now draws evs st).1.1).
Proof.
  induction evs as [|ev evs IH]; intros st Hinv; [exact Hinv|].
  simpl.
  assert (H1 : vaultInvariant env
                 (sessionManager (onTrackerEvent env now draws ev st).1.1)).
  { destruct ev; simpl; try exact Hinv.
    destruct (guardEnabled st.1); [|exact Hinv].
    destruct (guardLockSession_sessionManager env now draws st) as (-> & _).
    exact (vaultInvariant_runOp env (op_lockSession now draws)
             (sessionManager st.1, st.2) Hinv). }
  destruct (onTrackerEvent env now draws ev st) as [st1 l1].
  specialize (IH st1 H1).
  destruct (forwardTracker env now draws evs st1) as [st2 l2]. exact IH.
Qed.

Lemma vaultInvariant_runGuardOp env op st :
  configuresSession op = false ->
  vaultInvariant env (sessionManager st.1) ->
  vaultInvariant env (sessionManager (runGuardOp env op st).1).
Proof.
  intros Hop Hinv.
  destruct op as [now options|now|now draws sig|now draws|now draws|now draws
                  |now creds|activity method en|state|state|doc]; simpl;
    try discriminate Hop.
  - unfold start. destruct (guardEnabled st.1); simpl; [|exact Hinv].
    destruct (startTracking env now (g_activity options) (activityTracker st.1)).
    exact Hinv.
  - unfold stop. destruct (stopTracking env (activityTracker st.1)) as [tr evs].
    simpl. unfold isSessionLocked.
    destruct (if isLocked (sessionManager st.1) then _ else _) as [r|isValid];
      [exact Hinv|].
    pose proof (vaultInvariant_resume env now isValid
                  (sessionManager st.1, st.2) Hinv) as Hr.
    destruct (unlockSession_resume env now isValid (sessionManager st.1, st.2))
      as [[[sm doc] evs2] res].
    pose proof (forwardSession_sessionManager env now evs2
                  (withSession sm (withTracker tr st.1))) as Hs.
    destruct (forwardSession env now evs2 (withSession sm (withTracker tr st.1)))
      as [g2 log2].
    simpl in *. rewrite Hs. exact Hr.
  - unfold guardDeliver, onTracker_run.
    destruct (deliver env now sig (activityTracker st.1)) as [tr evs].
    apply forwardTracker_vault. exact Hinv.
  - unfold guardFireTimer, onTracker_run.
    destruct (fireTimer now (activityTracker st.1)) as [tr evs].
    apply forwardTracker_vault. exact Hinv.
  - unfold guardFireWarningTimer, onTracker_run.
    destruct (fireWarningTimer now (activityTracker st.1)) as [tr evs].
    apply forwardTracker_vault. exact Hinv.
  - destruct (guardLockSession_sessionManager env now draws st) as (-> & _).
    exact (vaultInvariant_runOp env (op_lockSession now draws)
             (sessionManager st.1, st.2) Hinv).
  - unfold guardUnlockSession.
    pose proof (vaultInvariant_runOp env (op_unlockSession now creds)
                  (sessionManager st.1, st.2) Hinv) as Hr.
    simpl in Hr.
    destruct (unlockSession env now creds (sessionManager st.1, st.2))
      as [[[sm doc] evs] res].
    pose proof (forwardSession_sessionManager env now evs (withSession sm st.1))
      as Hs.
    destruct (forwardSession env now evs (withSession sm st.1)) as [g log].
    simpl in *. rewrite Hs. exact Hr.
  - destruct method; exact Hinv.
  - exact Hinv.
  - exact Hinv.
Qed.

(** The vault invariant holds for the whole guard.  Take a guard made
    by [createAFKGuard], then any sequence of [start], [stop], host
    signals, timer callbacks, direct locks and unlocks, changes of the
    document, and calls of [configure] that set configuration or fields
    of the tracker's state, but none that names a field of the session
    manager's state.  Then whenever the session is unlocked the backup
    is empty, and where there is no window the backup is always
    empty. *)
Theorem guard_keeps_vault_empty_when_unlocked env options t0 doc ops :
  forallb (fun op => negb (configuresSession op)) ops = true ->
  let st := runGuardOps env ops (createAFKGuard env options t0, doc) in
  (isLocked (sessionManager st.1) = false ->
   sensitiveDataBackup (sessionManager st.1) = []) /\
  (hasWindow env = false -> sensitiveDataBackup (sessionManager st.1) = []).
Proof.
  intros Hops st. subst st. unfold runGuardOps.
  assert (H : forall st, vaultInvariant env (sessionManager st.1) ->
                vaultInvariant env
                  (sessionManager
                     (foldl (fun s op => runGuardOp env op s) st ops).1)).
  { induction ops as [|op ops IH]; intros st Hinv; [exact Hinv|].
    simpl in Hops. apply andb_prop in Hops as [Hop Hops].
    apply negb_true_iff in Hop.
    simpl. apply (IH Hops). apply vaultInvariant_runGuardOp; assumption. }
  apply (H (createAFKGuard env options t0, doc)).
  apply vaultInvariant_new.
Qed.

Lemma guard_keeps_vault_empty_when_unlocked_witness :
  let state := {| s_timer := None; s_warningTimer := None;
                  s_isTracking := Some false; s_lastActivity := None;
                  s_activityEvents := None; s_audioCheckInterval := None |} in
  let ops := [g_start 0 noGuardOptions;
              g_configure (Some (withSensitivity High)) (Some "password") None;
              g_timer 600000 (sampleDraws 0);
              g_configureActivity state;
              g_unlockSession 700000 (cred_object (Some "default"))] in
  let st := runGuardOps rendererEnv ops
              (createAFKGuard rendererEnv noGuardOptions 0, bodyPage) in
  (isLocked (sessionManager st.1) = false ->
   sensitiveDataBackup (sessionManager st.1) = []) /\
  (hasWindow rendererEnv = false ->
   sensitiveDataBackup (sessionManager st.1) = []).
Proof.
  refine (guard_keeps_vault_empty_when_unlocked rendererEnv noGuardOptions 0
            bodyPage
            [g_start 0 noGuardOptions;
             g_configure (Some (withSensitivity High)) (Some "password") None;
             g_timer 600000 (sampleDraws 0);
             g_configureActivity
               {| s_timer := None; s_warningTimer := None;
                  s_isTracking := Some false; s_lastActivity := None;
                  s_activityEvents := None; s_audioCheckInterval := None |};
             g_unlockSession 700000 (cred_object (Some "default"))] _).
  vm_compute. reflexivity.
Defined.

(** In the run of the witness the timeout locked the session and the
    password unlocked it; and [configure({session: {isLocked: false}})]
    on a locked session is what the theorem leaves out: it gives an
    unlocked session whose backup is full. *)
Example configure_isLocked_leaves_the_backup :
  let ops := [g_start 0 noGuardOptions;
              g_configure None (Some "password") None;
              g_timer 600000 (sampleDraws 0)] in
  let locked := runGuardOps rendererEnv ops
                  (createAFKGuard rendererEnv noGuardOptions 0, bodyPage) in
  let state := {| s_isLocked := Some false; s_lockTime := None;
                  s_sensitiveDataBackup := None; s_memoryCache := None |} in
  let st := runGuardOp rendererEnv (g_configureSession state) locked in
  isLocked (sessionManager locked.1) = true /\
  length (sensitiveDataBackup (sessionManager locked.1)) = 2%nat /\
  isLocked (sessionManager st.1) = false /\
  length (sensitiveDataBackup (sessionManager st.1)) = 2%nat /\
  isLocked
    (sessionManager
       (runGuardOp rendererEnv
          (g_unlockSession 700000 (cred_object (Some "default"))) locked).1)
  = false.
Proof. vm_compute. repeat split. Qed.

Lemma truthyS_nonempty (s : string) : s <> "" -> truthyS (Some s) = Some s.
Proof.
  intros H. unfold truthyS. destruct (String.eqb_spec s ""); [contradiction|].
  reflexivity.
Qed.

Lemma truthyZ_idem v d :
  d <> 0 ->
  truthyZ (Some (match truthyZ v with Some z => z | None => d end))
  = Some (match truthyZ v with Some z => z | None => d end).
Proof.
  intros Hd. destruct (truthyZ v) as [z|] eqn:E; simpl.
  - pose proof (truthyZ_nonzero v z E) as Hz.
    destruct (Z.eqb_spec z 0); [contradiction|reflexivity].
  - destruct (Z.eqb_spec d 0); [contradiction|reflexivity].
Qed.

(** Passing the default configuration changes nothing but the
    sensitivity.  A guard created from [getDefaultConfig()] has the
    same session manager, the same [enabled] flags and the same
    durations as a guard created without options; only its sensitivity
    follows [AFK_SENSITIVITY], which the constructor alone ignores. *)
Theorem default_config_builds_the_default_guard env AFK_SENSITIVITY now :
  let g := createAFKGuard env (getDefaultConfig env AFK_SENSITIVITY) now in
  let g0 := createAFKGuard env noGuardOptions now in
  sessionManager g = sessionManager g0 /\
  guardEnabled g = guardEnabled g0 /\
  enabled (activityTracker g) = enabled (activityTracker g0) /\
  timeout (activityTracker g) = timeout (activityTracker g0) /\
  warningTime (activityTracker g) = warningTime (activityTracker g0) /\
  sensitivity (activityTracker g0) = "normal" /\
  sensitivity (activityTracker g)
  = match truthyS AFK_SENSITIVITY with Some s => s | None => "normal" end.
Proof.
  unfold createAFKGuard, newAFKGuard, newActivityTracker, newSessionManager,
    getDefaultConfig, noGuardOptions, noOptions.
  cbn [g_activity g_unlockMethod g_enabled o_timeout o_warningTime
       o_sensitivity o_enabled activityTracker sessionManager guardEnabled
       timeout warningTime sensitivity enabled].
  rewrite !truthyZ_idem by lia.
  assert (Hm : forall o d, d <> "" ->
             truthyS (Some (match truthyS o with Some m => m | None => d end))
             = Some (match truthyS o with Some m => m | None => d end)).
  { intros o d Hd. apply truthyS_nonempty.
    destruct o as [m|]; simpl; [|exact Hd].
    destruct (String.eqb_spec m ""); [exact Hd | assumption]. }
  rewrite !Hm by discriminate.
  destruct (notFalseString (AFK_ENABLED env)); repeat split.
Qed.

(** [start(options)] on a guard that is already tracking drops the
    options: the tracker keeps its durations, its sensitivity and its
    pending deadlines, and the guard still emits [afk-guard-started]. *)
Theorem start_while_tracking_ignores_options env now options g :
  guardEnabled g = true ->
  isTracking (activityTracker g) = true ->
  start env now options g = (g, [(onGuard, afk_guard_started)]).
Proof.
  intros He Ht. unfold start. rewrite He. simpl.
  rewrite (startTracking_ignored env now (g_activity options)
             (activityTracker g) (or_intror Ht)).
  destruct g; reflexivity.
Qed.

Lemma start_while_tracking_ignores_options_witness :
  start rendererEnv 5000
    {| g_activity := badDurations; g_unlockMethod := None; g_enabled := None |}
    startedGuard
  = (startedGuard, [(onGuard, afk_guard_started)]).
Proof.
  refine (start_while_tracking_ignores_options rendererEnv 5000
            {| g_activity := badDurations; g_unlockMethod := None;
               g_enabled := None |} startedGuard _ _);
    vm_compute; reflexivity.
Defined.

(** [configure] does not restart the timer.  Giving a tracking guard a
    new timeout through [configure] stores the value but leaves both
    pending handles as they were armed; the new timeout is used from
    the next pulse on, which arms the timeout handle with it. *)
Theorem configure_takes_effect_on_next_pulse env now type newTimeout g :
  isTracking (activityTracker g) = true ->
  100 <= now - lastActivity (activityTracker g) ->
  let g' := configure
              (Some {| o_timeout := Some newTimeout; o_warningTime := None;
                       o_sensitivity := None; o_enabled := None |})
              None None g in
  timeout (activityTracker g') = newTimeout /\
  timer (activityTracker g') = timer (activityTracker g) /\
  warningTimer (activityTracker g') = warningTimer (activityTracker g) /\
  timer (handleActivity env now type (activityTracker g')).1
  = Some (setTimeout now newTimeout) /\
  warningTimer (handleActivity env now type (activityTracker g')).1
  = Some (setTimeout now (newTimeout - warningTime (activityTracker g))).
Proof.
  intros Ht Hn g'. subst g'. simpl.
  split; [reflexivity|]. split; [reflexivity|]. split; [reflexivity|].
  unfold handleActivity, resetTimer. simpl. rewrite Ht. simpl.
  destruct (Z.ltb_spec (now - lastActivity (activityTracker g)) 100); [lia|].
  simpl. auto.
Qed.

Lemma configure_takes_effect_on_next_pulse_witness :
  let g' := configure
              (Some {| o_timeout := Some 30000; o_warningTime := None;
                       o_sensitivity := None; o_enabled := None |})
              None None startedGuard in
  timeout (activityTracker g') = 30000 /\
  timer (activityTracker g') = timer (activityTracker startedGuard) /\
  warningTimer (activityTracker g')
  = warningTimer (activityTracker startedGuard) /\
  timer (handleActivity rendererEnv 5000 (Some "keydown")
           (activityTracker g')).1
  = Some (setTimeout 5000 30000) /\
  warningTimer (handleActivity rendererEnv 5000 (Some "keydown")
                  (activityTracker g')).1
  = Some (setTimeout 5000
            (30000 - warningTime (activityTracker startedGuard))).
Proof.
  refine (configure_takes_effect_on_next_pulse rendererEnv 5000
            (Some "keydown") 30000 startedGuard _ _);
    [vm_compute; reflexivity | vm_compute; discriminate].
Defined.
